(** * ldm: a shallow embedding of the automount daemon (src/ldm.c)

    The daemon keeps a fixed array of device records, two mount-table
    snapshots (fstab and the live table) and talks to the outside world
    through libudev, libmount, the file system and a helper process.

    Conventions of the embedding

    - a C string is a [string]; a [char *] that may be [NULL] is an
      [option string]; the device node of a block device is never [NULL];
    - an [int] that only carries success or failure is a [bool];
    - undefined behaviour of the C program (writing past a fixed buffer,
      [strcmp] on a null pointer) is the outcome [Fault];
    - a [struct device_t *] is the record it points to together with its
      address [dv_addr]; pointer comparison compares addresses;
    - calls that leave the process (mount, umount, mkdir, rmdir, chown,
      syslog, the helper) are appended to a trace, newest first, and their
      results are read from an oracle that sees the trace so far;
    - memory allocation ([calloc], [strdup]) is assumed to succeed. *)

From Stdlib Require Import List String Ascii ZArith Bool Arith Lia DecimalString.
From Equations Require Import Equations.
Import ListNotations.
Local Open Scope string_scope.
Local Open Scope nat_scope.
Local Open Scope list_scope.

Infix "+++" := String.append (right associativity, at level 60).

Set Implicit Arguments.

(** ** Outcomes *)

Inductive outcome (A : Type) : Type :=
| Ok (a : A)
| Fault.
Arguments Ok {A} a.
Arguments Fault {A}.

Definition obind {A B} (m : outcome A) (k : A -> outcome B) : outcome B :=
  match m with
  | Ok a => k a
  | Fault => Fault
  end.

(** ** libudev: the event-source device *)

Record udev_device : Type := mk_udev {
  ud_devnode  : string;                   (* udev_device_get_devnode *)
  ud_devtype  : option string;            (* udev_device_get_devtype *)
  ud_props    : list (string * string);   (* udev_device_get_property_value *)
  ud_devlinks : list string               (* udev_device_get_devlinks_list_entry *)
}.

Fixpoint assoc (key : string) (l : list (string * string)) : option string :=
  match l with
  | [] => None
  | (k, v) :: rest => if String.eqb k key then Some v else assoc key rest
  end.

Definition udev_device_get_property_value (u : udev_device) (key : string)
  : option string :=
  assoc key (ud_props u).

(** ** libmount: mount-table snapshots

    A snapshot is the list of its entries in file order.  The table reader
    is an external capability; entries are queried by source and by option
    membership.  libmount compares a path up to redundant and trailing
    slashes and a tag by its name and value: the sources of a snapshot are
    held here in that normal form (a path without such slashes, a tag as
    NAME=value without quotes), so that the comparison is equality of
    strings.  The resolver is described below by the lookups it makes and
    by what they return, not by the form of the match. *)

Record libmnt_fs : Type := mk_fs {
  fs_source  : string;
  fs_target  : option string;
  fs_options : list string
}.

Definition libmnt_table : Type := list libmnt_fs.

(* mnt_table_find_source(tab, path, MNT_ITER_FORWARD): the first entry, in
   file order, whose source is the key *)
Definition mnt_table_find_source (tab : libmnt_table) (path : string)
  : option libmnt_fs :=
  find (fun fs => String.eqb (fs_source fs) path) tab.

Definition mnt_fs_get_target (fs : libmnt_fs) : option string := fs_target fs.

Definition has_opt (name : string) (fs : libmnt_fs) : bool :=
  existsb (String.eqb name) (fs_options fs).

(* mnt_fs_match_options(fs, pattern) for a pattern of one option: a leading
   '+' asks for the option as written, a leading "no" for its absence. *)
Definition mnt_fs_match_options (fs : libmnt_fs) (pattern : string) : bool :=
  match pattern with
  | String "+" name => has_opt name fs
  | String "n" (String "o" name) => negb (has_opt name fs)
  | name => has_opt name fs
  end.

(** ** Convenience functions for fstab handling *)

(* char keyword[128] *)
Definition KEYWORD_SIZE : nat := 128.

(* strcpy(keyword, tag); strcat(keyword, val): the text and its terminator
   have to fit the buffer. *)
Definition keyword (tag val : string) : outcome string :=
  if String.length tag + String.length val + 1 <=? KEYWORD_SIZE
  then Ok (tag +++ val)
  else Fault.

(* udev_list_entry_foreach over the symbolic links of a volume *)
Fixpoint search_devlinks (tab : libmnt_table) (links : list string)
  : option libmnt_fs :=
  match links with
  | [] => None
  | l :: rest =>
      match mnt_table_find_source tab l with
      | Some fs => Some fs
      | None => search_devlinks tab rest
      end
  end.

(* strncmp(tmp, "/dev/dm-", 8) == 0 *)
Definition is_dm_node (devnode : string) : bool :=
  String.prefix "/dev/dm-" devnode.

Definition search_devnode (tab : libmnt_table) (udev : udev_device)
  : option libmnt_fs :=
  let tmp := ud_devnode udev in
  if negb (is_dm_node tmp)
  then mnt_table_find_source tab tmp
  else search_devlinks tab (ud_devlinks udev).

Definition fstab_search (tab : libmnt_table) (udev : udev_device)
  : outcome (option libmnt_fs) :=
  (* Try matching the /dev node *)
  match search_devnode tab udev with
  | Some ret => Ok (Some ret)
  | None =>
      (* Try matching the uuid *)
      match udev_device_get_property_value udev "ID_FS_UUID" with
      | None => Ok None
      | Some tmp =>
          obind (keyword "UUID=" tmp) (fun kw =>
          match mnt_table_find_source tab kw with
          | Some ret => Ok (Some ret)
          | None =>
              (* Try matching the label *)
              match udev_device_get_property_value udev "ID_FS_LABEL" with
              | None => Ok None
              | Some tmp =>
                  obind (keyword "LABEL=" tmp) (fun kw =>
                  Ok (mnt_table_find_source tab kw))
              end
          end)
      end
  end.

Definition fstab_has_option (tab : libmnt_table) (udev : udev_device)
           (option : string) : outcome bool :=
  obind (fstab_search tab udev) (fun ret =>
  match ret with
  | None => Ok false
  | Some fs => Ok (mnt_fs_match_options fs option)
  end).

(** ** Devices and quirks *)

Inductive device_type : Type :=
| DEVICE_VOLUME
| DEVICE_CD
| DEVICE_UNK.

Definition QUIRK_NONE      : Z := 0.
Definition QUIRK_OWNER_FIX : Z := Z.shiftl 1 0.
Definition QUIRK_UTF8_FLAG : Z := Z.shiftl 1 1.
Definition QUIRK_MASK      : Z := Z.shiftl 1 2.
Definition QUIRK_FLUSH     : Z := Z.shiftl 1 3.

(* A device record as [device_new] hands it to the registry: every string
   is set by then.  [dv_addr] is the address of the allocation. *)
Record device_t : Type := mk_device {
  dv_addr       : nat;
  dv_type       : device_type;
  dv_filesystem : string;
  dv_devnode    : string;
  dv_mountpoint : string;
  dv_udev       : udev_device
}.

Definition MOUNT_PATH    : string := "/mnt/".
Definition CALLBACK_PATH : option string := None.
Definition MAX_DEVICES   : nat := 20.
(* <limits.h> on Linux *)
Definition PATH_MAX      : nat := 4096.
Opaque PATH_MAX.

Definition is_some {A} (o : option A) : bool :=
  match o with
  | Some _ => true
  | None => false
  end.

(* device_has_media reads device->type and device->udev. *)
Definition device_has_media (type : device_type) (udev : udev_device) : bool :=
  match type with
  | DEVICE_VOLUME => is_some (udev_device_get_property_value udev "ID_FS_USAGE")
  | DEVICE_CD => is_some (udev_device_get_property_value udev "ID_CDROM_MEDIA")
  | DEVICE_UNK => false
  end.

Definition fs_table : list (string * Z) :=
  [ ("msdos",   Z.lor QUIRK_OWNER_FIX QUIRK_UTF8_FLAG);
    ("umsdos",  Z.lor QUIRK_OWNER_FIX QUIRK_UTF8_FLAG);
    ("vfat",    Z.lor (Z.lor (Z.lor QUIRK_OWNER_FIX QUIRK_UTF8_FLAG) QUIRK_MASK)
                      QUIRK_FLUSH);
    ("exfat",   QUIRK_OWNER_FIX);
    ("ntfs",    Z.lor QUIRK_OWNER_FIX QUIRK_UTF8_FLAG);
    ("iso9660", Z.lor QUIRK_OWNER_FIX QUIRK_UTF8_FLAG);
    ("udf",     QUIRK_OWNER_FIX) ].

Fixpoint quirks_scan (table : list (string * Z)) (fs : string) : Z :=
  match table with
  | [] => QUIRK_NONE
  | (name, quirks) :: rest =>
      if String.eqb name fs then quirks else quirks_scan rest fs
  end.

Definition filesystem_quirks (fs : string) : Z := quirks_scan fs_table fs.

Definition quirk_set (quirks flag : Z) : bool :=
  negb (Z.eqb (Z.land quirks flag) 0).

(** ** The mountpoint namer *)

(* snprintf(tmp, size, "%s%s", a, b): at most size - 1 characters are kept *)
Definition snprintf2 (size : nat) (a b : string) : string :=
  substring 0 (size - 1) (a +++ b).

(* Replace the whitespaces: every ' ' of tmp becomes '_' *)
Fixpoint replace_whitespaces (s : string) : string :=
  match s with
  | EmptyString => EmptyString
  | String c rest =>
      String (if Ascii.eqb c " " then "_"%char else c) (replace_whitespaces rest)
  end.

(* while (!stat(tmp, &st)) { ... strcat(tmp, "_"); }
   [stat p = true] when stat(2) finds the path.  tmp has PATH_MAX bytes:
   with PATH_MAX - 1 characters in it, strcat writes past its end. *)
Equations? mountpoint_retry (stat : string -> bool) (tmp : string)
  : outcome (option string) by wf (PATH_MAX - String.length tmp) lt :=
  mountpoint_retry stat tmp with stat tmp := {
    | false := Ok (Some tmp)
    | true with Nat.eq_dec (String.length tmp) (PATH_MAX - 2) := {
        | left _ := Ok None
        | right _ with le_lt_dec (PATH_MAX - 1) (String.length tmp) := {
            | left _ := Fault
            | right _ := mountpoint_retry stat (tmp +++ "_") } } }.
Proof.
  assert (Hlen : String.length (tmp +++ "_") = S (String.length tmp))
    by (clear; induction tmp as [|c s IH]; simpl; congruence).
  lia.
Qed.

Definition device_create_mountpoint (stat : string -> bool) (udev : udev_device)
  : outcome (option string) :=
  let label  := udev_device_get_property_value udev "ID_FS_LABEL" in
  let uuid   := udev_device_get_property_value udev "ID_FS_UUID" in
  let serial := udev_device_get_property_value udev "ID_SERIAL" in
  let name :=
    match label with
    | Some l => Some l
    | None =>
        match uuid with
        | Some u => Some u
        | None => serial
        end
    end in
  match name with
  | None => Ok None
  | Some n =>
      mountpoint_retry stat (replace_whitespaces (snprintf2 PATH_MAX MOUNT_PATH n))
  end.

(** ** The outside world *)

Inductive event : Type :=
| EvSyslog (msg : string) (arg : string)
| EvMkdir (path : string) (mode : Z)
| EvRmdir (path : string)
| EvMount (fstype source target options : string) (rdonly : bool)
| EvUmount (target : string)
| EvChown (path : string) (uid gid : Z)
| EvSpawn (helper : option string) (action mountpoint : string).

(* What the system answers, given everything the daemon did before. *)
Record world : Type := mk_world {
  (* stat(path, &st) == 0 *)
  os_stat   : list event -> string -> bool;
  (* mnt_context_mount(ctx) == 0 *)
  os_mount  : list event -> string -> string -> string -> string -> bool -> bool;
  (* mnt_context_umount(ctx) == 0 *)
  os_umount : list event -> string -> bool;
  (* chown(path, uid, gid) == 0 *)
  os_chown  : list event -> string -> Z -> Z -> bool;
  (* the value spawn_helper returns once the child was waited for *)
  os_helper : list event -> string -> string -> string -> Z
}.

(** ** The daemon state: the static globals of ldm.c *)

Record daemon : Type := mk_daemon {
  g_devices : list (option device_t);
  g_fstab   : libmnt_table;
  g_mtab    : libmnt_table;
  g_uid     : Z;
  g_gid     : Z;
  g_trace   : list event
}.

Definition set_devices (slots : list (option device_t)) (st : daemon) : daemon :=
  mk_daemon slots (g_fstab st) (g_mtab st) (g_uid st) (g_gid st) (g_trace st).

Definition set_fstab (tab : libmnt_table) (st : daemon) : daemon :=
  mk_daemon (g_devices st) tab (g_mtab st) (g_uid st) (g_gid st) (g_trace st).

Definition set_mtab (tab : libmnt_table) (st : daemon) : daemon :=
  mk_daemon (g_devices st) (g_fstab st) tab (g_uid st) (g_gid st) (g_trace st).

Definition add_event (e : event) (st : daemon) : daemon :=
  mk_daemon (g_devices st) (g_fstab st) (g_mtab st) (g_uid st) (g_gid st)
            (e :: g_trace st).

(** A computation of the daemon: it reads and writes the globals and may
    run into undefined behaviour. *)
Definition M (A : Type) : Type := daemon -> outcome (A * daemon).

Definition ret {A} (a : A) : M A := fun st => Ok (a, st).

Definition bind {A B} (m : M A) (k : A -> M B) : M B :=
  fun st =>
    match m st with
    | Ok (a, st') => k a st'
    | Fault => Fault
    end.

Notation "x <- m ;; k" := (bind m (fun x => k))
  (at level 61, m at next level, right associativity).
Notation "m ;;; k" := (bind m (fun _ => k))
  (at level 61, right associativity).

Definition gets {A} (f : daemon -> A) : M A := fun st => Ok (f st, st).
Definition modify (f : daemon -> daemon) : M unit := fun st => Ok (tt, f st).
Definition lift {A} (o : outcome A) : M A :=
  fun st => obind o (fun a => Ok (a, st)).
Definition emit (e : event) : M unit := modify (add_event e).

(** ** The registry: g_devices[MAX_DEVICES] *)

(* calloc(1, sizeof(struct device_t)): an address no live record has *)
Definition slot_addr (slot : option device_t) : nat :=
  match slot with
  | Some d => dv_addr d
  | None => 0
  end.

Definition calloc_device (st : daemon) : nat :=
  S (list_max (map slot_addr (g_devices st))).

Fixpoint register_scan (slots : list (option device_t)) (dev : device_t)
  : option (list (option device_t)) :=
  match slots with
  | [] => None
  | None :: rest => Some (Some dev :: rest)
  | Some d :: rest =>
      match register_scan rest dev with
      | Some rest' => Some (Some d :: rest')
      | None => None
      end
  end.

Definition device_register (dev : device_t) : M bool :=
  fun st =>
    match register_scan (g_devices st) dev with
    | Some slots => Ok (true, set_devices slots st)
    | None => Ok (false, st)
    end.

(* The slot found by the loop of device_destroy is cleared; the record is
   named by its address. *)
Fixpoint destroy_scan (slots : list (option device_t)) (dev : nat)
  : list (option device_t) :=
  match slots with
  | [] => []
  | Some d :: rest =>
      if dv_addr d =? dev then None :: rest else Some d :: destroy_scan rest dev
  | None :: rest => None :: destroy_scan rest dev
  end.

Definition device_destroy (dev : nat) : M unit :=
  modify (fun st => set_devices (destroy_scan (g_devices st) dev) st).

Definition device_matches (path : string) (d : device_t) : bool :=
  String.eqb (dv_devnode d) path || String.eqb (dv_mountpoint d) path.

Fixpoint search_scan (slots : list (option device_t)) (path : string)
  : option device_t :=
  match slots with
  | [] => None
  | Some d :: rest =>
      if device_matches path d then Some d else search_scan rest path
  | None :: rest => search_scan rest path
  end.

(* Path is either the /dev/ node or the mountpoint *)
Definition device_search (path : option string) (st : daemon) : option device_t :=
  match path with
  | None => None
  | Some p => search_scan (g_devices st) p
  end.

Definition device_is_mounted (dev : udev_device) : M bool :=
  fun st =>
    (* Use fstab_search to resolve lvm names *)
    obind (fstab_search (g_mtab st) dev) (fun ret => Ok (is_some ret, st)).

(** ** The lifecycle controller *)

(* The two tests of device_new on DEVTYPE and ID_TYPE; strcmp is applied to
   ID_TYPE without a null check in the first of them. *)
Definition classify (dev_type dev_idtype : option string) : outcome device_type :=
  obind
    (match dev_type with
     | None => Fault
     | Some t =>
         if String.eqb t "partition" || String.eqb t "disk" then Ok true
         else match dev_idtype with
              | None => Fault
              | Some i => Ok (String.eqb i "floppy")
              end
     end)
    (fun volume =>
       let type := if volume then DEVICE_VOLUME else DEVICE_UNK in
       Ok (match dev_idtype with
           | Some i => if String.eqb i "cd" then DEVICE_CD else type
           | None => type
           end)).

Definition unwanted_filesystem (fs : string) : bool :=
  String.eqb fs "swap" || String.eqb fs "LVM2_member" || String.eqb fs "crypto_LUKS".

Definition decimal (z : Z) : string := NilZero.string_of_int (Z.to_int z).

(* The option string device_mount prints into opt_fmt *)
Definition mount_options (quirks uid gid : Z) : string :=
  if Z.eqb quirks QUIRK_NONE then ""
  else
    (if quirk_set quirks QUIRK_OWNER_FIX
     then "uid=" +++ decimal uid +++ ",gid=" +++ decimal gid +++ ","
     else "")
    +++ (if quirk_set quirks QUIRK_UTF8_FLAG then "utf8," else "")
    +++ (if quirk_set quirks QUIRK_FLUSH then "flush," else "")
    +++ (if quirk_set quirks QUIRK_MASK then "dmask=000,fmask=111," else "").

Section Daemon.

Variable w : world.

(* The fork/exec/wait of spawn_helper happens only with a helper set. *)
Definition spawn_helper (helper : option string) (action mountpoint : string)
  : M Z :=
  tr <- gets g_trace ;;
  emit (EvSpawn helper action mountpoint) ;;;
  match helper with
  | None => ret 0%Z
  | Some h => ret (os_helper w tr h action mountpoint)
  end.

Definition device_new (dev : udev_device) : M (option device_t) :=
  (* First of all check wether we're dealing with a noauto device *)
  fstab <- gets g_fstab ;;
  noauto <- lift (fstab_has_option fstab dev "+noauto") ;;
  if (noauto : bool) then ret None
  else
    device <- gets calloc_device ;;
    let devnode := ud_devnode dev in
    let filesystem := udev_device_get_property_value dev "ID_FS_TYPE" in
    let dev_type := ud_devtype dev in
    let dev_idtype := udev_device_get_property_value dev "ID_TYPE" in
    match filesystem with
    | None => device_destroy device ;;; ret None
    | Some fs =>
        if unwanted_filesystem fs then device_destroy device ;;; ret None
        else
          type <- lift (classify dev_type dev_idtype) ;;
          match type with
          | DEVICE_UNK => device_destroy device ;;; ret None
          | _ =>
              fstab_entry <- lift (fstab_search fstab dev) ;;
              if negb (device_has_media type dev)
              then device_destroy device ;;; ret None
              else
                tr <- gets g_trace ;;
                mountpoint <-
                  lift (match fstab_entry with
                        | Some e => Ok (mnt_fs_get_target e)
                        | None => device_create_mountpoint (os_stat w tr) dev
                        end) ;;
                match mountpoint with
                | None =>
                    emit (EvSyslog "Couldn't make up a mountpoint name. Please report this bug." "") ;;;
                    device_destroy device ;;; ret None
                | Some mp =>
                    let record := mk_device device type fs devnode mp dev in
                    registered <- device_register record ;;
                    if (registered : bool) then ret (Some record)
                    else device_destroy device ;;; ret None
                end
          end
    end.

Definition device_unmount (dev : udev_device) : M bool :=
  found <- gets (device_search (Some (ud_devnode dev))) ;;
  match found with
  | None => ret false
  | Some device =>
      mounted <- device_is_mounted dev ;;
      umount_failed <-
        (if (mounted : bool) then
           tr <- gets g_trace ;;
           emit (EvUmount (dv_devnode device)) ;;;
           if os_umount w tr (dv_devnode device) then ret false
           else
             emit (EvSyslog "Error while unmounting %s (%s)" (dv_devnode device)) ;;;
             ret true
         else ret false) ;;
      if (umount_failed : bool) then ret false
      else
        emit (EvRmdir (dv_mountpoint device)) ;;;
        spawn_helper CALLBACK_PATH "unmount" (dv_mountpoint device) ;;;
        device_destroy (dv_addr device) ;;;
        ret true
  end.

Definition device_mount (dev : udev_device) : M bool :=
  created <- device_new dev ;;
  match created with
  | None => ret false
  | Some device =>
      emit (EvMkdir (dv_mountpoint device) 755) ;;;
      (* Some filesystems just want to watch the world burn *)
      let quirks := filesystem_quirks (dv_filesystem device) in
      uid <- gets g_uid ;;
      gid <- gets g_gid ;;
      let opt_fmt := mount_options quirks uid gid in
      let rdonly := match dv_type device with DEVICE_CD => true | _ => false end in
      tr <- gets g_trace ;;
      emit (EvMount (dv_filesystem device) (dv_devnode device)
                    (dv_mountpoint device) opt_fmt rdonly) ;;;
      if negb (os_mount w tr (dv_filesystem device) (dv_devnode device)
                        (dv_mountpoint device) opt_fmt rdonly)
      then
        emit (EvSyslog "Error while mounting %s (%s)" (dv_devnode device)) ;;;
        device_unmount dev ;;;
        ret false
      else
        chown_failed <-
          (if negb (quirk_set quirks QUIRK_OWNER_FIX) then
             tr <- gets g_trace ;;
             emit (EvChown (dv_mountpoint device) uid gid) ;;;
             ret (negb (os_chown w tr (dv_mountpoint device) uid gid))
           else ret false) ;;
        if (chown_failed : bool) then
          emit (EvSyslog "Cannot chown %s" (dv_mountpoint device)) ;;;
          device_unmount dev ;;;
          ret false
        else
          spawn_helper CALLBACK_PATH "mount" (dv_mountpoint device) ;;;
          ret true
  end.

Definition device_change (dev : udev_device) : M bool :=
  found <- gets (device_search (Some (ud_devnode dev))) ;;
  (* Unmount the old media... *)
  stop <-
    match found with
    | Some _ =>
        mounted <- device_is_mounted dev ;;
        if (mounted : bool) then
          unmounted <- device_unmount dev ;;
          ret (negb unmounted)
        else ret false
    | None => ret false
    end ;;
  if (stop : bool) then ret false
  else
    (* ...and mount the new one if present *)
    mounted <- device_mount dev ;;
    if (mounted : bool) then ret true else ret false.

(** ** The command pipe *)

(* msg + 1 *)
Definition skip_command (msg : string) : string :=
  match msg with
  | String _ path => path
  | EmptyString => EmptyString
  end.

(* if (msg[strlen(msg) - 1] == '/') msg[strlen(msg) - 1] = 0 *)
Definition strip_trailing_slash (msg : string) : string :=
  let last := String.length msg - 1 in
  match String.get last msg with
  | Some c => if Ascii.eqb c "/" then substring 0 last msg else msg
  | None => msg
  end.

Definition handle_ipc_event (msg : string) : M unit :=
  (* Keep it simple *)
  match msg with
  | String "R" _ =>
      (* Strip the trailing slash. Brutally. *)
      let msg := strip_trailing_slash msg in
      found <- gets (device_search (Some (skip_command msg))) ;;
      match found with
      | Some device =>
          mounted <- device_is_mounted (dv_udev device) ;;
          if (mounted : bool) then device_unmount (dv_udev device) ;;; ret tt
          else ret tt
      | None => ret tt
      end
  | _ => ret tt
  end.

(** ** Loops over the whole array *)

Definition slot_at (j : nat) (st : daemon) : option device_t :=
  nth j (g_devices st) None.

Fixpoint clear_slot (j : nat) (slots : list (option device_t))
  : list (option device_t) :=
  match slots, j with
  | [], _ => []
  | _ :: rest, 0 => None :: rest
  | s :: rest, S j' => s :: clear_slot j' rest
  end.

(* The body of both loops runs for j, j + 1, ..., j + n - 1 and reads
   g_devices[j] as the calls before left it. *)
Fixpoint check_loop (n j : nat) : M unit :=
  match n with
  | 0 => ret tt
  | S n' =>
      slot <- gets (slot_at j) ;;
      match slot with
      | Some d =>
          mounted <- device_is_mounted (dv_udev d) ;;
          if (mounted : bool) then ret tt
          else device_unmount (dv_udev d) ;;; ret tt
      | None => ret tt
      end ;;;
      check_loop n' (S j)
  end.

(* Drop all the devices in the table that aren't mounted anymore *)
Definition check_registered_devices : M unit := check_loop MAX_DEVICES 0.

Fixpoint clear_loop (n j : nat) : M unit :=
  match n with
  | 0 => ret tt
  | S n' =>
      slot <- gets (slot_at j) ;;
      match slot with
      | Some d => device_unmount (dv_udev d) ;;; ret tt
      | None => ret tt
      end ;;;
      modify (fun st => set_devices (clear_slot j (g_devices st)) st) ;;;
      clear_loop n' (S j)
  end.

Definition device_list_clear : M unit := clear_loop MAX_DEVICES 0.

(** ** The event loop *)

Fixpoint mount_plugged_devices (devices : list udev_device) : M unit :=
  match devices with
  | [] => ret tt
  | dev :: rest =>
      mounted <- device_is_mounted dev ;;
      (if (mounted : bool) then ret tt else device_mount dev ;;; ret tt) ;;;
      mount_plugged_devices rest
  end.

(* A source poll() reports ready, with what is read from it.  A table that
   could not be parsed is [None]. *)
Inductive input : Type :=
| Hotplug (action : string) (dev : udev_device)
| FstabWritten (tab : option libmnt_table)
| MtabChanged (tab : option libmnt_table)
| Command (msg : string).

(* What the loop of main does for one ready source; the result tells
   whether the loop goes on. *)
Definition main_loop_body (i : input) : M bool :=
  match i with
  | Hotplug action dev =>
      (if String.eqb action "add" then device_mount dev ;;; ret tt
       else if String.eqb action "remove" then device_unmount dev ;;; ret tt
       else if String.eqb action "change" then device_change dev ;;; ret tt
       else ret tt) ;;;
      ret true
  | FstabWritten None => ret false
  | FstabWritten (Some tab) => modify (set_fstab tab) ;;; ret true
  | MtabChanged None => ret false
  | MtabChanged (Some tab) =>
      modify (set_mtab tab) ;;; check_registered_devices ;;; ret true
  | Command msg => handle_ipc_event msg ;;; ret true
  end.

(* The globals when main enters its loop for the first time: the array
   cleared, both tables loaded, nothing done yet. *)
Definition startup (uid gid : Z) (fstab mtab : libmnt_table) : daemon :=
  mk_daemon (repeat None MAX_DEVICES) fstab mtab uid gid [].

Inductive reachable : daemon -> Prop :=
| reach_startup uid gid fstab mtab :
    reachable (startup uid gid fstab mtab)
| reach_plugged devices st st' :
    reachable st ->
    mount_plugged_devices devices st = Ok (tt, st') ->
    reachable st'
| reach_reload fstab mtab st :
    (* both tables are read again after the scan, with no reconciliation *)
    reachable st ->
    reachable (set_mtab mtab (set_fstab fstab st))
| reach_round i st running st' :
    reachable st ->
    main_loop_body i st = Ok (running, st') ->
    reachable st'.

(** The operations the specification names. *)
Inductive operation : Type :=
| OpCreate (dev : udev_device)
| OpMount (dev : udev_device)
| OpUnmount (dev : udev_device)
| OpChange (dev : udev_device)
| OpReconcile
| OpRemove (msg : string).

Definition run (op : operation) : M unit :=
  match op with
  | OpCreate dev => device_new dev ;;; ret tt
  | OpMount dev => device_mount dev ;;; ret tt
  | OpUnmount dev => device_unmount dev ;;; ret tt
  | OpChange dev => device_change dev ;;; ret tt
  | OpReconcile => check_registered_devices
  | OpRemove msg => handle_ipc_event msg
  end.

End Daemon.

(** ** Predicates on states *)

Fixpoint live_records (slots : list (option device_t)) : list device_t :=
  match slots with
  | [] => []
  | Some d :: rest => d :: live_records rest
  | None :: rest => live_records rest
  end.

Definition devnodes (st : daemon) : list string :=
  map dv_devnode (live_records (g_devices st)).

(* No two live records share a device path. *)
Definition unique_devnodes (st : daemon) : Prop := NoDup (devnodes st).

(* Every slot of the array is taken. *)
Definition registry_full (st : daemon) : Prop :=
  List.length (live_records (g_devices st)) = List.length (g_devices st).

(* The array has its declared size. *)
Definition registry_sized (st : daemon) : Prop :=
  List.length (g_devices st) = MAX_DEVICES.

(* The property values fit the keyword buffer of fstab_search, so that no
   table makes it overflow. *)
Definition fits_keyword (tag : string) (value : option string) : Prop :=
  match value with
  | Some v => String.length tag + String.length v + 1 <= KEYWORD_SIZE
  | None => True
  end.

Definition keywords_fit (dev : udev_device) : Prop :=
  fits_keyword "UUID=" (udev_device_get_property_value dev "ID_FS_UUID") /\
  fits_keyword "LABEL=" (udev_device_get_property_value dev "ID_FS_LABEL").

(** ** The specification's wording of the resolver and of the remove key *)

(* Steps 1 to 4 of the resolver as the specification lists them: the device
   path (or the symlinks of a device-mapper node), then the UUID when one
   is known, then the label when one is known. *)
Definition spec_resolve (tab : libmnt_table) (dev : udev_device)
  : option libmnt_fs :=
  let by_tag tag value :=
    match value with
    | Some v => mnt_table_find_source tab (tag +++ v)
    | None => None
    end in
  let step1 :=
    if is_dm_node (ud_devnode dev)
    then search_devlinks tab (ud_devlinks dev)
    else mnt_table_find_source tab (ud_devnode dev) in
  match step1 with
  | Some e => Some e
  | None =>
      match by_tag "UUID=" (udev_device_get_property_value dev "ID_FS_UUID") with
      | Some e => Some e
      | None => by_tag "LABEL=" (udev_device_get_property_value dev "ID_FS_LABEL")
      end
  end.

(* "trailing / on the path is stripped": the key a remove command looks up *)
Fixpoint remove_key (path : string) : string :=
  match path with
  | EmptyString => EmptyString
  | String c EmptyString => if Ascii.eqb c "/" then EmptyString else path
  | String c rest => String c (remove_key rest)
  end.

(* The names of the calls found in a trace, oldest last *)
Fixpoint umount_calls (tr : list event) : list string :=
  match tr with
  | [] => []
  | EvUmount target :: rest => target :: umount_calls rest
  | _ :: rest => umount_calls rest
  end.

Fixpoint underscores (k : nat) : string :=
  match k with
  | 0 => EmptyString
  | S k' => String "_" (underscores k')
  end.

Fixpoint replicate (k : nat) (c : ascii) : string :=
  match k with
  | 0 => EmptyString
  | S k' => String c (replicate k' c)
  end.

(* The name the namer starts from: label, else UUID, else serial *)
Definition first_name (dev : udev_device) : option string :=
  match udev_device_get_property_value dev "ID_FS_LABEL" with
  | Some l => Some l
  | None =>
      match udev_device_get_property_value dev "ID_FS_UUID" with
      | Some u => Some u
      | None => udev_device_get_property_value dev "ID_SERIAL"
      end
  end.

(* The first candidate: base directory and name, cut to the buffer, spaces
   replaced *)
Definition candidate (name : string) : string :=
  replace_whitespaces (snprintf2 PATH_MAX MOUNT_PATH name).

(* The filesystem types create refuses; no type at all is one of them. *)
Definition rejected_filesystem (dev : udev_device) : Prop :=
  match udev_device_get_property_value dev "ID_FS_TYPE" with
  | None => True
  | Some fs => fs = "swap" \/ fs = "LVM2_member" \/ fs = "crypto_LUKS"
  end.

(* The reasons for which create refuses a device, as the specification
   lists them: a noauto override, a refused filesystem type, a kind that is
   neither volume nor optical disc, no media, no mountpoint (the fstab entry
   names none, or the namer fails), and a registry without a free slot. *)
Inductive create_rejected (w : world) (dev : udev_device) (st : daemon) : Prop :=
| reject_noauto :
    fstab_has_option (g_fstab st) dev "+noauto" = Ok true ->
    create_rejected w dev st
| reject_filesystem :
    rejected_filesystem dev ->
    create_rejected w dev st
| reject_kind :
    classify (ud_devtype dev) (udev_device_get_property_value dev "ID_TYPE")
      = Ok DEVICE_UNK ->
    create_rejected w dev st
| reject_media type :
    classify (ud_devtype dev) (udev_device_get_property_value dev "ID_TYPE")
      = Ok type ->
    device_has_media type dev = false ->
    create_rejected w dev st
| reject_target e :
    fstab_search (g_fstab st) dev = Ok (Some e) ->
    mnt_fs_get_target e = None ->
    create_rejected w dev st
| reject_naming :
    fstab_search (g_fstab st) dev = Ok None ->
    device_create_mountpoint (os_stat w (g_trace st)) dev = Ok None ->
    create_rejected w dev st
| reject_full :
    registry_full st ->
    create_rejected w dev st.

(* The inputs on which create leaves defined behaviour: the keyword buffer
   of the fstab lookup overflows, strcmp is handed a null DEVTYPE or
   ID_TYPE, or the namer writes past its buffer. *)
Definition create_undefined (w : world) (dev : udev_device) (st : daemon) : Prop :=
  fstab_search (g_fstab st) dev = Fault \/
  classify (ud_devtype dev) (udev_device_get_property_value dev "ID_TYPE") = Fault \/
  device_create_mountpoint (os_stat w (g_trace st)) dev = Fault.

(** ** Relations between the state before and after a computation *)

Definition keeps {A} (R : daemon -> daemon -> Prop) (m : M A) : Prop :=
  forall st a st', m st = Ok (a, st') -> R st st'.

(* How many records of the array carry the device path q *)
Definition slot_count (q : string) (slots : list (option device_t)) : nat :=
  count_occ string_dec (map dv_devnode (live_records slots)) q.

(* No device path has more records than before. *)
Definition shrunk (slots slots' : list (option device_t)) : Prop :=
  forall q, slot_count q slots' <= slot_count q slots.

(* At most one record was added, and its device path is p. *)
Definition grown (p : string) (slots slots' : list (option device_t)) : Prop :=
  forall q,
    slot_count q slots' <= slot_count q slots + (if string_dec p q then 1 else 0).

Definition same_length (slots slots' : list (option device_t)) : Prop :=
  List.length slots' = List.length slots.

(* A relation on the array, read on the states that hold it *)
Definition on_devices (Rs : list (option device_t) -> list (option device_t) -> Prop)
           (st st' : daemon) : Prop :=
  Rs (g_devices st) (g_devices st').

(* The device path of the record an operation may add *)
Definition added_path (op : operation) : option string :=
  match op with
  | OpCreate dev | OpMount dev | OpChange dev => Some (ud_devnode dev)
  | OpUnmount _ | OpReconcile | OpRemove _ => None
  end.

(** ** The course of device_unmount once the record is found *)

(* The state after the executor was asked to unmount *)
Definition umount_state (d : device_t) (st : daemon) : daemon :=
  add_event (EvUmount (dv_devnode d)) st.

(* The state the failure of that call leaves *)
Definition umount_failed_state (d : device_t) (st : daemon) : daemon :=
  add_event (EvSyslog "Error while unmounting %s (%s)" (dv_devnode d))
            (umount_state d st).

(* The rest of the flow: rmdir, the helper, device_destroy *)
Definition released_state (d : device_t) (st : daemon) : daemon :=
  set_devices
    (destroy_scan (g_devices st) (dv_addr d))
    (add_event (EvSpawn CALLBACK_PATH "unmount" (dv_mountpoint d))
               (add_event (EvRmdir (dv_mountpoint d)) st)).

(** ** The course of device_mount after device_new returned a record *)

Definition mount_request (d : device_t) (st : daemon) : event :=
  EvMount (dv_filesystem d) (dv_devnode d) (dv_mountpoint d)
          (mount_options (filesystem_quirks (dv_filesystem d)) (g_uid st) (g_gid st))
          (match dv_type d with DEVICE_CD => true | _ => false end).

(* The state in which the executor is asked to mount *)
Definition mount_state (d : device_t) (st : daemon) : daemon :=
  add_event (EvMkdir (dv_mountpoint d) 755) st.

Definition mount_succeeds (w : world) (d : device_t) (st : daemon) : bool :=
  os_mount w (g_trace (mount_state d st))
           (dv_filesystem d) (dv_devnode d) (dv_mountpoint d)
           (mount_options (filesystem_quirks (dv_filesystem d)) (g_uid st) (g_gid st))
           (match dv_type d with DEVICE_CD => true | _ => false end).

Definition needs_chown (d : device_t) : bool :=
  negb (quirk_set (filesystem_quirks (dv_filesystem d)) QUIRK_OWNER_FIX).

Definition chown_succeeds (w : world) (d : device_t) (st : daemon) : bool :=
  os_chown w (g_trace (add_event (mount_request d st) (mount_state d st)))
           (dv_mountpoint d) (g_uid st) (g_gid st).

(* The mount attempt fails: the executor refuses, or the chown a filesystem
   without OwnerFix needs fails. *)
Definition mount_attempt_fails (w : world) (d : device_t) (st : daemon) : bool :=
  negb (mount_succeeds w d st) || (needs_chown d && negb (chown_succeeds w d st)).

(* The state in which device_mount then calls device_unmount *)
Definition cleanup_state (w : world) (d : device_t) (st : daemon) : daemon :=
  let mounted := add_event (mount_request d st) (mount_state d st) in
  if mount_succeeds w d st
  then add_event (EvSyslog "Cannot chown %s" (dv_mountpoint d))
                 (add_event (EvChown (dv_mountpoint d) (g_uid st) (g_gid st)) mounted)
  else add_event (EvSyslog "Error while mounting %s (%s)" (dv_devnode d)) mounted.

(** ** Further predicates on the array and on names *)

(* Each slot is as it was, or was cleared. *)
Definition cleared (slots slots' : list (option device_t)) : Prop :=
  Forall2 (fun a b => b = None \/ b = a) slots slots'.

(* The addresses of the records in the array *)
Definition addresses (slots : list (option device_t)) : list nat :=
  map dv_addr (live_records slots).

(* What device_new has checked and set in a record it registers *)
Definition record_built (d : device_t) : Prop :=
  dv_devnode d = ud_devnode (dv_udev d) /\
  udev_device_get_property_value (dv_udev d) "ID_FS_TYPE" = Some (dv_filesystem d) /\
  unwanted_filesystem (dv_filesystem d) = false /\
  dv_type d <> DEVICE_UNK /\
  device_has_media (dv_type d) (dv_udev d) = true.

(* The array has its size, no two records share an address, and every
   record is as device_new builds it. *)
Definition registry_built (st : daemon) : Prop :=
  registry_sized st /\
  NoDup (addresses (g_devices st)) /\
  Forall record_built (live_records (g_devices st)).

(* A step that leaves a built registry built *)
Definition keeps_built (st st' : daemon) : Prop :=
  registry_built st -> registry_built st'.

(* Every record is the one device_search finds for the device node of its
   own udev device. *)
Definition found_by_devnode (slots : list (option device_t)) : Prop :=
  forall d, In d (live_records slots) ->
            search_scan slots (ud_devnode (dv_udev d)) = Some d.

(* The live table resolves the device of the record to an entry. *)
Definition shown_mounted (mtab : libmnt_table) (d : device_t) : bool :=
  match fstab_search mtab (dv_udev d) with
  | Ok (Some _) => true
  | _ => false
  end.

(* A slot after reconciliation with the live table *)
Definition reconcile_slot (mtab : libmnt_table) (slot : option device_t)
  : option device_t :=
  match slot with
  | Some d => if shown_mounted mtab d then Some d else None
  | None => None
  end.

(* The globals no operation on devices writes, and the trace it extends *)
Definition extends (st st' : daemon) : Prop :=
  g_fstab st' = g_fstab st /\
  g_mtab st' = g_mtab st /\
  g_uid st' = g_uid st /\
  g_gid st' = g_gid st /\
  exists new, g_trace st' = new ++ g_trace st.

(* The keys fstab_search may look up for a device: the device node (never
   for a device-mapper node), a symbolic link (only for a device-mapper
   node), UUID=<uuid>, and LABEL=<label> (only with a UUID known). *)
Definition lookup_key (dev : udev_device) (key : string) : Prop :=
  (is_dm_node (ud_devnode dev) = false /\ key = ud_devnode dev) \/
  (is_dm_node (ud_devnode dev) = true /\ In key (ud_devlinks dev)) \/
  (exists u, udev_device_get_property_value dev "ID_FS_UUID" = Some u /\
             key = "UUID=" +++ u) \/
  (exists u l, udev_device_get_property_value dev "ID_FS_UUID" = Some u /\
               udev_device_get_property_value dev "ID_FS_LABEL" = Some l /\
               key = "LABEL=" +++ l).

(* A change event finds the record of the device itself, and the live table
   shows the device: device_change unmounts before it mounts.  No two slots
   hold the same pointer. *)
Definition unmounts_first (dev : udev_device) (st : daemon) : Prop :=
  NoDup (addresses (g_devices st)) /\
  (exists d, device_search (Some (ud_devnode dev)) st = Some d /\
             dv_devnode d = ud_devnode dev) /\
  (exists e, fstab_search (g_mtab st) dev = Ok (Some e)).

(* When an operation cannot store a second record of a device path: the
   path has no record, or device_new rejects the device, or (for a change)
   the record of the device is unmounted first. *)
Definition no_second_record (w : world) (op : operation) (st : daemon) : Prop :=
  match op with
  | OpCreate dev | OpMount dev =>
      ~ In (ud_devnode dev) (devnodes st) \/ create_rejected w dev st
  | OpChange dev =>
      ~ In (ud_devnode dev) (devnodes st) \/
      unmounts_first dev st \/
      (fstab_search (g_mtab st) dev = Ok None /\ create_rejected w dev st)
  | OpUnmount _ | OpReconcile | OpRemove _ => True
  end.

Fixpoint contains (c : ascii) (s : string) : bool :=
  match s with
  | EmptyString => false
  | String x rest => Ascii.eqb x c || contains c rest
  end.

(** ** Sample devices, tables and worlds *)

Module Sample.

(* An ext4 partition with a label *)
Definition sdb1 : udev_device :=
  mk_udev "/dev/sdb1" (Some "partition")
          [("ID_FS_TYPE", "ext4"); ("ID_FS_LABEL", "My Disk");
           ("ID_FS_USAGE", "filesystem")] [].

(* The same partition formatted as swap *)
Definition swap1 : udev_device :=
  mk_udev "/dev/sdb1" (Some "partition")
          [("ID_FS_TYPE", "swap"); ("ID_FS_UUID", "0a1b"); ("ID_FS_USAGE", "other")] [].

(* A partition that has a label and no filesystem UUID *)
Definition data1 : udev_device :=
  mk_udev "/dev/sdc1" (Some "partition")
          [("ID_FS_TYPE", "vfat"); ("ID_FS_LABEL", "DATA");
           ("ID_FS_USAGE", "filesystem")] [].

Definition data_entry : libmnt_fs := mk_fs "LABEL=DATA" (Some "/media/data") [].
Definition data_tab : libmnt_table := [data_entry].

Definition sdb1_entry : libmnt_fs := mk_fs "/dev/sdb1" (Some "/mnt/My_Disk") [].

(* A record of sdb1 as device_new builds it *)
Definition sdb1_record (addr : nat) : device_t :=
  mk_device addr DEVICE_VOLUME "ext4" "/dev/sdb1" "/mnt/My_Disk" sdb1.

Definition mkdir_seen (tr : list event) (path : string) : bool :=
  existsb (fun e => match e with
                    | EvMkdir p _ => String.eqb p path
                    | _ => false
                    end) tr.

(* Every call succeeds; a path exists once the daemon made it. *)
Definition kind : world :=
  mk_world mkdir_seen (fun _ _ _ _ _ _ => true) (fun _ _ => true)
           (fun _ _ _ _ => true) (fun _ _ _ _ => 0%Z).

(* Mounting and unmounting fail. *)
Definition hostile : world :=
  mk_world mkdir_seen (fun _ _ _ _ _ _ => false) (fun _ _ => false)
           (fun _ _ _ _ => true) (fun _ _ _ _ => 0%Z).

Definition empty : daemon := startup 1000 1000 [] [].

(* sdb1 registered in the first slot, the live table not showing it *)
Definition one : daemon :=
  set_devices (Some (sdb1_record 1) :: repeat None 19) empty.

(* An fstab that names /dev/sdb1 *)
Definition claimed : daemon :=
  set_fstab [mk_fs "/dev/sdb1" (Some "/home") ["defaults"]] empty.

(* sdb1 registered and shown mounted by the live table *)
Definition one_mounted : daemon := set_mtab [sdb1_entry] one.

(* Twenty virtio partitions, /dev/vda1 to /dev/vdt1, each with its label,
   and the records device_new builds for them *)
Definition letter (k : nat) : string := String (ascii_of_nat (97 + k)) "".

Definition disk (k : nat) : udev_device :=
  mk_udev ("/dev/vd" +++ letter k +++ "1") (Some "partition")
          [("ID_FS_TYPE", "ext4"); ("ID_FS_LABEL", "disk_" +++ letter k);
           ("ID_FS_USAGE", "filesystem")] [].

Definition disk_record (k : nat) : device_t :=
  mk_device (S k) DEVICE_VOLUME "ext4" ("/dev/vd" +++ letter k +++ "1")
            ("/mnt/disk_" +++ letter k) (disk k).

(* All twenty slots taken, by twenty devices *)
Definition full : daemon :=
  set_devices (map (fun k => Some (disk_record k)) (seq 0 20)) empty.

(* The state a computation ends in *)
Definition state_after {A} (start : daemon) (m : M A) : daemon :=
  match m start with
  | Ok (_, st) => st
  | Fault => start
  end.

(* The globals after an add event for sdb1, and after a change event that
   follows it with the live table not reloaded in between *)
Definition added : daemon := state_after empty (device_mount kind sdb1).
Definition changed : daemon := state_after added (device_change kind sdb1).

(* The globals after a change event for sdb1 that finds it registered and
   shown mounted, and after a second add event for sdb1 *)
Definition remounted : daemon := state_after one_mounted (device_change kind sdb1).
Definition added_twice : daemon := state_after added (device_mount kind sdb1).

(* A partition with a filesystem and no label, UUID or serial: the namer
   has nothing to start from. *)
Definition nameless : udev_device :=
  mk_udev "/dev/sdf1" (Some "partition")
          [("ID_FS_TYPE", "ext4"); ("ID_FS_USAGE", "filesystem")] [].

(* The live table shows sdb1 mounted, the array holds no record of it *)
Definition shown : daemon := set_mtab [sdb1_entry] empty.

(* The globals after an add event for sdb1 in that state, with an executor
   that refuses both the mount and the unmount *)
Definition failed : daemon := state_after shown (device_mount hostile sdb1).

(* A partition with both a filesystem UUID and the label DATA *)
Definition both : udev_device :=
  mk_udev "/dev/sdg1" (Some "partition")
          [("ID_FS_TYPE", "ext4"); ("ID_FS_UUID", "0a1b-2c3d");
           ("ID_FS_LABEL", "DATA"); ("ID_FS_USAGE", "filesystem")] [].

Definition uuid_entry : libmnt_fs := mk_fs "UUID=0a1b-2c3d" (Some "/srv") [].

(* A record of data1 as device_new builds it *)
Definition data1_record (addr : nat) : device_t :=
  mk_device addr DEVICE_VOLUME "vfat" "/dev/sdc1" "/mnt/DATA" data1.

(* A record of both as device_new builds it *)
Definition both_record (addr : nat) : device_t :=
  mk_device addr DEVICE_VOLUME "ext4" "/dev/sdg1" "/mnt/DATA" both.

(* sdb1 in the first slot and data1 in the third: the device that had the
   second slot was released *)
Definition gap : daemon :=
  set_devices (Some (sdb1_record 1) :: None :: Some (data1_record 2)
                 :: repeat None 17) empty.

(* sdb1 and data1 registered, the live table showing sdb1 only *)
Definition two : daemon :=
  set_mtab [sdb1_entry]
    (set_devices (Some (sdb1_record 1) :: Some (data1_record 2) :: repeat None 18)
                 empty).

(* The globals after device_list_clear *)
Definition state_after_clear (w : world) (st : daemon) : daemon :=
  state_after st (device_list_clear w).

(* Two names are taken in the base directory. *)
Definition taken_twice (p : string) : bool :=
  String.eqb p "/mnt/My_Disk" || String.eqb p "/mnt/My_Disk_".

(* A device whose first candidate is one character short of the longest
   name the namer hands out *)
Definition nearly : udev_device :=
  mk_udev "/dev/sde1" (Some "partition")
          [("ID_FS_TYPE", "ext4"); ("ID_FS_LABEL", replicate 4088 "a");
           ("ID_FS_USAGE", "filesystem")] [].

(* A device whose label is longer than any path *)
Definition long_label : string := replicate 4200 "a".
Definition huge : udev_device :=
  mk_udev "/dev/sdd1" (Some "partition")
          [("ID_FS_TYPE", "ext4"); ("ID_FS_LABEL", long_label);
           ("ID_FS_USAGE", "filesystem")] [].

End Sample.

(** * Properties *)

Unset Implicit Arguments.

(** ** The resolver *)

Lemma keyword_fits (tag v : string) :
  fits_keyword tag (Some v) -> keyword tag v = Ok (tag +++ v).
Proof.
  unfold fits_keyword, keyword. intros H.
  destruct (Nat.leb_spec (String.length tag + String.length v + 1) KEYWORD_SIZE);
    [reflexivity | lia].
Qed.

(* Without a filesystem UUID the resolver stops after the device path. *)
Lemma fstab_search_without_uuid (tab : libmnt_table) (dev : udev_device) :
  search_devnode tab dev = None ->
  udev_device_get_property_value dev "ID_FS_UUID" = None ->
  fstab_search tab dev = Ok None.
Proof. intros H1 H2. unfold fstab_search. now rewrite H1, H2. Qed.

(* With a UUID known, or no label known, the code follows the listed order. *)
Lemma fstab_search_follows_spec (tab : libmnt_table) (dev : udev_device) :
  keywords_fit dev ->
  udev_device_get_property_value dev "ID_FS_UUID" <> None \/
  udev_device_get_property_value dev "ID_FS_LABEL" = None ->
  fstab_search tab dev = Ok (spec_resolve tab dev).
Proof.
  intros [Hu Hl] Hcase. unfold fstab_search, spec_resolve, search_devnode.
  destruct (is_dm_node (ud_devnode dev)); cbn [negb];
    match goal with
    | |- context [match ?s with Some _ => _ | None => _ end] =>
        destruct s as [e|] eqn:Hs; [reflexivity|]
    end;
    (destruct (udev_device_get_property_value dev "ID_FS_UUID") as [u|] eqn:Eu;
     [ rewrite (keyword_fits _ _ Hu); cbn [obind];
       destruct (mnt_table_find_source tab ("UUID=" +++ u)); [reflexivity|];
       destruct (udev_device_get_property_value dev "ID_FS_LABEL") as [l|] eqn:El;
       [ now rewrite (keyword_fits _ _ Hl) | reflexivity ]
     | destruct Hcase as [Hc | Hc]; [congruence | now rewrite Hc] ]).
Qed.

(** C3 (the code departs from it): the resolver is to try LABEL=<label>
    for a device that has a label and no UUID and whose path matches no
    entry.  On such a device and a table holding the LABEL= entry, the code
    returns no entry, while the order of the specification finds it. *)
Theorem fstab_search_skips_label :
  udev_device_get_property_value Sample.data1 "ID_FS_UUID" = None /\
  udev_device_get_property_value Sample.data1 "ID_FS_LABEL" = Some "DATA" /\
  search_devnode Sample.data_tab Sample.data1 = None /\
  mnt_table_find_source Sample.data_tab "LABEL=DATA" = Some Sample.data_entry /\
  spec_resolve Sample.data_tab Sample.data1 = Some Sample.data_entry /\
  fstab_search Sample.data_tab Sample.data1 = Ok None.
Proof. repeat split; reflexivity. Qed.

(** ** The registry *)

Lemma live_records_length (slots : list (option device_t)) :
  List.length (live_records slots) <= List.length slots.
Proof.
  induction slots as [|[d|] rest IH]; simpl; lia.
Qed.

Lemma register_scan_none (slots : list (option device_t)) (dev : device_t) :
  register_scan slots dev = None <->
  List.length (live_records slots) = List.length slots.
Proof.
  induction slots as [|[d|] rest IH]; simpl.
  - tauto.
  - destruct (register_scan rest dev); split; intros H;
      try discriminate; try reflexivity.
    + injection H as H. apply IH in H. discriminate.
    + f_equal. now apply IH.
  - pose proof (live_records_length rest). split; [discriminate | lia].
Qed.

Lemma register_scan_some (slots slots' : list (option device_t)) (dev : device_t) :
  register_scan slots dev = Some slots' ->
  List.length slots' = List.length slots /\
  List.length (live_records slots') = S (List.length (live_records slots)) /\
  In dev (live_records slots').
Proof.
  revert slots'. induction slots as [|[d|] rest IH]; simpl; intros slots' H.
  - discriminate.
  - destruct (register_scan rest dev) as [r|]; [|discriminate].
    injection H as <-. destruct (IH r eq_refl) as (H1 & H2 & H3).
    simpl. repeat split; [lia | lia | now right].
  - injection H as <-. simpl. repeat split; now left.
Qed.

Lemma device_matches_devnode (d : device_t) : device_matches (dv_devnode d) d = true.
Proof. unfold device_matches. now rewrite String.eqb_refl. Qed.

Lemma register_scan_search (slots slots' : list (option device_t)) (dev : device_t) :
  register_scan slots dev = Some slots' ->
  search_scan slots (dv_devnode dev) = None ->
  search_scan slots' (dv_devnode dev) = Some dev.
Proof.
  revert slots'. induction slots as [|[d|] rest IH]; simpl; intros slots' H Hs.
  - discriminate.
  - destruct (register_scan rest dev) as [r|]; [|discriminate].
    injection H as <-. simpl.
    destruct (device_matches (dv_devnode dev) d); [discriminate|].
    now apply IH.
  - injection H as <-. simpl. now rewrite device_matches_devnode.
Qed.

(* The slot device_register writes is the first free one, and it writes no
   other. *)
Lemma register_scan_first_free (slots slots' : list (option device_t))
      (dev : device_t) :
  register_scan slots dev = Some slots' ->
  exists pre post,
    slots = pre ++ None :: post /\
    Forall (fun slot => slot <> None) pre /\
    slots' = pre ++ Some dev :: post.
Proof.
  revert slots'. induction slots as [|[d|] rest IH]; simpl; intros slots' H.
  - discriminate.
  - destruct (register_scan rest dev) as [r|]; [|discriminate].
    injection H as <-. destruct (IH r eq_refl) as (pre & post & H1 & H2 & H3).
    exists (Some d :: pre), post. subst rest r. repeat split.
    constructor; [discriminate | exact H2].
  - injection H as <-. exists [], rest. repeat split. constructor.
Qed.

(** C1 (as amended): device_register fails exactly when all MAX_DEVICES = 20
    slots are taken, and then changes nothing; with a free slot it stores
    the record in the first free slot and leaves every other slot and every
    other global as it was, whether or not the device path of the record is
    already registered; device_search on that path then returns the record
    when no record matched the path before. *)
Theorem device_register_capacity (st : daemon) (r : device_t) :
  registry_sized st ->
  match device_register r st with
  | Ok (true, st') =>
      List.length (live_records (g_devices st)) < MAX_DEVICES /\
      (exists pre post,
         g_devices st = pre ++ None :: post /\
         Forall (fun slot => slot <> None) pre /\
         st' = set_devices (pre ++ Some r :: post) st) /\
      registry_sized st' /\
      In r (live_records (g_devices st')) /\
      List.length (live_records (g_devices st')) =
        S (List.length (live_records (g_devices st))) /\
      (device_search (Some (dv_devnode r)) st = None ->
       device_search (Some (dv_devnode r)) st' = Some r)
  | Ok (false, st') =>
      List.length (live_records (g_devices st)) = MAX_DEVICES /\ st' = st
  | Fault => False
  end.
Proof.
  unfold registry_sized, device_register. intros Hsz.
  destruct (register_scan (g_devices st) r) as [slots'|] eqn:Hreg.
  - destruct (register_scan_some _ _ _ Hreg) as (H1 & H2 & H3).
    destruct (register_scan_first_free _ _ _ Hreg) as (pre & post & Hpre & Hall & ->).
    pose proof (live_records_length (pre ++ Some r :: post)).
    cbn [g_devices set_devices].
    split; [lia|]. split; [exists pre, post; repeat split; assumption|].
    split; [congruence|].
    split; [assumption|]. split; [assumption|].
    simpl. intros Hs. eapply register_scan_search; eassumption.
  - apply register_scan_none in Hreg. split; [congruence | reflexivity].
Qed.

Lemma device_register_capacity_witness :
  (registry_sized Sample.full /\
   device_register (Sample.sdb1_record 21) Sample.full = Ok (false, Sample.full)) /\
  (registry_sized Sample.gap /\
   exists pre post,
     g_devices Sample.gap = pre ++ None :: post /\
     Forall (fun slot => slot <> None) pre /\
     device_register (Sample.both_record 3) Sample.gap =
       Ok (true, set_devices (pre ++ Some (Sample.both_record 3) :: post)
                             Sample.gap)).
Proof.
  split; (split; [reflexivity|]).
  - pose proof (device_register_capacity Sample.full (Sample.sdb1_record 21)
                  eq_refl) as H.
    destruct (device_register (Sample.sdb1_record 21) Sample.full)
      as [[[|] st']|];
      [ destruct H as [H _]; vm_compute in H; lia
      | destruct H as [_ ->]; reflexivity
      | destruct H ].
  - pose proof (device_register_capacity Sample.gap (Sample.both_record 3)
                  eq_refl) as H.
    destruct (device_register (Sample.both_record 3) Sample.gap)
      as [[[|] st']|];
      [ destruct H as (_ & (pre & post & H1 & H2 & ->) & _);
        exists pre, post; repeat split; assumption
      | destruct H as [H _]; vm_compute in H; discriminate
      | destruct H ].
Defined.

(* The free slot between two records is the one taken. *)
Example device_register_gap :
  device_register (Sample.both_record 3) Sample.gap =
    Ok (true,
        set_devices (Some (Sample.sdb1_record 1) :: Some (Sample.both_record 3)
                       :: Some (Sample.data1_record 2) :: repeat None 17)
                    Sample.gap).
Proof. reflexivity. Qed.

(** C1 (the claim as stated fails): a record whose device path is already
    registered is accepted as long as a slot is free. *)
Lemma device_register_accepts_duplicate :
  In (dv_devnode (Sample.sdb1_record 2)) (devnodes Sample.one) /\
  device_register (Sample.sdb1_record 2) Sample.one =
    Ok (true, set_devices (Some (Sample.sdb1_record 1) :: Some (Sample.sdb1_record 2)
                            :: repeat None 18) Sample.one) /\
  device_register (Sample.sdb1_record 2) Sample.one <> Ok (false, Sample.one).
Proof.
  split; [now left|]. split; [reflexivity | discriminate].
Qed.

(** ** The mountpoint namer *)

Lemma length_append (s t : string) :
  String.length (s +++ t) = String.length s + String.length t.
Proof. induction s as [|c s IH]; simpl; [reflexivity | now rewrite IH]. Qed.

Lemma append_empty (s : string) : s +++ "" = s.
Proof. induction s as [|c s IH]; simpl; [reflexivity | now rewrite IH]. Qed.

Lemma append_assoc (s t u : string) : (s +++ t) +++ u = s +++ t +++ u.
Proof. induction s as [|c s IH]; simpl; [reflexivity | now rewrite IH]. Qed.

Lemma length_underscores (k : nat) : String.length (underscores k) = k.
Proof. induction k as [|k IH]; simpl; [reflexivity | now rewrite IH]. Qed.

(* One turn of the loop *)
Lemma mountpoint_retry_turn (stat : string -> bool) (tmp : string) :
  mountpoint_retry stat tmp =
    if stat tmp then
      if String.length tmp =? PATH_MAX - 2 then Ok None
      else if PATH_MAX - 1 <=? String.length tmp then Fault
           else mountpoint_retry stat (tmp +++ "_")
    else Ok (Some tmp).
Proof.
  funelim (mountpoint_retry stat tmp);
    repeat match goal with
           | H : stat _ = _ |- _ => rewrite H
           end; try reflexivity.
  - rewrite (proj2 (Nat.eqb_eq _ _)) by assumption. reflexivity.
  - rewrite (proj2 (Nat.eqb_neq _ _)) by assumption.
    rewrite (proj2 (Nat.leb_le _ _)) by assumption. reflexivity.
  - rewrite (proj2 (Nat.eqb_neq _ _)) by assumption.
    rewrite (proj2 (Nat.leb_gt _ _)) by assumption. reflexivity.
Qed.

Lemma mountpoint_retry_collisions (stat : string -> bool) (k : nat) :
  forall c : string,
    (forall i, i < k -> stat (c +++ underscores i) = true) ->
    String.length c + k <= PATH_MAX - 2 ->
    mountpoint_retry stat c = mountpoint_retry stat (c +++ underscores k).
Proof.
  induction k as [|k IH]; intros c Hall Hlen.
  - now rewrite append_empty.
  - rewrite mountpoint_retry_turn.
    pose proof (Hall 0 ltac:(lia)) as H0. simpl in H0. rewrite append_empty in H0.
    rewrite H0.
    rewrite (proj2 (Nat.eqb_neq _ _)) by lia.
    rewrite (proj2 (Nat.leb_gt _ _)) by lia.
    rewrite IH.
    + now rewrite append_assoc.
    + intros i Hi. rewrite append_assoc. apply (Hall (S i)). lia.
    + rewrite length_append. simpl. lia.
Qed.

Lemma device_create_mountpoint_name (stat : string -> bool) (dev : udev_device) :
  device_create_mountpoint stat dev =
    match first_name dev with
    | None => Ok None
    | Some n => mountpoint_retry stat (candidate n)
    end.
Proof. reflexivity. Qed.

Lemma length_replace_whitespaces (s : string) :
  String.length (replace_whitespaces s) = String.length s.
Proof. induction s as [|c s IH]; simpl; [reflexivity | now rewrite IH]. Qed.

Lemma length_substring_le (s : string) (n : nat) :
  String.length (substring 0 n s) <= n.
Proof.
  revert n. induction s as [|c s IH]; intros [|n]; simpl; try lia.
  specialize (IH n). lia.
Qed.

Lemma length_candidate (n : string) : String.length (candidate n) <= PATH_MAX - 1.
Proof.
  unfold candidate, snprintf2. rewrite length_replace_whitespaces.
  apply length_substring_le.
Qed.

(** C8 (as amended): the first present of label, UUID and serial is
    appended to the base directory, cut to PATH_MAX - 1 characters, and its
    spaces become underscores.  While the candidate exists an underscore is
    appended; the first candidate that does not exist is the result.
    Naming fails when there is no name, or when a candidate of exactly
    PATH_MAX - 2 characters exists (no underscore is appended to it). *)
Theorem device_create_mountpoint_collisions
        (stat : string -> bool) (dev : udev_device) :
  match first_name dev with
  | None => device_create_mountpoint stat dev = Ok None
  | Some n =>
      String.length (candidate n) <= PATH_MAX - 1 /\
      (stat (candidate n) = false ->
       device_create_mountpoint stat dev = Ok (Some (candidate n))) /\
      forall k : nat,
        (forall i, i < k -> stat (candidate n +++ underscores i) = true) ->
        String.length (candidate n) + k <= PATH_MAX - 2 ->
        (stat (candidate n +++ underscores k) = false ->
         device_create_mountpoint stat dev =
           Ok (Some (candidate n +++ underscores k))) /\
        (stat (candidate n +++ underscores k) = true ->
         String.length (candidate n) + k = PATH_MAX - 2 ->
         device_create_mountpoint stat dev = Ok None)
  end.
Proof.
  rewrite device_create_mountpoint_name.
  destruct (first_name dev) as [n|]; [|reflexivity].
  split; [apply length_candidate|]. split.
  { intros H. now rewrite mountpoint_retry_turn, H. }
  intros k Hall Hlen.
  rewrite (mountpoint_retry_collisions stat k _ Hall Hlen).
  rewrite mountpoint_retry_turn. split.
  - intros ->. reflexivity.
  - intros -> Heq.
    rewrite (proj2 (Nat.eqb_eq _ _)); [reflexivity|].
    rewrite length_append, length_underscores. exact Heq.
Qed.

(* Without label, UUID and serial there is no name. *)
Lemma device_create_mountpoint_nameless (stat : string -> bool) (dev : udev_device) :
  first_name dev = None -> device_create_mountpoint stat dev = Ok None.
Proof. intros H. now rewrite device_create_mountpoint_name, H. Qed.

Lemma device_create_mountpoint_collisions_witness :
  device_create_mountpoint Sample.taken_twice Sample.sdb1 = Ok (Some "/mnt/My_Disk__").
Proof.
  assert (Hlen : String.length (candidate "My Disk") + 2 <= PATH_MAX - 2)
    by (vm_compute; lia).
  assert (Hall : forall i, i < 2 ->
                   Sample.taken_twice (candidate "My Disk" +++ underscores i) = true).
  { intros [|[|i]] Hi; [reflexivity | reflexivity | lia]. }
  exact (proj1 (proj2 (proj2 (device_create_mountpoint_collisions
                                Sample.taken_twice Sample.sdb1))
                      2 Hall Hlen) eq_refl).
Defined.

(* The three names of the specification's example *)
Example namer_free : device_create_mountpoint (fun _ => false) Sample.sdb1
                     = Ok (Some "/mnt/My_Disk").
Proof. reflexivity. Qed.

Example namer_one_collision :
  device_create_mountpoint (String.eqb "/mnt/My_Disk") Sample.sdb1
  = Ok (Some "/mnt/My_Disk_").
Proof. reflexivity. Qed.

(* Every candidate up to the longest one is taken: naming fails. *)
Example namer_exhausted :
  device_create_mountpoint (fun _ => true) Sample.nearly = Ok None.
Proof. vm_compute. reflexivity. Qed.

(** C8 (the claim as stated fails): a name that does not fit the buffer is
    cut, and the cut path is returned; naming does not fail. *)
Lemma device_create_mountpoint_cuts_long_name :
  PATH_MAX < String.length (MOUNT_PATH +++ Sample.long_label) /\
  device_create_mountpoint (fun _ => false) Sample.huge =
    Ok (Some (MOUNT_PATH +++ replicate 4090 "a")) /\
  device_create_mountpoint (fun _ => false) Sample.huge <> Ok None /\
  MOUNT_PATH +++ replicate 4090 "a" <> MOUNT_PATH +++ Sample.long_label.
Proof.
  split; [vm_compute; lia|]. split; [vm_compute; reflexivity|].
  split.
  - intros H. vm_compute in H. discriminate.
  - intros H. apply (f_equal String.length) in H. vm_compute in H. discriminate.
Qed.

(** ** Creation *)

(* Split on a scrutinee that is not itself a match. *)
Ltac break_match :=
  match goal with
  | |- context [match ?x with _ => _ end] =>
      lazymatch x with
      | context [match _ with _ => _ end] => fail
      | _ => destruct x eqn:?
      end
  end.

Ltac run_monad :=
  unfold bind, ret, gets, lift, emit, modify, obind in *; cbn beta iota in *.

Lemma set_devices_same (st : daemon) : set_devices (g_devices st) st = st.
Proof. now destruct st. Qed.

Lemma fstab_search_total (tab : libmnt_table) (dev : udev_device) :
  keywords_fit dev -> exists r, fstab_search tab dev = Ok r.
Proof.
  intros [Hu Hl]. unfold fstab_search.
  destruct (search_devnode tab dev); [eauto|].
  destruct (udev_device_get_property_value dev "ID_FS_UUID") as [u|]; [|eauto].
  rewrite (keyword_fits _ _ Hu). cbn [obind].
  destruct (mnt_table_find_source tab ("UUID=" +++ u)); [eauto|].
  destruct (udev_device_get_property_value dev "ID_FS_LABEL") as [l|]; [|eauto].
  rewrite (keyword_fits _ _ Hl). cbn [obind]. eauto.
Qed.

Lemma fstab_search_fault (tab : libmnt_table) (dev : udev_device) :
  fstab_search tab dev = Fault -> ~ keywords_fit dev.
Proof.
  intros H Hfit. destruct (fstab_search_total tab dev Hfit) as [r Hr]. congruence.
Qed.

(* The address calloc_device picks belongs to no record of the array. *)
Lemma calloc_device_fresh (st : daemon) (d : device_t) :
  In d (live_records (g_devices st)) -> dv_addr d < calloc_device st.
Proof.
  unfold calloc_device. generalize (g_devices st) as slots.
  induction slots as [|[d'|] rest IH]; simpl; intros H.
  - destruct H.
  - destruct H as [-> | H]; [lia | specialize (IH H); lia].
  - specialize (IH H). lia.
Qed.

Lemma destroy_scan_fresh (slots : list (option device_t)) (p : nat) :
  (forall d, In d (live_records slots) -> dv_addr d <> p) ->
  destroy_scan slots p = slots.
Proof.
  induction slots as [|[d|] rest IH]; simpl; intros H.
  - reflexivity.
  - destruct (Nat.eqb_spec (dv_addr d) p) as [E|E].
    + exfalso. apply (H d); [now left | assumption].
    + f_equal. apply IH. intros d' Hd'. apply H. now right.
  - f_equal. apply IH. exact H.
Qed.

Lemma destroy_scan_registered (slots slots' : list (option device_t)) (r : device_t) :
  register_scan slots r = Some slots' ->
  (forall d, In d (live_records slots) -> dv_addr d <> dv_addr r) ->
  destroy_scan slots' (dv_addr r) = slots.
Proof.
  revert slots'. induction slots as [|[d|] rest IH]; simpl; intros slots' H Hfresh.
  - discriminate.
  - destruct (register_scan rest r) as [rest'|]; [|discriminate].
    injection H as <-. simpl.
    destruct (Nat.eqb_spec (dv_addr d) (dv_addr r)) as [E|E].
    + exfalso. apply (Hfresh d); [now left | assumption].
    + f_equal. apply IH; [reflexivity|]. intros d' Hd'. apply Hfresh. now right.
  - injection H as <-. simpl. now rewrite Nat.eqb_refl.
Qed.

(* Destroying a record that was not registered leaves the globals alone. *)
Lemma device_destroy_unregistered (st st1 : daemon) :
  g_devices st1 = g_devices st ->
  device_destroy (calloc_device st) st1 = Ok (tt, st1).
Proof.
  intros Hd. unfold device_destroy, modify. rewrite Hd, destroy_scan_fresh.
  - now rewrite <- Hd, set_devices_same.
  - intros d Hin. apply calloc_device_fresh in Hin. lia.
Qed.

Lemma unwanted_filesystem_spec (fs : string) :
  unwanted_filesystem fs = true <->
  fs = "swap" \/ fs = "LVM2_member" \/ fs = "crypto_LUKS".
Proof.
  unfold unwanted_filesystem. rewrite !orb_true_iff, !String.eqb_eq. tauto.
Qed.

(* Every way device_new can end *)
Lemma device_new_cases (w : world) (dev : udev_device) (st : daemon) :
  match device_new w dev st with
  | Ok (None, st') =>
      g_devices st' = g_devices st /\
      (st' = st \/
       st' = add_event
               (EvSyslog "Couldn't make up a mountpoint name. Please report this bug." "")
               st)
  | Ok (Some d, st') =>
      register_scan (g_devices st) d = Some (g_devices st') /\
      st' = set_devices (g_devices st') st /\
      dv_addr d = calloc_device st /\
      dv_devnode d = ud_devnode dev /\
      dv_udev d = dev /\
      udev_device_get_property_value dev "ID_FS_TYPE" = Some (dv_filesystem d) /\
      unwanted_filesystem (dv_filesystem d) = false /\
      dv_type d <> DEVICE_UNK /\
      device_has_media (dv_type d) dev = true
  | Fault => True
  end.
Proof.
  unfold device_new, device_register. run_monad.
  repeat first
    [ progress cbn beta iota
    | rewrite device_destroy_unregistered by reflexivity
    | break_match ];
    cbn [g_devices set_devices add_event]; auto 10; try discriminate.
  all: cbn [dv_addr dv_type dv_filesystem dv_devnode dv_mountpoint dv_udev];
    repeat split; auto; try discriminate; now apply negb_false_iff.
Qed.

Lemma fstab_has_option_fault (tab : libmnt_table) (dev : udev_device) (opt : string) :
  fstab_has_option tab dev opt = Fault -> fstab_search tab dev = Fault.
Proof.
  unfold fstab_has_option. destruct (fstab_search tab dev) as [[e|]|]; cbn;
    intros H; [discriminate | discriminate | reflexivity].
Qed.

Lemma fstab_has_option_no_entry (tab : libmnt_table) (dev : udev_device)
      (opt : string) :
  fstab_search tab dev = Ok None -> fstab_has_option tab dev opt = Ok false.
Proof. intros H. unfold fstab_has_option. now rewrite H. Qed.

Lemma not_rejected (w : world) (dev : udev_device) (st : daemon)
      (fs mp : string) (type : device_type) (entry : option libmnt_fs)
      (slots : list (option device_t)) :
  fstab_has_option (g_fstab st) dev "+noauto" = Ok false ->
  udev_device_get_property_value dev "ID_FS_TYPE" = Some fs ->
  unwanted_filesystem fs = false ->
  classify (ud_devtype dev) (udev_device_get_property_value dev "ID_TYPE") = Ok type ->
  type <> DEVICE_UNK ->
  device_has_media type dev = true ->
  fstab_search (g_fstab st) dev = Ok entry ->
  match entry with
  | Some e => Ok (mnt_fs_get_target e)
  | None => device_create_mountpoint (os_stat w (g_trace st)) dev
  end = Ok (Some mp) ->
  register_scan (g_devices st)
                (mk_device (calloc_device st) type fs (ud_devnode dev) mp dev)
    = Some slots ->
  ~ create_rejected w dev st.
Proof.
  intros Hnoauto Hfs Hwanted Hclass Htype Hmedia Hentry Hmp Hreg Hrej.
  destruct Hrej as [H | H | H | type' H1 H2 | e H1 H2 | H1 H2 | H].
  - congruence.
  - unfold rejected_filesystem in H. rewrite Hfs in H.
    apply unwanted_filesystem_spec in H. congruence.
  - congruence.
  - congruence.
  - rewrite Hentry in H1. injection H1 as ->. congruence.
  - rewrite Hentry in H1. injection H1 as ->. congruence.
  - apply (register_scan_none _ (mk_device (calloc_device st) type fs
                                           (ud_devnode dev) mp dev)) in H.
    congruence.
Qed.

(* Why device_new ends the way it does *)
Lemma device_new_reasons (w : world) (dev : udev_device) (st : daemon) :
  match device_new w dev st with
  | Ok (None, _) => create_rejected w dev st
  | Ok (Some _, _) => ~ create_rejected w dev st
  | Fault => create_undefined w dev st
  end.
Proof.
  unfold device_new, device_register. run_monad.
  destruct (fstab_has_option (g_fstab st) dev "+noauto") as [[|]|] eqn:Hnoauto.
  { now apply reject_noauto. }
  2: { left. eapply fstab_has_option_fault. eassumption. }
  destruct (udev_device_get_property_value dev "ID_FS_TYPE") as [fs|] eqn:Hfs.
  2: { rewrite device_destroy_unregistered by reflexivity.
       apply reject_filesystem. unfold rejected_filesystem. now rewrite Hfs. }
  destruct (unwanted_filesystem fs) eqn:Hwanted.
  { rewrite device_destroy_unregistered by reflexivity.
    apply reject_filesystem. unfold rejected_filesystem. rewrite Hfs.
    now apply unwanted_filesystem_spec. }
  destruct (classify (ud_devtype dev) (udev_device_get_property_value dev "ID_TYPE"))
    as [type|] eqn:Hclass.
  2: { right. now left. }
  cbn beta iota.
  destruct type.
  3: { rewrite device_destroy_unregistered by reflexivity. now apply reject_kind. }
  all: destruct (fstab_search (g_fstab st) dev) as [entry|] eqn:Hentry;
    [| now left ]; cbn beta iota;
    (destruct (device_has_media _ dev) eqn:Hmedia; cbn [negb];
     [| rewrite device_destroy_unregistered by reflexivity;
        eapply reject_media; eassumption ]);
    (destruct entry as [e|];
     [ destruct (mnt_fs_get_target e) as [mp|] eqn:Hmp; cbn beta iota;
       [| rewrite device_destroy_unregistered by reflexivity;
          eapply reject_target; eassumption ]
     | destruct (device_create_mountpoint (os_stat w (g_trace st)) dev)
         as [[mp|]|] eqn:Hmp; cbn beta iota;
       [ | rewrite device_destroy_unregistered by reflexivity;
           now apply reject_naming
         | now right; right ] ]);
    (destruct (register_scan (g_devices st) _) as [slots|] eqn:Hreg; cbn beta iota;
     [ eapply not_rejected; try eassumption;
       first [ discriminate | now cbn beta iota; rewrite Hmp | idtac ]
     | rewrite device_destroy_unregistered by reflexivity;
       apply reject_full; eapply register_scan_none; eassumption ]).
Qed.

(** C4: device_new is all-or-nothing.  On every input that one of the steps
    rejects (noauto override, refused or absent filesystem type,
    unclassifiable kind, no media, no mountpoint, no free slot) it returns
    no record, and the array and both tables are as before the call: the
    only trace it can leave is the syslog line of a naming failure.  No
    half-built record is retained. *)
Theorem device_new_all_or_nothing (w : world) (dev : udev_device) (st : daemon) :
  create_rejected w dev st ->
  match device_new w dev st with
  | Ok (None, st') =>
      g_devices st' = g_devices st /\
      g_fstab st' = g_fstab st /\
      g_mtab st' = g_mtab st /\
      (g_trace st' = g_trace st \/
       g_trace st' =
         EvSyslog "Couldn't make up a mountpoint name. Please report this bug." ""
           :: g_trace st)
  | Ok (Some _, _) => False
  | Fault => create_undefined w dev st
  end.
Proof.
  intros Hrej.
  pose proof (device_new_cases w dev st) as Hc.
  pose proof (device_new_reasons w dev st) as Hr.
  destruct (device_new w dev st) as [[[d|] st']|].
  - exact (Hr Hrej).
  - destruct Hc as (Hd & [-> | ->]); repeat split; auto.
  - exact Hr.
Qed.

Lemma device_new_all_or_nothing_witness :
  create_rejected Sample.kind Sample.nameless Sample.empty /\
  match device_new Sample.kind Sample.nameless Sample.empty with
  | Ok (None, st') =>
      g_devices st' = g_devices Sample.empty /\
      g_fstab st' = g_fstab Sample.empty /\
      g_mtab st' = g_mtab Sample.empty /\
      (g_trace st' = g_trace Sample.empty \/
       g_trace st' =
         EvSyslog "Couldn't make up a mountpoint name. Please report this bug." ""
           :: g_trace Sample.empty)
  | Ok (Some _, _) => False
  | Fault => create_undefined Sample.kind Sample.nameless Sample.empty
  end.
Proof.
  assert (H : create_rejected Sample.kind Sample.nameless Sample.empty)
    by (apply reject_naming; reflexivity).
  split; [exact H|].
  exact (device_new_all_or_nothing Sample.kind Sample.nameless Sample.empty H).
Defined.

(* A full registry rejects a device that passes every other step. *)
Example device_new_full :
  device_new Sample.kind Sample.sdb1 Sample.full = Ok (None, Sample.full).
Proof. reflexivity. Qed.

(** C9: a device without filesystem type, or with type swap, LVM2_member or
    crypto_LUKS, never gets a record, whatever the fstab snapshot holds:
    device_new returns no record and leaves the globals as they were.  (The
    only other outcome is the overflow of the keyword buffer of the fstab
    lookup, for a UUID or label that does not fit it.) *)
Theorem device_new_rejects_filesystem (w : world) (dev : udev_device) (st : daemon) :
  rejected_filesystem dev ->
  match device_new w dev st with
  | Ok (None, st') => st' = st
  | Ok (Some _, _) => False
  | Fault => ~ keywords_fit dev
  end.
Proof.
  unfold rejected_filesystem, device_new, fstab_has_option. run_monad. intros Hfs.
  destruct (fstab_search (g_fstab st) dev) as [entry|] eqn:Hsearch.
  2: { now apply fstab_search_fault in Hsearch. }
  destruct entry as [e|];
    [ destruct (mnt_fs_match_options e "+noauto"); [reflexivity|] | ];
    cbn beta iota.
  all: destruct (udev_device_get_property_value dev "ID_FS_TYPE") as [fs|];
    [ apply unwanted_filesystem_spec in Hfs; rewrite Hfs | ];
    now rewrite device_destroy_unregistered.
Qed.

Lemma device_new_rejects_filesystem_witness :
  rejected_filesystem Sample.swap1 /\
  match device_new Sample.kind Sample.swap1 Sample.claimed with
  | Ok (None, st') => st' = Sample.claimed
  | Ok (Some _, _) => False
  | Fault => ~ keywords_fit Sample.swap1
  end.
Proof.
  assert (H : rejected_filesystem Sample.swap1) by (vm_compute; now left).
  split; [exact H|].
  exact (device_new_rejects_filesystem Sample.kind Sample.swap1 Sample.claimed H).
Defined.

(* The swap partition is refused although the fstab names its device. *)
Example device_new_swap :
  device_new Sample.kind Sample.swap1 Sample.claimed = Ok (None, Sample.claimed).
Proof. reflexivity. Qed.

(** ** Unmounting *)

Lemma device_unmount_unknown (w : world) (dev : udev_device) (st : daemon) :
  device_search (Some (ud_devnode dev)) st = None ->
  device_unmount w dev st = Ok (false, st).
Proof. intros H. unfold device_unmount. run_monad. now rewrite H. Qed.

(* What device_unmount does with a record it found, by what the live table
   says and what the executor answers *)
Lemma device_unmount_found (w : world) (dev : udev_device) (st : daemon)
      (d : device_t) (m : option libmnt_fs) :
  device_search (Some (ud_devnode dev)) st = Some d ->
  fstab_search (g_mtab st) dev = Ok m ->
  device_unmount w dev st =
    if is_some m then
      if os_umount w (g_trace st) (dv_devnode d)
      then Ok (true, released_state d (umount_state d st))
      else Ok (false, umount_failed_state d st)
    else Ok (true, released_state d st).
Proof.
  intros Hfound Hm.
  unfold device_unmount, device_is_mounted, spawn_helper, device_destroy, CALLBACK_PATH.
  run_monad. rewrite Hfound, Hm.
  destruct m as [e|]; cbn [is_some]; [|reflexivity].
  destruct (os_umount w (g_trace st) (dv_devnode d)); reflexivity.
Qed.

Lemma device_unmount_fault (w : world) (dev : udev_device) (st : daemon)
      (d : device_t) :
  device_search (Some (ud_devnode dev)) st = Some d ->
  fstab_search (g_mtab st) dev = Fault ->
  device_unmount w dev st = Fault.
Proof.
  intros Hfound Hm. unfold device_unmount, device_is_mounted. run_monad.
  now rewrite Hfound, Hm.
Qed.

(** C5 (as amended): for a device whose record is registered, the
    executor's unmount is called exactly when the live table resolves the
    device to an entry, once, and its target is the device path of the
    record; when the live table does not show the device, the executor is
    not called at all. *)
Theorem device_unmount_calls_executor (w : world) (dev : udev_device)
        (st : daemon) (d : device_t) (m : option libmnt_fs) :
  device_search (Some (ud_devnode dev)) st = Some d ->
  fstab_search (g_mtab st) dev = Ok m ->
  exists r st',
    device_unmount w dev st = Ok (r, st') /\
    umount_calls (g_trace st') =
      (if is_some m then [dv_devnode d] else []) ++ umount_calls (g_trace st).
Proof.
  intros Hfound Hm. rewrite (device_unmount_found w dev st d m Hfound Hm).
  destruct m as [e|]; cbn [is_some].
  - destruct (os_umount w (g_trace st) (dv_devnode d));
      eexists; eexists; split; reflexivity.
  - eexists; eexists; split; reflexivity.
Qed.

Lemma device_unmount_calls_executor_witness :
  exists r st',
    device_unmount Sample.kind Sample.sdb1 Sample.one_mounted = Ok (r, st') /\
    umount_calls (g_trace st') = ["/dev/sdb1"].
Proof.
  exact (device_unmount_calls_executor
           Sample.kind Sample.sdb1 Sample.one_mounted (Sample.sdb1_record 1)
           (Some Sample.sdb1_entry) eq_refl eq_refl).
Defined.

(** C5 (the claim as stated fails): the target handed to the executor is the
    device path, not the mountpoint of the record. *)
Lemma device_unmount_target_is_devnode :
  device_search (Some (ud_devnode Sample.sdb1)) Sample.one_mounted
    = Some (Sample.sdb1_record 1) /\
  fstab_search (g_mtab Sample.one_mounted) Sample.sdb1 = Ok (Some Sample.sdb1_entry) /\
  exists st',
    device_unmount Sample.kind Sample.sdb1 Sample.one_mounted = Ok (true, st') /\
    umount_calls (g_trace st') = ["/dev/sdb1"] /\
    ~ In (dv_mountpoint (Sample.sdb1_record 1)) (umount_calls (g_trace st')).
Proof.
  split; [reflexivity|]. split; [reflexivity|].
  eexists. split; [reflexivity|]. split; [reflexivity|].
  intros [H|[]]. discriminate.
Qed.

(** C6: when the live table shows a registered device mounted and the
    executor's unmount fails, device_unmount returns failure and stops: the
    array is untouched and the record still found, and the only calls made
    are the unmount and the syslog line, so no rmdir, no helper and no
    device_destroy. *)
Theorem device_unmount_executor_failure (w : world) (dev : udev_device)
        (st : daemon) (d : device_t) (e : libmnt_fs) :
  device_search (Some (ud_devnode dev)) st = Some d ->
  fstab_search (g_mtab st) dev = Ok (Some e) ->
  os_umount w (g_trace st) (dv_devnode d) = false ->
  exists st',
    device_unmount w dev st = Ok (false, st') /\
    g_devices st' = g_devices st /\
    device_search (Some (ud_devnode dev)) st' = Some d /\
    g_trace st' =
      EvSyslog "Error while unmounting %s (%s)" (dv_devnode d)
        :: EvUmount (dv_devnode d) :: g_trace st.
Proof.
  intros Hfound Hm Hfail.
  rewrite (device_unmount_found w dev st d (Some e) Hfound Hm). cbn [is_some].
  rewrite Hfail. exists (umount_failed_state d st).
  repeat split; try reflexivity. exact Hfound.
Qed.

Lemma device_unmount_executor_failure_witness :
  exists st',
    device_unmount Sample.hostile Sample.sdb1 Sample.one_mounted = Ok (false, st') /\
    g_devices st' = g_devices Sample.one_mounted /\
    device_search (Some "/dev/sdb1") st' = Some (Sample.sdb1_record 1) /\
    g_trace st' =
      [EvSyslog "Error while unmounting %s (%s)" "/dev/sdb1"; EvUmount "/dev/sdb1"].
Proof.
  exact (device_unmount_executor_failure
           Sample.hostile Sample.sdb1 Sample.one_mounted (Sample.sdb1_record 1)
           Sample.sdb1_entry eq_refl eq_refl eq_refl).
Defined.

(** ** The remove command *)

Lemma strip_trailing_slash_cons (c : ascii) (s : string) :
  s <> "" -> strip_trailing_slash (String c s) = String c (strip_trailing_slash s).
Proof.
  destruct s as [|a s']; [congruence|]. intros _.
  unfold strip_trailing_slash. cbn [String.length].
  replace (S (S (String.length s')) - 1) with (S (String.length s')) by lia.
  replace (S (String.length s') - 1) with (String.length s') by lia.
  change (String.get (S (String.length s')) (String c (String a s')))
    with (String.get (String.length s') (String a s')).
  destruct (String.get (String.length s') (String a s')) as [x|]; [|reflexivity].
  destruct (Ascii.eqb x "/"); reflexivity.
Qed.

Lemma strip_trailing_slash_remove_key (s : string) :
  s <> "" -> strip_trailing_slash s = remove_key s.
Proof.
  induction s as [|a s' IH]; [congruence|]. intros _.
  destruct s' as [|b s''].
  - unfold strip_trailing_slash. cbn. destruct (Ascii.eqb a "/"); reflexivity.
  - rewrite strip_trailing_slash_cons by discriminate.
    rewrite IH by discriminate. reflexivity.
Qed.

(* The key looked up for the message 'R' followed by path *)
Lemma remove_command_key (path : string) :
  skip_command (strip_trailing_slash (String "R" path)) = remove_key path.
Proof.
  destruct path as [|a s].
  - reflexivity.
  - rewrite strip_trailing_slash_cons by discriminate.
    cbn [skip_command]. apply strip_trailing_slash_remove_key. discriminate.
Qed.

(** C7 (as amended): for the message 'R' followed by a path, one trailing
    '/' is stripped and the result looked up as device path or mountpoint.
    Without a match nothing changes.  With a match the record's device is
    unmounted only when the live table shows it mounted; a matching device
    the live table does not show is left registered and nothing changes. *)
Theorem handle_ipc_event_remove (w : world) (path : string) (st : daemon) :
  handle_ipc_event w (String "R" path) st =
    match device_search (Some (remove_key path)) st with
    | None => Ok (tt, st)
    | Some d =>
        match fstab_search (g_mtab st) (dv_udev d) with
        | Ok (Some _) =>
            match device_unmount w (dv_udev d) st with
            | Ok (_, st') => Ok (tt, st')
            | Fault => Fault
            end
        | Ok None => Ok (tt, st)
        | Fault => Fault
        end
    end.
Proof.
  unfold handle_ipc_event. cbn beta iota. rewrite remove_command_key.
  unfold device_is_mounted. run_monad.
  destruct (device_search (Some (remove_key path)) st) as [d|]; [|reflexivity].
  destruct (fstab_search (g_mtab st) (dv_udev d)) as [[e|]|]; reflexivity.
Qed.

(* The key of the specification's scenario *)
Example remove_key_scenario : remove_key "/mnt/My_Disk/" = "/mnt/My_Disk".
Proof. reflexivity. Qed.

(** C7 (the claim as stated fails): a registered device that matches the
    path but is not shown by the live table is not unmounted; the command
    changes nothing, while device_unmount on it would release the record. *)
Lemma handle_ipc_event_skips_unmounted :
  device_search (Some (remove_key "/mnt/My_Disk/")) Sample.one
    = Some (Sample.sdb1_record 1) /\
  handle_ipc_event Sample.kind "R/mnt/My_Disk/" Sample.one = Ok (tt, Sample.one) /\
  device_unmount Sample.kind Sample.sdb1 Sample.one
    = Ok (true, released_state (Sample.sdb1_record 1) Sample.one) /\
  device_search (Some "/mnt/My_Disk") (released_state (Sample.sdb1_record 1) Sample.one)
    = None.
Proof. repeat split; reflexivity. Qed.

(** ** A mount that fails after creation *)

Lemma cleanup_state_globals (w : world) (d : device_t) (st : daemon) :
  g_devices (cleanup_state w d st) = g_devices st /\
  g_mtab (cleanup_state w d st) = g_mtab st.
Proof. unfold cleanup_state. destruct (mount_succeeds w d st); split; reflexivity. Qed.

(* device_mount once device_new has returned a record *)
Lemma device_mount_created (w : world) (dev : udev_device) (st st1 : daemon)
      (d : device_t) :
  device_new w dev st = Ok (Some d, st1) ->
  device_mount w dev st =
    if mount_attempt_fails w d st1 then
      match device_unmount w dev (cleanup_state w d st1) with
      | Ok (_, st') => Ok (false, st')
      | Fault => Fault
      end
    else
      let mounted := add_event (mount_request d st1) (mount_state d st1) in
      Ok (true,
          add_event (EvSpawn CALLBACK_PATH "mount" (dv_mountpoint d))
                    (if needs_chown d
                     then add_event (EvChown (dv_mountpoint d) (g_uid st1) (g_gid st1))
                                    mounted
                     else mounted)).
Proof.
  intros Hnew.
  unfold device_mount, mount_attempt_fails, cleanup_state, chown_succeeds,
    needs_chown, spawn_helper, CALLBACK_PATH.
  run_monad. rewrite Hnew. cbn beta iota.
  change (os_mount w (g_trace (add_event (EvMkdir (dv_mountpoint d) 755) st1))
            (dv_filesystem d) (dv_devnode d) (dv_mountpoint d)
            (mount_options (filesystem_quirks (dv_filesystem d))
               (g_uid (add_event (EvMkdir (dv_mountpoint d) 755) st1))
               (g_gid (add_event (EvMkdir (dv_mountpoint d) 755) st1)))
            match dv_type d with
            | DEVICE_CD => true
            | _ => false
            end)
    with (mount_succeeds w d st1).
  destruct (mount_succeeds w d st1); cbn [negb orb andb]; [|reflexivity].
  destruct (quirk_set (filesystem_quirks (dv_filesystem d)) QUIRK_OWNER_FIX);
    cbn [negb orb andb]; [reflexivity|].
  match goal with
  | |- context [os_chown w ?tr ?mp ?uid ?gid] =>
      destruct (os_chown w tr mp uid gid) eqn:Hchown
  end; unfold mount_request, mount_state in *; cbn in Hchown |- *;
    rewrite Hchown; reflexivity.
Qed.

Lemma device_mount_not_created (w : world) (dev : udev_device) (st st1 : daemon) :
  device_new w dev st = Ok (None, st1) ->
  device_mount w dev st = Ok (false, st1).
Proof. intros H. unfold device_mount. run_monad. now rewrite H. Qed.

Lemma device_mount_fault (w : world) (dev : udev_device) (st : daemon) :
  device_new w dev st = Fault -> device_mount w dev st = Fault.
Proof. intros H. unfold device_mount. run_monad. now rewrite H. Qed.

(* The last line of device_change hands on the result of device_mount. *)
Lemma device_mount_result (w : world) (dev : udev_device) (st : daemon) :
  bind (device_mount w dev) (fun mounted => if mounted then ret true else ret false) st
  = device_mount w dev st.
Proof.
  unfold bind, ret. destruct (device_mount w dev st) as [[[|] st']|]; reflexivity.
Qed.

(** C10 (as amended): when the mount attempt fails after creation, and no
    record matched the device path before, device_unmount is run on the new
    record.  If the live table does not show the device, or the executor's
    unmount succeeds, the record is released (the array is as before the
    call), rmdir has been called on the mountpoint and the helper has been
    called with action "unmount".  If the live table shows the device and
    the executor's unmount fails, the cleanup stops there: the record stays
    registered, and neither rmdir nor the helper is called. *)
Theorem device_mount_failure_cleanup (w : world) (dev : udev_device)
        (st st1 : daemon) (d : device_t) (m : option libmnt_fs) :
  device_new w dev st = Ok (Some d, st1) ->
  mount_attempt_fails w d st1 = true ->
  device_search (Some (ud_devnode dev)) st = None ->
  fstab_search (g_mtab st) dev = Ok m ->
  let s := cleanup_state w d st1 in
  if is_some m && negb (os_umount w (g_trace s) (dv_devnode d))
  then
    device_mount w dev st = Ok (false, umount_failed_state d s) /\
    device_search (Some (ud_devnode dev)) (umount_failed_state d s) = Some d /\
    g_trace (umount_failed_state d s) =
      EvSyslog "Error while unmounting %s (%s)" (dv_devnode d)
        :: EvUmount (dv_devnode d) :: g_trace s
  else
    exists st',
      device_mount w dev st = Ok (false, st') /\
      g_devices st' = g_devices st /\
      device_search (Some (ud_devnode dev)) st' = None /\
      g_trace st' =
        EvSpawn CALLBACK_PATH "unmount" (dv_mountpoint d)
          :: EvRmdir (dv_mountpoint d)
          :: (if is_some m then [EvUmount (dv_devnode d)] else []) ++ g_trace s.
Proof.
  intros Hnew Hfail Hnone Hm s.
  pose proof (device_new_cases w dev st) as Hc. rewrite Hnew in Hc.
  destruct Hc as (Hreg & Hst1 & Haddr & Hnode & _).
  destruct (cleanup_state_globals w d st1) as [Hdev Hmtab]. fold s in Hdev, Hmtab.
  assert (Hm1 : g_mtab st1 = g_mtab st) by (rewrite Hst1; reflexivity).
  assert (Hfound : device_search (Some (ud_devnode dev)) s = Some d).
  { cbn [device_search]. rewrite Hdev, <- Hnode.
    eapply register_scan_search; [exact Hreg|]. rewrite Hnode. exact Hnone. }
  assert (Hms : fstab_search (g_mtab s) dev = Ok m) by now rewrite Hmtab, Hm1.
  assert (Hback : destroy_scan (g_devices st1) (dv_addr d) = g_devices st).
  { apply destroy_scan_registered; [exact Hreg|].
    intros d' Hin. apply calloc_device_fresh in Hin. lia. }
  rewrite (device_mount_created w dev st st1 d Hnew), Hfail. fold s.
  rewrite (device_unmount_found w dev s d m Hfound Hms).
  destruct m as [e|]; cbn [is_some andb].
  - destruct (os_umount w (g_trace s) (dv_devnode d)); cbn [negb].
    + eexists. split; [reflexivity|].
      cbn [released_state umount_state g_devices set_devices add_event
           device_search g_trace app].
      rewrite Hdev, Hback. repeat split; try reflexivity. exact Hnone.
    + repeat split; try reflexivity.
      cbn [device_search umount_failed_state umount_state g_devices add_event].
      exact Hfound.
  - eexists. split; [reflexivity|].
    cbn [released_state g_devices set_devices add_event device_search g_trace app].
    rewrite Hdev, Hback. repeat split; try reflexivity. exact Hnone.
Qed.

Lemma device_mount_failure_cleanup_witness :
  exists st',
    device_mount Sample.hostile Sample.sdb1 Sample.empty = Ok (false, st') /\
    g_devices st' = g_devices Sample.empty /\
    device_search (Some "/dev/sdb1") st' = None /\
    g_trace st' =
      [ EvSpawn None "unmount" "/mnt/My_Disk"; EvRmdir "/mnt/My_Disk";
        EvSyslog "Error while mounting %s (%s)" "/dev/sdb1";
        EvMount "ext4" "/dev/sdb1" "/mnt/My_Disk" "" false;
        EvMkdir "/mnt/My_Disk" 755 ].
Proof.
  exact (device_mount_failure_cleanup
           Sample.hostile Sample.sdb1 Sample.empty
           (set_devices (Some (Sample.sdb1_record 1) :: repeat None 19) Sample.empty)
           (Sample.sdb1_record 1) None eq_refl eq_refl eq_refl eq_refl).
Defined.

(** C10 (the claim as stated fails): the live table shows the device, the
    mount fails and so does the unmount of the cleanup: the new record stays
    in the array, and neither rmdir nor the helper is called. *)
Lemma device_mount_failure_keeps_record :
  device_new Sample.hostile Sample.sdb1 Sample.shown
    = Ok (Some (Sample.sdb1_record 1),
          set_devices (Some (Sample.sdb1_record 1) :: repeat None 19) Sample.shown) /\
  device_mount Sample.hostile Sample.sdb1 Sample.shown = Ok (false, Sample.failed) /\
  device_search (Some "/dev/sdb1") Sample.failed = Some (Sample.sdb1_record 1) /\
  g_trace Sample.failed =
    [ EvSyslog "Error while unmounting %s (%s)" "/dev/sdb1"; EvUmount "/dev/sdb1";
      EvSyslog "Error while mounting %s (%s)" "/dev/sdb1";
      EvMount "ext4" "/dev/sdb1" "/mnt/My_Disk" "" false;
      EvMkdir "/mnt/My_Disk" 755 ] /\
  ~ In (EvRmdir "/mnt/My_Disk") (g_trace Sample.failed) /\
  ~ In (EvSpawn CALLBACK_PATH "unmount" "/mnt/My_Disk") (g_trace Sample.failed).
Proof.
  split; [reflexivity|]. split; [reflexivity|]. split; [reflexivity|].
  split; [reflexivity|].
  split; intros H; vm_compute in H; intuition discriminate.
Qed.

(** ** What every operation keeps *)

Lemma keeps_weaken {A} (R R' : daemon -> daemon -> Prop) (m : M A) :
  (forall s s', R s s' -> R' s s') -> keeps R m -> keeps R' m.
Proof. intros HR Hm st a st' H. eauto. Qed.

Lemma keeps_bind {A B} (R1 R2 R3 : daemon -> daemon -> Prop)
      (m : M A) (k : A -> M B) :
  (forall s1 s2 s3, R1 s1 s2 -> R2 s2 s3 -> R3 s1 s3) ->
  keeps R1 m -> (forall a, keeps R2 (k a)) -> keeps R3 (bind m k).
Proof.
  intros Hc Hm Hk st b st' H. unfold bind in H.
  destruct (m st) as [[a st1]|] eqn:Hm1; [|discriminate].
  eapply Hc; [eapply Hm | eapply Hk]; eassumption.
Qed.

Section Frame.

(* Rs holds between the array before and after releasing records; Gs allows
   in addition the registration of one record with device path p. *)
Variables Rs Gs : list (option device_t) -> list (option device_t) -> Prop.
Variable p : string.
Variable w : world.

Hypothesis Rs_refl : forall s, Rs s s.
Hypothesis Rs_trans : forall s1 s2 s3, Rs s1 s2 -> Rs s2 s3 -> Rs s1 s3.
Hypothesis Rs_destroy : forall s addr, Rs s (destroy_scan s addr).
Hypothesis Rs_Gs : forall s s', Rs s s' -> Gs s s'.
Hypothesis Rs_then_Gs : forall s1 s2 s3, Rs s1 s2 -> Gs s2 s3 -> Gs s1 s3.
Hypothesis Gs_then_Rs : forall s1 s2 s3, Gs s1 s2 -> Rs s2 s3 -> Gs s1 s3.
Hypothesis Gs_register :
  forall s s' r, dv_devnode r = p -> register_scan s r = Some s' -> Gs s s'.

Let R := on_devices Rs.
Let G := on_devices Gs.

Lemma keeps_ret {A} (a : A) : keeps R (ret a).
Proof. intros st a' st' H. injection H as _ <-. apply Rs_refl. Qed.

Lemma keeps_gets {A} (f : daemon -> A) : keeps R (gets f).
Proof. intros st a' st' H. injection H as _ <-. apply Rs_refl. Qed.

Lemma keeps_lift {A} (o : outcome A) : keeps R (lift o).
Proof.
  intros st a st' H. unfold lift in H. destruct o; [|discriminate].
  injection H as _ <-. apply Rs_refl.
Qed.

Lemma keeps_emit (e : event) : keeps R (emit e).
Proof. intros st a st' H. injection H as _ <-. apply Rs_refl. Qed.

Lemma keeps_device_destroy (addr : nat) : keeps R (device_destroy addr).
Proof. intros st a st' H. injection H as _ <-. apply Rs_destroy. Qed.

Lemma keeps_device_is_mounted (dev : udev_device) : keeps R (device_is_mounted dev).
Proof.
  intros st a st' H. unfold device_is_mounted in H.
  destruct (fstab_search (g_mtab st) dev); [|discriminate].
  injection H as _ <-. apply Rs_refl.
Qed.

Lemma keeps_seq {A B} (m : M A) (k : A -> M B) :
  keeps R m -> (forall a, keeps R (k a)) -> keeps R (bind m k).
Proof. apply keeps_bind. intros s1 s2 s3. apply Rs_trans. Qed.

Lemma keeps_then_grow {A B} (m : M A) (k : A -> M B) :
  keeps R m -> (forall a, keeps G (k a)) -> keeps G (bind m k).
Proof. apply keeps_bind. intros s1 s2 s3. apply Rs_then_Gs. Qed.

Lemma keeps_grow_then {A B} (m : M A) (k : A -> M B) :
  keeps G m -> (forall a, keeps R (k a)) -> keeps G (bind m k).
Proof. apply keeps_bind. intros s1 s2 s3. apply Gs_then_Rs. Qed.

Lemma keeps_grow {A} (m : M A) : keeps R m -> keeps G m.
Proof. apply keeps_weaken. intros s s'. apply Rs_Gs. Qed.

Ltac frame :=
  repeat first
    [ apply keeps_ret | apply keeps_gets | apply keeps_lift | apply keeps_emit
    | apply keeps_device_destroy | apply keeps_device_is_mounted
    | apply keeps_seq; [|intros ?]
    | match goal with
      | |- keeps _ (match ?x with _ => _ end) => destruct x
      end ].

Lemma keeps_spawn_helper (helper : option string) (action mountpoint : string) :
  keeps R (spawn_helper w helper action mountpoint).
Proof. unfold spawn_helper. frame. Qed.

Lemma keeps_device_unmount (dev : udev_device) : keeps R (device_unmount w dev).
Proof. unfold device_unmount. frame; apply keeps_spawn_helper. Qed.

Lemma keeps_handle_ipc_event (msg : string) : keeps R (handle_ipc_event w msg).
Proof.
  unfold handle_ipc_event.
  destruct msg as [|c msg]; [apply keeps_ret|].
  destruct (Ascii.eqb_spec c "R") as [->|Hc].
  - cbn beta iota. frame; apply keeps_device_unmount.
  - destruct c as [[] [] [] [] [] [] [] []]; try apply keeps_ret. congruence.
Qed.

Lemma keeps_check_loop (n j : nat) : keeps R (check_loop w n j).
Proof.
  revert j. induction n as [|n IH]; intros j; cbn [check_loop].
  - apply keeps_ret.
  - frame; try apply keeps_device_unmount; apply IH.
Qed.

Lemma keeps_device_register (r : device_t) :
  dv_devnode r = p -> keeps G (device_register r).
Proof.
  intros Hp st a st' H. unfold device_register in H.
  destruct (register_scan (g_devices st) r) as [s'|] eqn:Hreg; injection H as _ <-.
  - eapply Gs_register; eassumption.
  - apply Rs_Gs, Rs_refl.
Qed.

Lemma keeps_device_new (dev : udev_device) :
  ud_devnode dev = p -> keeps G (device_new w dev).
Proof.
  intros Hp. unfold device_new.
  repeat first
    [ apply keeps_grow_then;
      [ apply keeps_device_register; exact Hp | intros ?; frame ]
    | apply keeps_then_grow; [ solve [frame] | intros ? ]
    | match goal with
      | |- keeps _ (match ?x with _ => _ end) => destruct x
      end
    | apply keeps_grow; solve [frame] ].
Qed.

Lemma keeps_device_mount (dev : udev_device) :
  ud_devnode dev = p -> keeps G (device_mount w dev).
Proof.
  intros Hp. unfold device_mount.
  apply keeps_grow_then; [now apply keeps_device_new|].
  intros [d|]; frame;
    first [apply keeps_device_unmount | apply keeps_spawn_helper].
Qed.

Lemma keeps_device_change (dev : udev_device) :
  ud_devnode dev = p -> keeps G (device_change w dev).
Proof.
  intros Hp. unfold device_change.
  apply keeps_then_grow; [solve [frame]|]. intros found.
  apply keeps_then_grow.
  { destruct found; frame; apply keeps_device_unmount. }
  intros [|]; [apply keeps_grow, keeps_ret|].
  apply keeps_grow_then; [now apply keeps_device_mount|].
  intros [|]; apply keeps_ret.
Qed.

End Frame.

(** ** Device paths in the array *)

Lemma slot_count_cons_some (q : string) (d : device_t)
      (rest : list (option device_t)) :
  slot_count q (Some d :: rest) =
    (if string_dec (dv_devnode d) q then 1 else 0) + slot_count q rest.
Proof.
  unfold slot_count. cbn [live_records map count_occ].
  destruct (string_dec (dv_devnode d) q); reflexivity.
Qed.

Lemma slot_count_cons_none (q : string) (rest : list (option device_t)) :
  slot_count q (None :: rest) = slot_count q rest.
Proof. reflexivity. Qed.

Lemma shrunk_refl (s : list (option device_t)) : shrunk s s.
Proof. intros q. lia. Qed.

Lemma shrunk_trans (s1 s2 s3 : list (option device_t)) :
  shrunk s1 s2 -> shrunk s2 s3 -> shrunk s1 s3.
Proof. intros H1 H2 q. specialize (H1 q). specialize (H2 q). lia. Qed.

Lemma shrunk_destroy (s : list (option device_t)) (addr : nat) :
  shrunk s (destroy_scan s addr).
Proof.
  intros q. induction s as [|[d|] rest IH]; cbn [destroy_scan].
  - lia.
  - destruct (dv_addr d =? addr).
    + rewrite slot_count_cons_none, slot_count_cons_some. lia.
    + rewrite !slot_count_cons_some. lia.
  - rewrite !slot_count_cons_none. exact IH.
Qed.

Lemma shrunk_grown (p : string) (s s' : list (option device_t)) :
  shrunk s s' -> grown p s s'.
Proof. intros H q. specialize (H q). lia. Qed.

Lemma shrunk_then_grown (p : string) (s1 s2 s3 : list (option device_t)) :
  shrunk s1 s2 -> grown p s2 s3 -> grown p s1 s3.
Proof. intros H1 H2 q. specialize (H1 q). specialize (H2 q). lia. Qed.

Lemma grown_then_shrunk (p : string) (s1 s2 s3 : list (option device_t)) :
  grown p s1 s2 -> shrunk s2 s3 -> grown p s1 s3.
Proof. intros H1 H2 q. specialize (H1 q). specialize (H2 q). lia. Qed.

Lemma grown_register (p : string) (s s' : list (option device_t)) (r : device_t) :
  dv_devnode r = p -> register_scan s r = Some s' -> grown p s s'.
Proof.
  intros Hp Hreg q. revert s' Hreg.
  induction s as [|[d|] rest IH]; cbn [register_scan]; intros s' Hreg.
  - discriminate.
  - destruct (register_scan rest r) as [rest'|]; [|discriminate].
    injection Hreg as <-. rewrite !slot_count_cons_some.
    specialize (IH rest' eq_refl). lia.
  - injection Hreg as <-.
    rewrite slot_count_cons_some, slot_count_cons_none, Hp. lia.
Qed.

Lemma same_length_destroy (s : list (option device_t)) (addr : nat) :
  same_length s (destroy_scan s addr).
Proof.
  unfold same_length. induction s as [|[d|] rest IH]; cbn [destroy_scan].
  - reflexivity.
  - destruct (dv_addr d =? addr); cbn [List.length]; [reflexivity | now rewrite IH].
  - cbn [List.length]. now rewrite IH.
Qed.

Lemma same_length_register (s s' : list (option device_t)) (r : device_t) :
  register_scan s r = Some s' -> same_length s s'.
Proof. intros H. now destruct (register_scan_some _ _ _ H). Qed.

Lemma same_length_trans (s1 s2 s3 : list (option device_t)) :
  same_length s1 s2 -> same_length s2 s3 -> same_length s1 s3.
Proof. unfold same_length. congruence. Qed.

Lemma unique_of_grown (p : string) (st st' : daemon) :
  unique_devnodes st ->
  ~ In p (devnodes st) ->
  on_devices (grown p) st st' ->
  unique_devnodes st'.
Proof.
  unfold unique_devnodes, on_devices, grown, slot_count, devnodes.
  intros Hu Hp Hg. apply (NoDup_count_occ string_dec). intros q.
  specialize (Hg q). rewrite (NoDup_count_occ string_dec) in Hu.
  specialize (Hu q). destruct (string_dec p q) as [<-|Hq]; [|lia].
  apply (count_occ_not_In string_dec) in Hp. lia.
Qed.

Lemma unique_of_shrunk (st st' : daemon) :
  unique_devnodes st -> on_devices shrunk st st' -> unique_devnodes st'.
Proof.
  unfold unique_devnodes, on_devices, shrunk, slot_count, devnodes.
  intros Hu Hs. apply (NoDup_count_occ string_dec). intros q.
  specialize (Hs q). rewrite (NoDup_count_occ string_dec) in Hu.
  specialize (Hu q). lia.
Qed.

(* Unmounting, reconciling and the remove command add no record. *)
Lemma releasing_shrinks (w : world) (op : operation) :
  added_path op = None -> keeps (on_devices shrunk) (run w op).
Proof.
  destruct op as [dev|dev|dev|dev| |msg]; cbn [added_path run]; try discriminate;
    intros _.
  - apply (keeps_seq shrunk shrunk_trans).
    + exact (keeps_device_unmount shrunk w shrunk_refl shrunk_trans
                                  shrunk_destroy dev).
    + intros a. exact (keeps_ret shrunk shrunk_refl tt).
  - exact (keeps_check_loop shrunk w shrunk_refl shrunk_trans shrunk_destroy _ _).
  - exact (keeps_handle_ipc_event shrunk w shrunk_refl shrunk_trans
                                  shrunk_destroy msg).
Qed.

(* Creating, mounting and changing add at most one record, for the device
   path of the event. *)
Lemma adding_grows (w : world) (op : operation) (p : string) :
  added_path op = Some p -> keeps (on_devices (grown p)) (run w op).
Proof.
  destruct op as [dev|dev|dev|dev| |msg]; cbn [added_path run]; try discriminate;
    intros [= Hp];
    (apply (keeps_grow_then shrunk (grown p) (grown_then_shrunk p));
     [ | intros a; exact (keeps_ret shrunk shrunk_refl tt) ]).
  - exact (keeps_device_new shrunk (grown p) p w shrunk_refl shrunk_trans
             shrunk_destroy (shrunk_grown p) (shrunk_then_grown p)
             (grown_then_shrunk p) (grown_register p) dev Hp).
  - exact (keeps_device_mount shrunk (grown p) p w shrunk_refl shrunk_trans
             shrunk_destroy (shrunk_grown p) (shrunk_then_grown p)
             (grown_then_shrunk p) (grown_register p) dev Hp).
  - exact (keeps_device_change shrunk (grown p) p w shrunk_refl shrunk_trans
             shrunk_destroy (shrunk_grown p) (shrunk_then_grown p)
             (grown_then_shrunk p) (grown_register p) dev Hp).
Qed.

(* What a run of an operation returns is what its function returns. *)
Lemma run_ends {A} (m : M A) (st st' : daemon) :
  bind m (fun _ => ret tt) st = Ok (tt, st') -> exists a, m st = Ok (a, st').
Proof.
  unfold bind, ret. destruct (m st) as [[a st1]|]; [|discriminate].
  intros [= ->]. now exists a.
Qed.

Lemma device_new_grows (w : world) (dev : udev_device) :
  keeps (on_devices (grown (ud_devnode dev))) (device_new w dev).
Proof.
  exact (keeps_device_new shrunk (grown (ud_devnode dev)) (ud_devnode dev) w
           shrunk_refl shrunk_trans shrunk_destroy (shrunk_grown _)
           (shrunk_then_grown _) (grown_then_shrunk _) (grown_register _)
           dev eq_refl).
Qed.

Lemma device_mount_grows (w : world) (dev : udev_device) :
  keeps (on_devices (grown (ud_devnode dev))) (device_mount w dev).
Proof.
  exact (keeps_device_mount shrunk (grown (ud_devnode dev)) (ud_devnode dev) w
           shrunk_refl shrunk_trans shrunk_destroy (shrunk_grown _)
           (shrunk_then_grown _) (grown_then_shrunk _) (grown_register _)
           dev eq_refl).
Qed.

(* A device that device_new rejects gets no record. *)
Lemma device_new_rejected (w : world) (dev : udev_device) (st st' : daemon)
      (r : option device_t) :
  create_rejected w dev st ->
  device_new w dev st = Ok (r, st') ->
  r = None /\ g_devices st' = g_devices st.
Proof.
  intros Hrej Hnew.
  pose proof (device_new_cases w dev st) as Hc.
  pose proof (device_new_reasons w dev st) as Hr.
  rewrite Hnew in Hc, Hr. destruct r as [d|].
  - destruct (Hr Hrej).
  - split; [reflexivity | apply Hc].
Qed.

Lemma device_mount_rejected (w : world) (dev : udev_device) (st st' : daemon)
      (b : bool) :
  create_rejected w dev st ->
  device_mount w dev st = Ok (b, st') ->
  g_devices st' = g_devices st.
Proof.
  intros Hrej Hm.
  destruct (device_new w dev st) as [[r st1]|] eqn:Hnew.
  - destruct (device_new_rejected w dev st st1 r Hrej Hnew) as [-> Hd].
    rewrite (device_mount_not_created w dev st st1 Hnew) in Hm.
    injection Hm as _ <-. exact Hd.
  - rewrite (device_mount_fault w dev st Hnew) in Hm. discriminate.
Qed.

Lemma unique_same_devices (st st' : daemon) :
  g_devices st' = g_devices st -> unique_devnodes st -> unique_devnodes st'.
Proof. unfold unique_devnodes, devnodes. now intros ->. Qed.

(* device_change once the unmount is decided *)
Lemma device_change_skips (w : world) (dev : udev_device) (st : daemon) :
  fstab_search (g_mtab st) dev = Ok None ->
  device_change w dev st = device_mount w dev st.
Proof.
  intros Hm. unfold device_change.
  unfold bind at 1. unfold gets at 1.
  destruct (device_search (Some (ud_devnode dev)) st) as [d|].
  - unfold bind at 1. unfold bind at 1. unfold device_is_mounted at 1.
    rewrite Hm. cbn [obind is_some ret]. apply device_mount_result.
  - unfold bind at 1. cbn [ret]. apply device_mount_result.
Qed.

Lemma device_change_unmounts (w : world) (dev : udev_device) (st : daemon)
      (d : device_t) (e : libmnt_fs) :
  device_search (Some (ud_devnode dev)) st = Some d ->
  fstab_search (g_mtab st) dev = Ok (Some e) ->
  device_change w dev st =
    if os_umount w (g_trace st) (dv_devnode d)
    then device_mount w dev (released_state d (umount_state d st))
    else Ok (false, umount_failed_state d st).
Proof.
  intros Hfound Hm.
  pose proof (device_unmount_found w dev st d (Some e) Hfound Hm) as Hu.
  cbn [is_some] in Hu. unfold device_change.
  unfold bind at 1. unfold gets at 1. rewrite Hfound.
  unfold bind at 1. unfold bind at 1. unfold device_is_mounted at 1.
  rewrite Hm. cbn [obind is_some]. unfold bind at 1. rewrite Hu.
  destruct (os_umount w (g_trace st) (dv_devnode d)); cbn [negb ret];
    [apply device_mount_result | reflexivity].
Qed.

Lemma search_scan_live (slots : list (option device_t)) (path : string)
      (d : device_t) :
  search_scan slots path = Some d -> In d (live_records slots).
Proof.
  induction slots as [|[d'|] rest IH]; cbn [search_scan live_records].
  - discriminate.
  - destruct (device_matches path d').
    + intros [= ->]. now left.
    + intros H. right. now apply IH.
  - exact IH.
Qed.

(* Destroying a record of an array without repeated pointers or device
   paths leaves no record of its device path. *)
Lemma destroy_scan_frees_devnode (slots : list (option device_t)) (d : device_t) :
  NoDup (addresses slots) ->
  NoDup (map dv_devnode (live_records slots)) ->
  In d (live_records slots) ->
  ~ In (dv_devnode d)
       (map dv_devnode (live_records (destroy_scan slots (dv_addr d)))).
Proof.
  unfold addresses.
  induction slots as [|[d'|] rest IH];
    cbn [destroy_scan live_records map]; intros Ha Hn Hin.
  - destruct Hin.
  - inversion Ha as [|a la Ha1 Ha2]. inversion Hn as [|n ln Hn1 Hn2]. subst.
    destruct (Nat.eqb_spec (dv_addr d') (dv_addr d)) as [E|E].
    + cbn [live_records]. destruct Hin as [-> | Hin]; [exact Hn1|].
      exfalso. apply Ha1. rewrite E. now apply in_map.
    + cbn [live_records map]. destruct Hin as [-> | Hin]; [congruence|].
      intros [Hd | Hd].
      * apply Hn1. rewrite Hd. now apply in_map.
      * exact (IH Ha2 Hn2 Hin Hd).
  - exact (IH Ha Hn Hin).
Qed.

Lemma device_change_unmounts_first (w : world) (dev : udev_device)
      (st st' : daemon) (b : bool) :
  unique_devnodes st ->
  unmounts_first dev st ->
  device_change w dev st = Ok (b, st') ->
  unique_devnodes st'.
Proof.
  intros Hu (Ha & (d & Hfound & Hd) & (e & Hm)) Hrun.
  rewrite (device_change_unmounts w dev st d e Hfound Hm) in Hrun.
  destruct (os_umount w (g_trace st) (dv_devnode d)).
  - apply (unique_of_grown (ud_devnode dev)
                           (released_state d (umount_state d st)) st').
    + apply (unique_of_shrunk st); [exact Hu|]. apply shrunk_destroy.
    + rewrite <- Hd. unfold devnodes. cbn [released_state g_devices set_devices
        umount_state add_event].
      apply destroy_scan_frees_devnode; [exact Ha | exact Hu |].
      eapply search_scan_live. exact Hfound.
    + eapply device_mount_grows. exact Hrun.
  - injection Hrun as _ <-. exact Hu.
Qed.

(** C2 (as amended): unmount, reconcile and the remove command keep the
    device paths of the registered records pairwise distinct.  Create and
    mount keep them distinct when the device path of the event has no
    record at the start, or the device is one device_new rejects.  Change
    keeps them distinct in these cases (with the live table not showing the
    device, for the rejected one) and also when the path has a record: the
    one of the device itself, which the live table shows mounted.  That
    record is released before the new one is stored, or the executor
    refuses the unmount and the change stops; no two slots hold the same
    record there, as in every state the daemon reaches.  (device_register
    checks no duplicates: without these conditions an operation can store a
    second record of the path.) *)
Theorem operations_keep_devnodes_unique (w : world) (op : operation)
        (st st' : daemon) :
  unique_devnodes st ->
  no_second_record w op st ->
  run w op st = Ok (tt, st') ->
  unique_devnodes st'.
Proof.
  intros Hu Hcond Hrun.
  destruct (added_path op) as [p|] eqn:Hop.
  2: { eapply unique_of_shrunk; [exact Hu |].
       eapply releasing_shrinks; eassumption. }
  assert (Hfree : ~ In p (devnodes st) -> unique_devnodes st').
  { intros Hp. eapply unique_of_grown; [exact Hu | exact Hp |].
    eapply adding_grows; eassumption. }
  destruct op as [dev|dev|dev|dev| |msg]; cbn [added_path] in Hop;
    try discriminate; injection Hop as <-;
    cbn [no_second_record run] in Hcond, Hrun;
    apply run_ends in Hrun; destruct Hrun as [a Hrun].
  - destruct Hcond as [Hp | Hrej]; [exact (Hfree Hp)|].
    destruct (device_new_rejected w dev st st' a Hrej Hrun) as [_ Hd].
    exact (unique_same_devices st st' Hd Hu).
  - destruct Hcond as [Hp | Hrej]; [exact (Hfree Hp)|].
    exact (unique_same_devices st st'
             (device_mount_rejected w dev st st' a Hrej Hrun) Hu).
  - destruct Hcond as [Hp | [Hfirst | [Hm Hrej]]]; [exact (Hfree Hp) | |].
    + exact (device_change_unmounts_first w dev st st' a Hu Hfirst Hrun).
    + rewrite (device_change_skips w dev st Hm) in Hrun.
      exact (unique_same_devices st st'
               (device_mount_rejected w dev st st' a Hrej Hrun) Hu).
Qed.

Lemma operations_keep_devnodes_unique_witness :
  In (ud_devnode Sample.sdb1) (devnodes Sample.one_mounted) /\
  run Sample.kind (OpChange Sample.sdb1) Sample.one_mounted
    = Ok (tt, Sample.remounted) /\
  unique_devnodes Sample.remounted.
Proof.
  assert (Hrun : run Sample.kind (OpChange Sample.sdb1) Sample.one_mounted
                 = Ok (tt, Sample.remounted)) by (vm_compute; reflexivity).
  assert (Hu : unique_devnodes Sample.one_mounted).
  { unfold unique_devnodes.
    change (devnodes Sample.one_mounted) with ["/dev/sdb1"].
    constructor; [intros [] | constructor]. }
  assert (Hfirst : unmounts_first Sample.sdb1 Sample.one_mounted).
  { split; [|split].
    - change (addresses (g_devices Sample.one_mounted)) with [1].
      constructor; [intros [] | constructor].
    - exists (Sample.sdb1_record 1). split; reflexivity.
    - exists Sample.sdb1_entry. reflexivity. }
  split; [now left|]. split; [exact Hrun|].
  exact (operations_keep_devnodes_unique
           Sample.kind (OpChange Sample.sdb1) Sample.one_mounted
           Sample.remounted Hu (or_intror (or_introl Hfirst)) Hrun).
Defined.

(** C2 (the claim as stated fails): after an add event, a change event that
    arrives while the live table does not show the device yet skips the
    unmount and registers a second record for the same device path. *)
Lemma change_registers_duplicate :
  run Sample.kind (OpMount Sample.sdb1) Sample.empty = Ok (tt, Sample.added) /\
  reachable Sample.kind Sample.added /\
  unique_devnodes Sample.added /\
  run Sample.kind (OpChange Sample.sdb1) Sample.added = Ok (tt, Sample.changed) /\
  reachable Sample.kind Sample.changed /\
  devnodes Sample.changed = ["/dev/sdb1"; "/dev/sdb1"] /\
  ~ unique_devnodes Sample.changed.
Proof.
  assert (Hadd : reachable Sample.kind Sample.added).
  { apply reach_round with (i := Hotplug "add" Sample.sdb1)
                           (st := Sample.empty) (running := true).
    - apply reach_startup.
    - vm_compute. reflexivity. }
  split; [vm_compute; reflexivity|].
  split; [exact Hadd|].
  split.
  { unfold unique_devnodes.
    replace (devnodes Sample.added) with ["/dev/sdb1"] by (vm_compute; reflexivity).
    constructor; [intros [] | constructor]. }
  split; [vm_compute; reflexivity|].
  split.
  { apply reach_round with (i := Hotplug "change" Sample.sdb1)
                           (st := Sample.added) (running := true).
    - exact Hadd.
    - vm_compute. reflexivity. }
  split; [vm_compute; reflexivity|].
  unfold unique_devnodes.
  replace (devnodes Sample.changed) with ["/dev/sdb1"; "/dev/sdb1"]
    by (vm_compute; reflexivity).
  intros H. inversion H as [|x l Hin _]. apply Hin. now left.
Qed.

(* The same device path is not lost on the way: the record of the change is
   the only one. *)
Example change_remounts :
  devnodes Sample.remounted = ["/dev/sdb1"].
Proof. vm_compute. reflexivity. Qed.

(* A second add event for a registered device stores a second record: the
   condition on mount cannot be dropped either. *)
Example add_twice_registers_duplicate :
  run Sample.kind (OpMount Sample.sdb1) Sample.added = Ok (tt, Sample.added_twice) /\
  devnodes Sample.added_twice = ["/dev/sdb1"; "/dev/sdb1"].
Proof. split; vm_compute; reflexivity. Qed.

(* A record stored while its device path has one already makes two. *)
Lemma register_scan_second (slots slots' : list (option device_t)) (d : device_t) :
  register_scan slots d = Some slots' ->
  In (dv_devnode d) (map dv_devnode (live_records slots)) ->
  ~ NoDup (map dv_devnode (live_records slots')).
Proof.
  revert slots'.
  induction slots as [|[d0|] rest IH]; cbn [register_scan live_records map];
    intros slots' Hreg Hin Hnodup.
  - discriminate.
  - destruct (register_scan rest d) as [rest'|] eqn:Hrest; [|discriminate].
    injection Hreg as <-. cbn [live_records map] in Hnodup.
    inversion Hnodup as [|n ln Hn1 Hn2]. subst.
    destruct Hin as [Hd | Hin].
    + apply Hn1. rewrite Hd. apply in_map.
      now destruct (register_scan_some _ _ _ Hrest) as (_ & _ & H).
    + exact (IH rest' eq_refl Hin Hn2).
  - injection Hreg as <-. cbn [live_records map] in Hnodup.
    inversion Hnodup as [|n ln Hn1 Hn2]. subst. exact (Hn1 Hin).
Qed.

(* A mount that succeeds has stored a record of the device path. *)
Lemma device_mount_stored (w : world) (dev : udev_device) (st st' : daemon) :
  device_mount w dev st = Ok (true, st') ->
  exists d, register_scan (g_devices st) d = Some (g_devices st') /\
            dv_devnode d = ud_devnode dev.
Proof.
  intros Hm. pose proof (device_new_cases w dev st) as Hc.
  destruct (device_new w dev st) as [[[d|] st1]|] eqn:Hnew.
  - destruct Hc as (Hreg & _ & _ & Hd & _).
    rewrite (device_mount_created w dev st st1 d Hnew) in Hm.
    destruct (mount_attempt_fails w d st1).
    + destruct (device_unmount w dev (cleanup_state w d st1)) as [[b st2]|];
        discriminate.
    + cbv zeta in Hm. injection Hm as <-. exists d. split; [|exact Hd].
      destruct (needs_chown d); exact Hreg.
  - rewrite (device_mount_not_created w dev st st1 Hnew) in Hm. discriminate.
  - rewrite (device_mount_fault w dev st Hnew) in Hm. discriminate.
Qed.

(* The conditions on mount and change cannot be dropped: a mount that
   succeeds for a device path with a record leaves two, and so does a
   change that succeeds while the live table does not show the device. *)
Lemma device_mount_stores_second (w : world) (dev : udev_device)
      (st st' : daemon) :
  In (ud_devnode dev) (devnodes st) ->
  device_mount w dev st = Ok (true, st') ->
  ~ unique_devnodes st'.
Proof.
  intros Hin Hm. destruct (device_mount_stored w dev st st' Hm) as (d & Hreg & Hd).
  unfold unique_devnodes, devnodes. eapply register_scan_second; [exact Hreg|].
  rewrite Hd. exact Hin.
Qed.

Lemma device_change_stores_second (w : world) (dev : udev_device)
      (st st' : daemon) :
  In (ud_devnode dev) (devnodes st) ->
  fstab_search (g_mtab st) dev = Ok None ->
  device_change w dev st = Ok (true, st') ->
  ~ unique_devnodes st'.
Proof.
  intros Hin Hm Hrun. rewrite (device_change_skips w dev st Hm) in Hrun.
  exact (device_mount_stores_second w dev st st' Hin Hrun).
Qed.

(** ** The size of the array *)

Lemma same_length_refl (s : list (option device_t)) : same_length s s.
Proof. reflexivity. Qed.

Lemma same_length_register_any (p : string) (s s' : list (option device_t))
      (r : device_t) :
  dv_devnode r = p -> register_scan s r = Some s' -> same_length s s'.
Proof. intros _. apply same_length_register. Qed.

Lemma ret_size {A} (a : A) : keeps (on_devices same_length) (ret a).
Proof. exact (keeps_ret same_length same_length_refl a). Qed.

Lemma seq_size {A B} (m : M A) (k : A -> M B) :
  keeps (on_devices same_length) m ->
  (forall a, keeps (on_devices same_length) (k a)) ->
  keeps (on_devices same_length) (bind m k).
Proof. exact (keeps_seq same_length same_length_trans m k). Qed.

Lemma device_unmount_size (w : world) (dev : udev_device) :
  keeps (on_devices same_length) (device_unmount w dev).
Proof.
  exact (keeps_device_unmount same_length w same_length_refl same_length_trans
                              same_length_destroy dev).
Qed.

Lemma device_mount_size (w : world) (dev : udev_device) :
  keeps (on_devices same_length) (device_mount w dev).
Proof.
  exact (keeps_device_mount same_length same_length (ud_devnode dev) w
           same_length_refl same_length_trans same_length_destroy
           (fun _ _ H => H) same_length_trans same_length_trans
           (same_length_register_any (ud_devnode dev)) dev eq_refl).
Qed.

Lemma device_change_size (w : world) (dev : udev_device) :
  keeps (on_devices same_length) (device_change w dev).
Proof.
  exact (keeps_device_change same_length same_length (ud_devnode dev) w
           same_length_refl same_length_trans same_length_destroy
           (fun _ _ H => H) same_length_trans same_length_trans
           (same_length_register_any (ud_devnode dev)) dev eq_refl).
Qed.

Lemma mount_plugged_devices_size (w : world) (devices : list udev_device) :
  keeps (on_devices same_length) (mount_plugged_devices w devices).
Proof.
  induction devices as [|dev rest IH]; cbn [mount_plugged_devices].
  - apply ret_size.
  - apply seq_size.
    { exact (keeps_device_is_mounted same_length same_length_refl dev). }
    intros [|]; (apply seq_size; [|intros ?; exact IH]).
    + apply ret_size.
    + apply seq_size; [apply device_mount_size | intros ?; apply ret_size].
Qed.

Lemma main_loop_body_size (w : world) (i : input) :
  keeps (on_devices same_length) (main_loop_body w i).
Proof.
  destruct i as [action dev|[tab|]|[tab|]|msg]; cbn [main_loop_body];
    try apply ret_size.
  - apply seq_size; [|intros ?; apply ret_size].
    repeat match goal with
           | |- keeps _ (if ?b then _ else _) => destruct b
           end; try apply ret_size;
      (apply seq_size; [|intros ?; apply ret_size]).
    + apply device_mount_size.
    + apply device_unmount_size.
    + apply device_change_size.
  - apply seq_size; [|intros ?; apply ret_size].
    intros st a st' H. injection H as _ <-. reflexivity.
  - apply seq_size; [|intros ?; apply seq_size; [|intros ?; apply ret_size]].
    + intros st a st' H. injection H as _ <-. reflexivity.
    + exact (keeps_check_loop same_length w same_length_refl same_length_trans
                              same_length_destroy _ _).
  - apply seq_size; [|intros ?; apply ret_size].
    exact (keeps_handle_ipc_event same_length w same_length_refl
             same_length_trans same_length_destroy msg).
Qed.

(* Every state the daemon reaches has an array of MAX_DEVICES slots. *)
Lemma reachable_sized (w : world) (st : daemon) :
  reachable w st -> registry_sized st.
Proof.
  unfold registry_sized.
  induction 1 as [uid gid fstab mtab | devs st st' _ IH H | fstab mtab st _ IH
                 | i st r st' _ IH H].
  - apply repeat_length.
  - apply mount_plugged_devices_size in H. unfold on_devices, same_length in H.
    congruence.
  - exact IH.
  - apply main_loop_body_size in H. unfold on_devices, same_length in H.
    congruence.
Qed.

(** * Further properties *)

(** ** The resolver: what it returns and when it overruns its buffer *)

(* A lookup returns an entry of the table. *)
Lemma mnt_table_find_source_in (tab : libmnt_table) (path : string)
      (e : libmnt_fs) :
  mnt_table_find_source tab path = Some e -> In e tab.
Proof.
  unfold mnt_table_find_source. intros H. now apply find_some in H.
Qed.

(* The walk over the symbolic links returns what the lookup of one of them
   returned. *)
Lemma search_devlinks_some (tab : libmnt_table) (links : list string)
      (e : libmnt_fs) :
  search_devlinks tab links = Some e ->
  exists l, In l links /\ mnt_table_find_source tab l = Some e.
Proof.
  induction links as [|l rest IH]; cbn [search_devlinks]; [discriminate|].
  destruct (mnt_table_find_source tab l) as [e'|] eqn:Hl.
  - intros [= ->]. exists l. split; [now left | exact Hl].
  - intros H. destruct (IH H) as (l' & Hin & Hl').
    exists l'. split; [now right | exact Hl'].
Qed.

(** X1: an entry fstab_search returns belongs to the table and is what the
    table lookup returned for one of these keys: the device node (never for
    a device-mapper node), one of the symbolic links (only for a
    device-mapper node), UUID=<uuid>, or LABEL=<label> (only with a UUID
    known as well).  fstab_search returns nothing of its own: whatever way
    the library matches a key, the entry is one it matched. *)
Theorem fstab_search_sound (tab : libmnt_table) (dev : udev_device)
        (e : libmnt_fs) :
  fstab_search tab dev = Ok (Some e) ->
  In e tab /\
  exists key, lookup_key dev key /\ mnt_table_find_source tab key = Some e.
Proof.
  intros H.
  assert (Hkey : exists key, lookup_key dev key /\
                             mnt_table_find_source tab key = Some e).
  { revert H. unfold fstab_search, search_devnode, keyword, lookup_key.
    destruct (is_dm_node (ud_devnode dev)) eqn:Hdm; cbn [negb].
    - destruct (search_devlinks tab (ud_devlinks dev)) as [e'|] eqn:Hl.
      { intros [= ->]. apply search_devlinks_some in Hl.
        destruct Hl as (l & Hin & Hl). exists l. auto. }
      destruct (udev_device_get_property_value dev "ID_FS_UUID") as [u|];
        [|discriminate].
      destruct (_ <=? KEYWORD_SIZE); [|discriminate]. cbn [obind].
      destruct (mnt_table_find_source tab ("UUID=" +++ u)) as [e'|] eqn:Hu.
      { intros [= ->]. exists ("UUID=" +++ u). split; [|exact Hu].
        right; right; left. eauto. }
      destruct (udev_device_get_property_value dev "ID_FS_LABEL") as [l|];
        [|discriminate].
      destruct (_ <=? KEYWORD_SIZE); [|discriminate]. cbn [obind].
      intros [= Hl']. exists ("LABEL=" +++ l). split; [|exact Hl'].
      right; right; right. eauto.
    - destruct (mnt_table_find_source tab (ud_devnode dev)) as [e'|] eqn:Hn.
      { intros [= ->]. exists (ud_devnode dev). auto. }
      destruct (udev_device_get_property_value dev "ID_FS_UUID") as [u|];
        [|discriminate].
      destruct (_ <=? KEYWORD_SIZE); [|discriminate]. cbn [obind].
      destruct (mnt_table_find_source tab ("UUID=" +++ u)) as [e'|] eqn:Hu.
      { intros [= ->]. exists ("UUID=" +++ u). split; [|exact Hu].
        right; right; left. eauto. }
      destruct (udev_device_get_property_value dev "ID_FS_LABEL") as [l|];
        [|discriminate].
      destruct (_ <=? KEYWORD_SIZE); [|discriminate]. cbn [obind].
      intros [= Hl']. exists ("LABEL=" +++ l). split; [|exact Hl'].
      right; right; right. eauto. }
  split; [|exact Hkey].
  destruct Hkey as (key & _ & Hfind).
  exact (mnt_table_find_source_in tab key e Hfind).
Qed.

Lemma fstab_search_sound_witness :
  In Sample.uuid_entry [Sample.data_entry; Sample.uuid_entry] /\
  exists key,
    lookup_key Sample.both key /\
    mnt_table_find_source [Sample.data_entry; Sample.uuid_entry] key
      = Some Sample.uuid_entry.
Proof.
  exact (fstab_search_sound [Sample.data_entry; Sample.uuid_entry] Sample.both
                            Sample.uuid_entry eq_refl).
Defined.

(** X2: fstab_search writes past keyword[128] exactly when the first step
    finds no entry (the lookup of the device node, or for a device-mapper
    node the lookups of its symbolic links) and either the UUID is longer
    than 122 characters, or no entry matches UUID=<uuid> and the label is
    longer than 121 characters.  A device for which the first step finds an
    entry never overruns it. *)
Theorem fstab_search_overflow (tab : libmnt_table) (dev : udev_device) :
  fstab_search tab dev = Fault <->
  search_devnode tab dev = None /\
  exists u,
    udev_device_get_property_value dev "ID_FS_UUID" = Some u /\
    (122 < String.length u \/
     (mnt_table_find_source tab ("UUID=" +++ u) = None /\
      exists l, udev_device_get_property_value dev "ID_FS_LABEL" = Some l /\
                121 < String.length l)).
Proof.
  unfold fstab_search, keyword, KEYWORD_SIZE.
  destruct (search_devnode tab dev) as [e|].
  { split; [discriminate | intros [H _]; discriminate]. }
  destruct (udev_device_get_property_value dev "ID_FS_UUID") as [u|].
  2: { split; [discriminate | intros [_ [u [H _]]]; discriminate]. }
  cbn [String.length].
  destruct (Nat.leb_spec (5 + String.length u + 1) 128) as [Hu|Hu]; cbn [obind].
  2: { split; [|reflexivity]. intros _. split; [reflexivity|].
       exists u. split; [reflexivity|]. left. lia. }
  destruct (mnt_table_find_source tab ("UUID=" +++ u)) as [e|] eqn:He.
  { split; [discriminate|]. intros [_ [u' [[= <-] [H | [H _]]]]];
      [lia | congruence]. }
  destruct (udev_device_get_property_value dev "ID_FS_LABEL") as [l|].
  2: { split; [discriminate|].
       intros [_ [u' [[= <-] [H | [_ [l [H _]]]]]]]; [lia | discriminate]. }
  destruct (Nat.leb_spec (6 + String.length l + 1) 128) as [Hl|Hl]; cbn [obind].
  - split; [discriminate|].
    intros [_ [u' [[= <-] [H | [_ [l' [[= <-] H]]]]]]]; lia.
  - split; [|reflexivity]. intros _. split; [reflexivity|].
    exists u. split; [reflexivity|]. right. split; [exact He|].
    exists l. split; [reflexivity | lia].
Qed.

(** ** The registry: lookup and the round trip of a registration *)

(** X3: device_search returns the record of the first slot whose device
    node or mountpoint equals the path, and nothing exactly when no record
    of the array has that device node or mountpoint. *)
Theorem device_search_first_match (path : string) (st : daemon) :
  match device_search (Some path) st with
  | Some d =>
      exists before after,
        g_devices st = before ++ Some d :: after /\
        device_matches path d = true /\
        forall d', In d' (live_records before) -> device_matches path d' = false
  | None =>
      forall d, In d (live_records (g_devices st)) -> device_matches path d = false
  end.
Proof.
  cbn [device_search]. generalize (g_devices st) as slots.
  induction slots as [|[d|] rest IH]; cbn [search_scan live_records].
  - intros d [].
  - destruct (device_matches path d) eqn:Hd.
    + exists [], rest. repeat split; [exact Hd | intros d' []].
    + destruct (search_scan rest path) as [d0|].
      * destruct IH as (before & after & -> & Hm & Hbefore).
        exists (Some d :: before), after. repeat split; [exact Hm|].
        intros d' [<- | Hin]; [exact Hd | now apply Hbefore].
      * intros d' [<- | Hin]; [exact Hd | now apply IH].
  - destruct (search_scan rest path) as [d0|].
    + destruct IH as (before & after & -> & Hm & Hbefore).
      exists (None :: before), after. repeat split; [exact Hm | exact Hbefore].
    + exact IH.
Qed.

(** X4: registering a record under an address no record of the array has,
    and destroying it again, gives back the globals as they were: this is
    the round trip device_new makes when it gives up after a registration
    that failed, or on a record it never registered. *)
Theorem register_destroy_round_trip (r : device_t) (st st1 : daemon) :
  dv_addr r = calloc_device st ->
  device_register r st = Ok (true, st1) ->
  device_destroy (dv_addr r) st1 = Ok (tt, st).
Proof.
  intros Haddr Hreg. unfold device_register in Hreg.
  destruct (register_scan (g_devices st) r) as [slots|] eqn:Hscan;
    [|discriminate].
  injection Hreg as <-. unfold device_destroy, modify.
  cbn [g_devices set_devices].
  rewrite (destroy_scan_registered _ _ _ Hscan).
  - now destruct st.
  - intros d Hin. apply calloc_device_fresh in Hin. lia.
Qed.

Lemma register_destroy_round_trip_witness :
  device_destroy 2 (set_devices (Some (Sample.sdb1_record 1)
                                   :: Some (Sample.sdb1_record 2)
                                   :: repeat None 18) Sample.one)
    = Ok (tt, Sample.one).
Proof.
  exact (register_destroy_round_trip (Sample.sdb1_record 2) Sample.one _
                                     eq_refl eq_refl).
Defined.

(* With entries for both the UUID and the label, the UUID entry wins. *)
Example fstab_search_uuid_first :
  fstab_search [Sample.data_entry; Sample.uuid_entry] Sample.both
  = Ok (Some Sample.uuid_entry).
Proof. reflexivity. Qed.

(** ** Quirks and mount options *)

Lemma prefix_append (s t : string) : String.prefix s (s +++ t) = true.
Proof.
  induction s as [|c s IH]; cbn; [now destruct t|].
  destruct (ascii_dec c c); [exact IH | contradiction].
Qed.

Lemma mount_options_owner (quirks uid gid : Z) :
  quirk_set quirks QUIRK_OWNER_FIX = true ->
  exists rest, mount_options quirks uid gid = "uid=" +++ rest.
Proof.
  intros Hq. unfold mount_options. rewrite Hq.
  destruct (Z.eqb_spec quirks QUIRK_NONE) as [->|_]; [discriminate|].
  cbn [String.append]. eexists. reflexivity.
Qed.

(** X5: every filesystem of the quirk table has the owner fix, so its option
    string starts with the uid and gid; a filesystem outside the table has
    no quirk and an empty option string.  The chown after mounting is thus
    done exactly for the filesystems mounted without options. *)
Theorem filesystem_quirks_owner_fix (fs : string) (uid gid : Z) :
  (In fs (map fst fs_table) ->
   quirk_set (filesystem_quirks fs) QUIRK_OWNER_FIX = true /\
   String.prefix "uid=" (mount_options (filesystem_quirks fs) uid gid) = true) /\
  (~ In fs (map fst fs_table) ->
   filesystem_quirks fs = QUIRK_NONE /\
   quirk_set (filesystem_quirks fs) QUIRK_OWNER_FIX = false /\
   mount_options (filesystem_quirks fs) uid gid = "").
Proof.
  unfold filesystem_quirks, fs_table. cbn [quirks_scan map fst In].
  repeat match goal with
         | |- context [String.eqb ?a fs] =>
             destruct (String.eqb_spec a fs) as [?|?]
         end.
  all: split; [intros Hin | intros Hout].
  all: try (exfalso; apply Hout; tauto).
  all: try (exfalso; intuition congruence).
  all: try (split;
            [ reflexivity
            | match goal with
              | |- String.prefix _ (mount_options ?q _ _) = true =>
                  destruct (mount_options_owner q uid gid eq_refl) as [rest ->];
                  apply prefix_append
              end ]).
  split; [reflexivity|]. split; reflexivity.
Qed.

(** ** The mountpoint namer: the name it returns and its buffer *)

Lemma PATH_MAX_large : 8 <= PATH_MAX.
Proof. apply Nat.leb_le. vm_compute. reflexivity. Qed.

Lemma mountpoint_retry_some (stat : string -> bool) (n : nat) :
  forall tmp p,
    PATH_MAX - String.length tmp <= n ->
    mountpoint_retry stat tmp = Ok (Some p) ->
    stat p = false /\
    exists k, p = tmp +++ underscores k /\
              (k = 0 \/ String.length p <= PATH_MAX - 2).
Proof.
  induction n as [|n IH]; intros tmp p Hn; rewrite mountpoint_retry_turn;
    destruct (stat tmp) eqn:Hstat;
    try (intros [= <-]; split; [exact Hstat|]; exists 0;
         rewrite append_empty; auto).
  - destruct (Nat.eqb_spec (String.length tmp) (PATH_MAX - 2)); [discriminate|].
    destruct (Nat.leb_spec (PATH_MAX - 1) (String.length tmp)); [discriminate|].
    lia.
  - destruct (Nat.eqb_spec (String.length tmp) (PATH_MAX - 2)); [discriminate|].
    destruct (Nat.leb_spec (PATH_MAX - 1) (String.length tmp)); [discriminate|].
    intros Hr. apply IH in Hr.
    + destruct Hr as (Hfree & k & -> & Hk). split; [exact Hfree|].
      exists (S k). rewrite append_assoc. split; [reflexivity|]. right.
      destruct Hk as [-> | Hk]; [|now rewrite append_assoc in Hk].
      rewrite !length_append, length_underscores. cbn [String.length]. lia.
    + rewrite length_append. cbn [String.length]. lia.
Qed.

Lemma contains_append (c : ascii) (s t : string) :
  contains c (s +++ t) = contains c s || contains c t.
Proof.
  induction s as [|x s IH]; cbn; [reflexivity|]. rewrite IH. apply orb_assoc.
Qed.

Lemma contains_replace_whitespaces (s : string) :
  contains " " (replace_whitespaces s) = false.
Proof.
  induction s as [|x s IH]; cbn [replace_whitespaces contains]; [reflexivity|].
  rewrite IH, orb_false_r.
  destruct (Ascii.eqb_spec x " ") as [->|Hx]; [reflexivity|].
  now apply Ascii.eqb_neq.
Qed.

Lemma contains_underscores (k : nat) : contains " " (underscores k) = false.
Proof. induction k as [|k IH]; cbn; [reflexivity | exact IH]. Qed.

Lemma candidate_under_mount_path (n : string) :
  exists rest, candidate n = MOUNT_PATH +++ rest.
Proof.
  unfold candidate, snprintf2, MOUNT_PATH.
  pose proof PATH_MAX_large as Hlarge.
  destruct (PATH_MAX - 1) as [|[|[|[|[|m]]]]] eqn:Hm; try lia.
  cbn [String.append substring replace_whitespaces].
  eexists. reflexivity.
Qed.

(** X6: a name the namer returns does not exist, lies under the base
    directory, holds no space and fits a path buffer. *)
Theorem device_create_mountpoint_free (stat : string -> bool) (dev : udev_device)
        (p : string) :
  device_create_mountpoint stat dev = Ok (Some p) ->
  stat p = false /\
  String.prefix MOUNT_PATH p = true /\
  contains " " p = false /\
  String.length p <= PATH_MAX - 1.
Proof.
  rewrite device_create_mountpoint_name.
  destruct (first_name dev) as [n|]; [|discriminate].
  intros H. apply (mountpoint_retry_some stat PATH_MAX) in H; [|lia].
  destruct H as (Hfree & k & -> & Hk). split; [exact Hfree|].
  split; [|split].
  - destruct (candidate_under_mount_path n) as [rest ->].
    rewrite append_assoc. apply prefix_append.
  - unfold candidate.
    now rewrite contains_append, contains_replace_whitespaces,
      contains_underscores.
  - destruct Hk as [-> | Hk]; [|lia].
    rewrite append_empty. apply length_candidate.
Qed.

Lemma device_create_mountpoint_free_witness :
  Sample.taken_twice "/mnt/My_Disk__" = false /\
  String.prefix MOUNT_PATH "/mnt/My_Disk__" = true /\
  contains " " "/mnt/My_Disk__" = false /\
  String.length "/mnt/My_Disk__" <= PATH_MAX - 1.
Proof.
  exact (device_create_mountpoint_free Sample.taken_twice Sample.sdb1
                                       "/mnt/My_Disk__" eq_refl).
Defined.

Lemma mountpoint_retry_fault (stat : string -> bool) (n : nat) :
  forall tmp,
    PATH_MAX - String.length tmp <= n ->
    (mountpoint_retry stat tmp = Fault <->
     PATH_MAX - 1 <= String.length tmp /\ stat tmp = true).
Proof.
  pose proof PATH_MAX_large as Hlarge.
  induction n as [|n IH]; intros tmp Hn; rewrite mountpoint_retry_turn;
    destruct (stat tmp) eqn:Hstat;
    try (split; [discriminate | intros [_ H]; discriminate]);
    (destruct (Nat.eqb_spec (String.length tmp) (PATH_MAX - 2));
     [split; [discriminate | lia]|]);
    (destruct (Nat.leb_spec (PATH_MAX - 1) (String.length tmp));
     [split; [auto | reflexivity]|]).
  - exfalso. lia.
  - rewrite IH by (rewrite length_append; cbn [String.length]; lia).
    rewrite length_append. cbn [String.length]. split; [lia | lia].
Qed.

Lemma length_substring_min (s : string) (n : nat) :
  String.length (substring 0 n s) = Nat.min n (String.length s).
Proof.
  revert n. induction s as [|c s IH]; intros [|n]; cbn; try reflexivity.
  now rewrite IH.
Qed.

(** X7: the namer writes past tmp[PATH_MAX] exactly when the base directory
    and the name fill the buffer (a name of PATH_MAX - 6 characters or more)
    and the cut path exists.  With a shorter name it always returns. *)
Theorem device_create_mountpoint_overflow (stat : string -> bool)
        (dev : udev_device) :
  device_create_mountpoint stat dev = Fault <->
  exists n, first_name dev = Some n /\
            PATH_MAX - 6 <= String.length n /\
            stat (candidate n) = true.
Proof.
  pose proof PATH_MAX_large as Hlarge.
  rewrite device_create_mountpoint_name.
  destruct (first_name dev) as [n|].
  2: { split; [discriminate | intros [n [H _]]; discriminate]. }
  rewrite (mountpoint_retry_fault stat PATH_MAX) by lia.
  assert (Hlen : String.length (candidate n)
                 = Nat.min (PATH_MAX - 1) (5 + String.length n)).
  { unfold candidate, snprintf2.
    rewrite length_replace_whitespaces, length_substring_min, length_append.
    reflexivity. }
  rewrite Hlen. split.
  - intros [Hl Hs]. exists n. split; [reflexivity|]. split; [lia | exact Hs].
  - intros [n' [[= <-] [Hl Hs]]]. split; [lia | exact Hs].
Qed.

(** ** The command pipe: other commands and the trailing slash *)

(** X8: a message that does not start with 'R', the empty message included,
    changes nothing. *)
Theorem handle_ipc_event_other_command (w : world) (msg : string) (st : daemon) :
  (forall path, msg <> String "R" path) ->
  handle_ipc_event w msg st = Ok (tt, st).
Proof.
  intros Hother. destruct msg as [|c path]; [reflexivity|].
  destruct (Ascii.eqb_spec c "R") as [->|Hc].
  - now destruct (Hother path).
  - unfold handle_ipc_event.
    destruct c as [[] [] [] [] [] [] [] []]; try reflexivity. congruence.
Qed.

Lemma handle_ipc_event_other_command_witness :
  handle_ipc_event Sample.kind "U/mnt/My_Disk" Sample.one_mounted
    = Ok (tt, Sample.one_mounted).
Proof.
  apply handle_ipc_event_other_command. intros path H. discriminate.
Defined.

Lemma remove_key_slash (p : string) : remove_key (p +++ "/") = p.
Proof.
  induction p as [|c p IH]; [reflexivity|].
  cbn [String.append remove_key]. rewrite IH.
  destruct (p +++ "/") eqn:Hp; [|reflexivity].
  destruct p; discriminate.
Qed.

Lemma remove_key_other (p : string) (c : ascii) :
  c <> "/"%char -> remove_key (p +++ String c "") = p +++ String c "".
Proof.
  intros Hc. induction p as [|x p IH].
  - cbn. now rewrite (proj2 (Ascii.eqb_neq _ _) Hc).
  - cbn [String.append remove_key]. rewrite IH.
    destruct (p +++ String c "") eqn:Hp; [|reflexivity].
    destruct p; discriminate.
Qed.

(** X9: the remove command strips exactly one trailing '/': the key of
    "R<path>/" is <path>, also when <path> itself ends with '/', and a path
    that ends with another character is its own key. *)
Theorem remove_command_strips_one_slash (p : string) (c : ascii) :
  skip_command (strip_trailing_slash (String "R" (p +++ "/"))) = p /\
  (c <> "/"%char ->
   skip_command (strip_trailing_slash (String "R" (p +++ String c "")))
     = p +++ String c "").
Proof.
  rewrite !remove_command_key. split.
  - apply remove_key_slash.
  - apply remove_key_other.
Qed.

(** ** Creation: where the record's fields come from *)

(* What a record returned by device_new was built from *)
Lemma device_new_record (w : world) (dev : udev_device) (st : daemon) :
  match device_new w dev st with
  | Ok (Some d, _) =>
      fstab_has_option (g_fstab st) dev "+noauto" = Ok false /\
      classify (ud_devtype dev) (udev_device_get_property_value dev "ID_TYPE")
        = Ok (dv_type d) /\
      device_has_media (dv_type d) dev = true /\
      exists entry,
        fstab_search (g_fstab st) dev = Ok entry /\
        match entry with
        | Some e => Ok (mnt_fs_get_target e)
        | None => device_create_mountpoint (os_stat w (g_trace st)) dev
        end = Ok (Some (dv_mountpoint d))
  | _ => True
  end.
Proof.
  unfold device_new, device_register. run_monad.
  repeat first
    [ progress cbn beta iota
    | rewrite device_destroy_unregistered by reflexivity
    | break_match ];
    try exact I.
  all: cbn [dv_type dv_mountpoint]; subst;
    (split; [reflexivity|]); (split; [reflexivity|]);
    (split; [now apply negb_false_iff|]);
    eexists; (split; [reflexivity|]); cbn beta iota;
    first [assumption | congruence].
Qed.

(** X10: the mountpoint of a new record is the target of the fstab entry the
    device resolves to, taken as it is (and that entry has no noauto
    option); the namer is asked only when the device resolves to no
    entry. *)
Theorem device_new_mountpoint (w : world) (dev : udev_device)
        (st st1 : daemon) (d : device_t) :
  device_new w dev st = Ok (Some d, st1) ->
  match fstab_search (g_fstab st) dev with
  | Ok (Some e) =>
      mnt_fs_get_target e = Some (dv_mountpoint d) /\
      mnt_fs_match_options e "+noauto" = false
  | Ok None =>
      device_create_mountpoint (os_stat w (g_trace st)) dev
        = Ok (Some (dv_mountpoint d))
  | Fault => False
  end.
Proof.
  intros Hnew. pose proof (device_new_record w dev st) as Hr. rewrite Hnew in Hr.
  destruct Hr as (Hnoauto & _ & _ & entry & Hentry & Hmp).
  unfold fstab_has_option in Hnoauto. rewrite Hentry in *. cbn [obind] in Hnoauto.
  destruct entry as [e|].
  - split; congruence.
  - exact Hmp.
Qed.

Lemma device_new_mountpoint_witness :
  mnt_fs_get_target (mk_fs "/dev/sdb1" (Some "/home") ["defaults"])
    = Some (dv_mountpoint
              (mk_device 1 DEVICE_VOLUME "ext4" "/dev/sdb1" "/home" Sample.sdb1)) /\
  mnt_fs_match_options (mk_fs "/dev/sdb1" (Some "/home") ["defaults"]) "+noauto"
    = false.
Proof.
  exact (device_new_mountpoint Sample.kind Sample.sdb1 Sample.claimed _
           (mk_device 1 DEVICE_VOLUME "ext4" "/dev/sdb1" "/home" Sample.sdb1)
           eq_refl).
Defined.

Lemma classify_kind (dev_type dev_idtype : option string) (type : device_type) :
  classify dev_type dev_idtype = Ok type ->
  (type = DEVICE_CD <-> dev_idtype = Some "cd") /\
  (type = DEVICE_VOLUME ->
   dev_type = Some "partition" \/ dev_type = Some "disk" \/
   dev_idtype = Some "floppy").
Proof.
  unfold classify. destruct dev_type as [t|]; [|discriminate].
  destruct (String.eqb_spec t "partition") as [->|Hp]; cbn [orb obind].
  - destruct dev_idtype as [i|].
    + destruct (String.eqb_spec i "cd") as [->|Hi]; intros [= <-];
        (split; [split; congruence | auto]).
    + intros [= <-]. split; [split; discriminate | auto].
  - destruct (String.eqb_spec t "disk") as [->|Hd]; cbn [obind].
    + destruct dev_idtype as [i|].
      * destruct (String.eqb_spec i "cd") as [->|Hi]; intros [= <-];
          (split; [split; congruence | auto]).
      * intros [= <-]. split; [split; discriminate | auto].
    + destruct dev_idtype as [i|]; [|discriminate]. cbn [obind].
      destruct (String.eqb_spec i "cd") as [->|Hi].
      * intros [= <-]. split; [split; congruence | discriminate].
      * destruct (String.eqb_spec i "floppy") as [->|Hf]; intros [= <-];
          (split; [split; congruence | auto; discriminate]).
Qed.

(** X11: the record device_new returns is an optical disc exactly when
    ID_TYPE is "cd", whatever the device type says, and then the device has
    the ID_CDROM_MEDIA property; otherwise it is a volume of type partition
    or disk, or a floppy, that has the ID_FS_USAGE property. *)
Theorem device_new_kind (w : world) (dev : udev_device)
        (st st1 : daemon) (d : device_t) :
  device_new w dev st = Ok (Some d, st1) ->
  (dv_type d = DEVICE_CD <->
   udev_device_get_property_value dev "ID_TYPE" = Some "cd") /\
  (dv_type d = DEVICE_CD ->
   udev_device_get_property_value dev "ID_CDROM_MEDIA" <> None) /\
  (dv_type d <> DEVICE_CD ->
   dv_type d = DEVICE_VOLUME /\
   udev_device_get_property_value dev "ID_FS_USAGE" <> None /\
   (ud_devtype dev = Some "partition" \/ ud_devtype dev = Some "disk" \/
    udev_device_get_property_value dev "ID_TYPE" = Some "floppy")).
Proof.
  intros Hnew. pose proof (device_new_record w dev st) as Hr. rewrite Hnew in Hr.
  destruct Hr as (_ & Hclass & Hmedia & _).
  destruct (classify_kind _ _ _ Hclass) as [Hcd Hvol].
  split; [exact Hcd|]. unfold device_has_media in Hmedia.
  destruct (dv_type d); [| |discriminate]; split.
  - discriminate.
  - intros _. split; [reflexivity|]. split; [|now apply Hvol].
    intros E. rewrite E in Hmedia. discriminate.
  - intros _ E. rewrite E in Hmedia. discriminate.
  - intros H. now destruct H.
Qed.

Lemma device_new_kind_witness :
  (dv_type (Sample.sdb1_record 1) = DEVICE_CD <->
   udev_device_get_property_value Sample.sdb1 "ID_TYPE" = Some "cd") /\
  (dv_type (Sample.sdb1_record 1) = DEVICE_CD ->
   udev_device_get_property_value Sample.sdb1 "ID_CDROM_MEDIA" <> None) /\
  (dv_type (Sample.sdb1_record 1) <> DEVICE_CD ->
   dv_type (Sample.sdb1_record 1) = DEVICE_VOLUME /\
   udev_device_get_property_value Sample.sdb1 "ID_FS_USAGE" <> None /\
   (ud_devtype Sample.sdb1 = Some "partition" \/
    ud_devtype Sample.sdb1 = Some "disk" \/
    udev_device_get_property_value Sample.sdb1 "ID_TYPE" = Some "floppy")).
Proof.
  exact (device_new_kind Sample.kind Sample.sdb1 Sample.empty _
                         (Sample.sdb1_record 1) eq_refl).
Defined.

(** ** Mounting and changing *)

(** X12: device_mount reports success only when device_new returned a
    record and neither the mount nor the chown failed.  The record is then
    in the array, and the calls made after creation are, in this order:
    mkdir of the mountpoint, the mount of the device node on it (read-only
    exactly for an optical disc), the chown for a filesystem without owner
    fix, and the helper with action "mount". *)
Theorem device_mount_success (w : world) (dev : udev_device) (st st' : daemon) :
  device_mount w dev st = Ok (true, st') ->
  exists d st1,
    device_new w dev st = Ok (Some d, st1) /\
    mount_attempt_fails w d st1 = false /\
    g_devices st' = g_devices st1 /\
    In d (live_records (g_devices st')) /\
    g_trace st' =
      EvSpawn CALLBACK_PATH "mount" (dv_mountpoint d)
        :: (if needs_chown d
            then [EvChown (dv_mountpoint d) (g_uid st) (g_gid st)]
            else [])
        ++ EvMount (dv_filesystem d) (dv_devnode d) (dv_mountpoint d)
                   (mount_options (filesystem_quirks (dv_filesystem d))
                                  (g_uid st) (g_gid st))
                   (match dv_type d with DEVICE_CD => true | _ => false end)
        :: EvMkdir (dv_mountpoint d) 755
        :: g_trace st1.
Proof.
  intros Hmount.
  destruct (device_new w dev st) as [[[d|] st1]|] eqn:Hnew.
  - rewrite (device_mount_created w dev st st1 d Hnew) in Hmount.
    pose proof (device_new_cases w dev st) as Hc. rewrite Hnew in Hc.
    destruct Hc as (Hreg & Hst1 & _).
    destruct (mount_attempt_fails w d st1) eqn:Hfail.
    { destruct (device_unmount w dev (cleanup_state w d st1)) as [[b s]|];
        discriminate. }
    cbn zeta in Hmount. injection Hmount as <-.
    exists d, st1. split; [reflexivity|]. split; [exact Hfail|].
    assert (Huid : g_uid st1 = g_uid st) by (rewrite Hst1; reflexivity).
    assert (Hgid : g_gid st1 = g_gid st) by (rewrite Hst1; reflexivity).
    destruct (needs_chown d); cbn [g_devices g_trace add_event mount_state app];
      (split; [reflexivity|]);
      (split; [now destruct (register_scan_some _ _ _ Hreg) as (_ & _ & Hin)|]);
      unfold mount_request; now rewrite Huid, Hgid.
  - rewrite (device_mount_not_created w dev st st1 Hnew) in Hmount. discriminate.
  - rewrite (device_mount_fault w dev st Hnew) in Hmount. discriminate.
Qed.

Lemma device_mount_success_witness :
  exists d st1,
    device_new Sample.kind Sample.sdb1 Sample.empty = Ok (Some d, st1) /\
    mount_attempt_fails Sample.kind d st1 = false /\
    g_devices Sample.added = g_devices st1 /\
    In d (live_records (g_devices Sample.added)) /\
    g_trace Sample.added =
      EvSpawn CALLBACK_PATH "mount" (dv_mountpoint d)
        :: (if needs_chown d
            then [EvChown (dv_mountpoint d) (g_uid Sample.empty) (g_gid Sample.empty)]
            else [])
        ++ EvMount (dv_filesystem d) (dv_devnode d) (dv_mountpoint d)
                   (mount_options (filesystem_quirks (dv_filesystem d))
                                  (g_uid Sample.empty) (g_gid Sample.empty))
                   (match dv_type d with DEVICE_CD => true | _ => false end)
        :: EvMkdir (dv_mountpoint d) 755
        :: g_trace st1.
Proof.
  exact (device_mount_success Sample.kind Sample.sdb1 Sample.empty Sample.added
                              eq_refl).
Defined.

(** X13: device_change is a device_mount when the device has no record or
    the live table does not show it; otherwise the record found is
    unmounted first, and a failure of that unmount ends the change with the
    record still registered and no mount attempted. *)
Theorem device_change_steps (w : world) (dev : udev_device) (st : daemon) :
  device_change w dev st =
    match device_search (Some (ud_devnode dev)) st with
    | None => device_mount w dev st
    | Some d =>
        match fstab_search (g_mtab st) dev with
        | Ok (Some _) =>
            if os_umount w (g_trace st) (dv_devnode d)
            then device_mount w dev (released_state d (umount_state d st))
            else Ok (false, umount_failed_state d st)
        | Ok None => device_mount w dev st
        | Fault => Fault
        end
    end.
Proof.
  unfold device_change.
  destruct (device_search (Some (ud_devnode dev)) st) as [d|] eqn:Hfound.
  - destruct (fstab_search (g_mtab st) dev) as [m|] eqn:Hm.
    + pose proof (device_unmount_found w dev st d m Hfound Hm) as Hu.
      unfold bind at 1. unfold gets at 1. rewrite Hfound.
      unfold bind at 1. unfold bind at 1. unfold device_is_mounted at 1.
      rewrite Hm. cbn [obind]. destruct m as [e|]; cbn [is_some] in *.
      * unfold bind at 1. rewrite Hu.
        destruct (os_umount w (g_trace st) (dv_devnode d)); cbn [negb ret];
          [apply device_mount_result | reflexivity].
      * cbn [ret]. apply device_mount_result.
    + unfold bind at 1. unfold gets at 1. rewrite Hfound.
      unfold bind at 1. unfold bind at 1. unfold device_is_mounted at 1.
      now rewrite Hm.
  - unfold bind at 1. unfold gets at 1. rewrite Hfound.
    unfold bind at 1. cbn [ret]. apply device_mount_result.
Qed.

(** X14: at startup the devices the live table already shows are left
    alone: when it shows every plugged device, mount_plugged_devices
    changes nothing and makes no call. *)
Theorem mount_plugged_devices_mounted (w : world) (devices : list udev_device)
        (st : daemon) :
  (forall dev, In dev devices ->
               exists e, fstab_search (g_mtab st) dev = Ok (Some e)) ->
  mount_plugged_devices w devices st = Ok (tt, st).
Proof.
  induction devices as [|dev rest IH]; intros Hall; [reflexivity|].
  cbn [mount_plugged_devices]. unfold bind at 1. unfold device_is_mounted.
  destruct (Hall dev (or_introl eq_refl)) as [e ->]. cbn [obind is_some].
  unfold bind at 1. cbn [ret]. apply IH. intros d Hd. apply Hall. now right.
Qed.

Lemma mount_plugged_devices_mounted_witness :
  mount_plugged_devices Sample.kind [Sample.sdb1; Sample.swap1] Sample.shown
    = Ok (tt, Sample.shown).
Proof.
  apply mount_plugged_devices_mounted.
  intros dev [<- | [<- | []]]; exists Sample.sdb1_entry; reflexivity.
Defined.

(** ** Releasing records: which slots change *)

Lemma cleared_refl (s : list (option device_t)) : cleared s s.
Proof. induction s as [|a s IH]; constructor; [now right | exact IH]. Qed.

Lemma cleared_trans (s1 s2 s3 : list (option device_t)) :
  cleared s1 s2 -> cleared s2 s3 -> cleared s1 s3.
Proof.
  intros H12. revert s3. induction H12 as [|a b s1 s2 Hab _ IH]; intros s3 H23;
    inversion H23 as [|b' c s2' s3' Hbc Hrest]; subst; constructor.
  - destruct Hbc as [Hc | Hc]; [now left | now rewrite Hc].
  - now apply IH.
Qed.

Lemma cleared_destroy (s : list (option device_t)) (addr : nat) :
  cleared s (destroy_scan s addr).
Proof.
  induction s as [|[d|] rest IH]; cbn [destroy_scan].
  - constructor.
  - destruct (dv_addr d =? addr); constructor;
      [now left | apply cleared_refl | now right | exact IH].
  - constructor; [now left | exact IH].
Qed.

Lemma cleared_clear_slot (j : nat) (s : list (option device_t)) :
  cleared s (clear_slot j s).
Proof.
  revert j. induction s as [|a rest IH]; intros [|j]; cbn [clear_slot];
    constructor; first [now left | now right | apply cleared_refl | apply IH].
Qed.

Lemma cleared_length (s s' : list (option device_t)) :
  cleared s s' -> List.length s' = List.length s.
Proof. intros H. symmetry. exact (Forall2_length H). Qed.

Lemma cleared_nth (s s' : list (option device_t)) (i : nat) :
  cleared s s' -> nth i s' None = None \/ nth i s' None = nth i s None.
Proof.
  intros H. revert i. induction H as [|a b s s' Hab _ IH]; intros [|i]; cbn;
    auto.
Qed.

Lemma cleared_live (s s' : list (option device_t)) (d : device_t) :
  cleared s s' -> In d (live_records s') -> In d (live_records s).
Proof.
  induction 1 as [|a b s s' Hab _ IH]; [auto|].
  destruct Hab as [-> | ->]; cbn [live_records].
  - destruct a; [right|]; auto.
  - destruct a; [intros [<- | Hin]; [now left | right]|]; auto.
Qed.

Lemma cleared_addresses (s s' : list (option device_t)) :
  cleared s s' -> NoDup (addresses s) -> NoDup (addresses s').
Proof.
  unfold addresses.
  induction 1 as [|a b s s' Hab Hrest IH]; [auto|].
  destruct Hab as [-> | ->]; cbn [live_records map].
  - destruct a; [intros H; inversion H|]; auto.
  - destruct a as [d|]; [|auto]. intros H. inversion H as [|x l Hnotin Hnodup].
    subst. constructor; [|auto]. intros Hin. apply Hnotin.
    apply in_map_iff in Hin. destruct Hin as (d' & Heq & Hd').
    apply in_map_iff. exists d'. split; [exact Heq|].
    eapply cleared_live; eassumption.
Qed.

Lemma search_scan_split (slots : list (option device_t)) (path : string)
      (d : device_t) :
  search_scan slots path = Some d ->
  exists before after,
    slots = before ++ Some d :: after /\
    device_matches path d = true /\
    forall d', In d' (live_records before) -> device_matches path d' = false.
Proof.
  induction slots as [|[x|] rest IH]; cbn [search_scan]; [discriminate| |].
  - destruct (device_matches path x) eqn:Hx.
    + intros [= ->]. exists [], rest. repeat split; [exact Hx | intros d' []].
    + intros H. destruct (IH H) as (before & after & -> & Hm & Hbefore).
      exists (Some x :: before), after. repeat split; [exact Hm|].
      intros d' [<- | Hin]; [exact Hx | now apply Hbefore].
  - intros H. destruct (IH H) as (before & after & -> & Hm & Hbefore).
    exists (None :: before), after. repeat split; [exact Hm | exact Hbefore].
Qed.

Lemma live_records_app (s t : list (option device_t)) :
  live_records (s ++ t) = live_records s ++ live_records t.
Proof.
  induction s as [|[d|] s IH]; cbn [app live_records]; [reflexivity| |exact IH].
  now rewrite IH.
Qed.

(* With distinct addresses, destroying a record clears its own slot. *)
Lemma destroy_scan_middle (before after : list (option device_t)) (d : device_t) :
  NoDup (addresses (before ++ Some d :: after)) ->
  destroy_scan (before ++ Some d :: after) (dv_addr d) = before ++ None :: after.
Proof.
  unfold addresses. induction before as [|[x|] before IH]; cbn [app destroy_scan].
  - intros _. now rewrite Nat.eqb_refl.
  - cbn [live_records map]. intros H. inversion H as [|a l Hnotin Hnodup]. subst.
    destruct (Nat.eqb_spec (dv_addr x) (dv_addr d)) as [E|_].
    + exfalso. apply Hnotin. rewrite E, live_records_app, map_app.
      apply in_or_app. right. now left.
    + f_equal. now apply IH.
  - cbn [live_records]. intros H. f_equal. now apply IH.
Qed.

(** X15: with no two records at one address, a device_unmount that
    succeeds clears the slot of the record device_search finds for the
    device node, and no other; its last two calls are the rmdir of that
    record's mountpoint and the helper with action "unmount". *)
Theorem device_unmount_releases (w : world) (dev : udev_device)
        (st st' : daemon) :
  NoDup (addresses (g_devices st)) ->
  device_unmount w dev st = Ok (true, st') ->
  exists d before after rest,
    device_search (Some (ud_devnode dev)) st = Some d /\
    g_devices st = before ++ Some d :: after /\
    g_devices st' = before ++ None :: after /\
    g_trace st' =
      EvSpawn CALLBACK_PATH "unmount" (dv_mountpoint d)
        :: EvRmdir (dv_mountpoint d) :: rest.
Proof.
  intros Hnodup Hun.
  destruct (device_search (Some (ud_devnode dev)) st) as [d|] eqn:Hfound.
  2: { rewrite (device_unmount_unknown w dev st Hfound) in Hun. discriminate. }
  destruct (fstab_search (g_mtab st) dev) as [m|] eqn:Hm.
  2: { rewrite (device_unmount_fault w dev st d Hfound Hm) in Hun. discriminate. }
  rewrite (device_unmount_found w dev st d m Hfound Hm) in Hun.
  destruct (search_scan_split _ _ _ Hfound) as (before & after & Hsplit & _).
  assert (Hslots : destroy_scan (g_devices st) (dv_addr d) = before ++ None :: after).
  { rewrite Hsplit in *. now apply destroy_scan_middle. }
  exists d, before, after.
  destruct m as [e|]; cbn [is_some] in Hun.
  - destruct (os_umount w (g_trace st) (dv_devnode d)); [|discriminate].
    injection Hun as <-. eexists. repeat split; [exact Hsplit | exact Hslots].
  - injection Hun as <-. eexists. repeat split; [exact Hsplit | exact Hslots].
Qed.

Lemma device_unmount_releases_witness :
  exists d before after rest,
    device_search (Some (ud_devnode Sample.sdb1)) Sample.one = Some d /\
    g_devices Sample.one = before ++ Some d :: after /\
    g_devices (released_state (Sample.sdb1_record 1) Sample.one)
      = before ++ None :: after /\
    g_trace (released_state (Sample.sdb1_record 1) Sample.one) =
      EvSpawn CALLBACK_PATH "unmount" (dv_mountpoint d)
        :: EvRmdir (dv_mountpoint d) :: rest.
Proof.
  assert (Hnodup : NoDup (addresses (g_devices Sample.one)))
    by (repeat constructor; intros []).
  exact (device_unmount_releases
           Sample.kind Sample.sdb1 Sample.one
           (released_state (Sample.sdb1_record 1) Sample.one) Hnodup eq_refl).
Defined.

(* Unmounting, reconciling and the remove command only clear slots. *)
Lemma releasing_clears (w : world) (op : operation) :
  added_path op = None -> keeps (on_devices cleared) (run w op).
Proof.
  destruct op as [dev|dev|dev|dev| |msg]; cbn [added_path run]; try discriminate;
    intros _.
  - apply (keeps_seq cleared cleared_trans).
    + exact (keeps_device_unmount cleared w cleared_refl cleared_trans
                                  cleared_destroy dev).
    + intros a. exact (keeps_ret cleared cleared_refl tt).
  - exact (keeps_check_loop cleared w cleared_refl cleared_trans cleared_destroy _ _).
  - exact (keeps_handle_ipc_event cleared w cleared_refl cleared_trans
                                  cleared_destroy msg).
Qed.

(** X16: unmount, reconcile and the remove command never write a record
    into the array and never move one: every slot holds afterwards what it
    held before, or nothing. *)
Theorem releasing_only_clears (w : world) (op : operation) (st st' : daemon)
        (j : nat) :
  added_path op = None ->
  run w op st = Ok (tt, st') ->
  List.length (g_devices st') = List.length (g_devices st) /\
  (slot_at j st' = None \/ slot_at j st' = slot_at j st).
Proof.
  intros Hop Hrun. apply (releasing_clears w op Hop) in Hrun.
  split; [now apply cleared_length | now apply cleared_nth].
Qed.

Lemma releasing_only_clears_witness :
  List.length (g_devices (released_state (Sample.sdb1_record 1) Sample.one))
    = List.length (g_devices Sample.one) /\
  (slot_at 0 (released_state (Sample.sdb1_record 1) Sample.one) = None \/
   slot_at 0 (released_state (Sample.sdb1_record 1) Sample.one)
     = slot_at 0 Sample.one).
Proof.
  exact (releasing_only_clears
           Sample.kind (OpUnmount Sample.sdb1) Sample.one
           (released_state (Sample.sdb1_record 1) Sample.one) 0 eq_refl eq_refl).
Defined.

(** ** Clearing the whole array *)

Lemma nth_clear_slot (j : nat) (s : list (option device_t)) :
  nth j (clear_slot j s) None = None.
Proof.
  revert j. induction s as [|a rest IH]; intros [|j]; cbn; auto.
Qed.

Lemma clear_loop_cleared (w : world) (n : nat) :
  forall j st st',
    clear_loop w n j st = Ok (tt, st') ->
    cleared (g_devices st) (g_devices st') /\
    forall i, j <= i < j + n -> nth i (g_devices st') None = None.
Proof.
  induction n as [|n IH]; intros j st st' H.
  - injection H as <-. split; [apply cleared_refl | lia].
  - cbn [clear_loop] in H. unfold bind at 1 in H. unfold gets at 1 in H.
    unfold bind at 1 in H.
    destruct ((match slot_at j st with
               | Some d => device_unmount w (dv_udev d);;; ret tt
               | None => ret tt
               end) st) as [[u st1]|] eqn:Hbody; [|discriminate].
    unfold bind at 1 in H. unfold modify at 1 in H.
    assert (Hst1 : cleared (g_devices st) (g_devices st1)).
    { destruct (slot_at j st) as [d|].
      - apply (keeps_seq cleared cleared_trans
                 (device_unmount w (dv_udev d)) (fun _ => ret tt)
                 (keeps_device_unmount cleared w cleared_refl cleared_trans
                                       cleared_destroy (dv_udev d))
                 (fun _ => keeps_ret cleared cleared_refl tt) st u st1 Hbody).
      - injection Hbody as _ <-. apply cleared_refl. }
    apply IH in H. destruct H as [Hrest Hnone].
    cbn [g_devices set_devices] in Hrest, Hnone.
    assert (Hst2 : cleared (g_devices st) (clear_slot j (g_devices st1)))
      by (eapply cleared_trans; [exact Hst1 | apply cleared_clear_slot]).
    split; [eapply cleared_trans; eassumption|].
    intros i Hi. destruct (Nat.eq_dec i j) as [->|Hij]; [|apply Hnone; lia].
    destruct (cleared_nth _ _ j Hrest) as [E|E]; [exact E|].
    rewrite E. apply nth_clear_slot.
Qed.

Lemma all_none (s : list (option device_t)) :
  (forall i, i < List.length s -> nth i s None = None) ->
  s = repeat None (List.length s).
Proof.
  induction s as [|a rest IH]; intros H; [reflexivity|].
  cbn [List.length repeat]. f_equal.
  - exact (H 0 ltac:(cbn; lia)).
  - apply IH. intros i Hi. exact (H (S i) ltac:(cbn; lia)).
Qed.

(** X17: device_list_clear leaves every slot of the array empty, whether
    or not the unmounts it attempts succeed. *)
Theorem device_list_clear_empties (w : world) (st st' : daemon) :
  registry_sized st ->
  device_list_clear w st = Ok (tt, st') ->
  g_devices st' = repeat None MAX_DEVICES.
Proof.
  unfold registry_sized, device_list_clear. intros Hsz H.
  apply clear_loop_cleared in H. destruct H as [Hc Hnone].
  apply cleared_length in Hc. rewrite <- Hsz, <- Hc.
  apply all_none. intros i Hi. apply Hnone. lia.
Qed.

Lemma device_list_clear_empties_witness :
  g_devices (Sample.state_after_clear Sample.hostile Sample.one_mounted)
    = repeat None MAX_DEVICES.
Proof.
  assert (Hrun : device_list_clear Sample.hostile Sample.one_mounted
                 = Ok (tt, Sample.state_after_clear Sample.hostile Sample.one_mounted))
    by (vm_compute; reflexivity).
  exact (device_list_clear_empties
           Sample.hostile Sample.one_mounted
           (Sample.state_after_clear Sample.hostile Sample.one_mounted)
           eq_refl Hrun).
Defined.

(** ** Reconciliation with the live table *)

Lemma search_scan_cleared_slot (before after : list (option device_t))
      (d d' : device_t) (path : string) :
  search_scan (before ++ Some d :: after) path = Some d' ->
  d' <> d ->
  search_scan (before ++ None :: after) path = Some d'.
Proof.
  intros H Hne. induction before as [|[x|] before IH];
    cbn [app search_scan] in *.
  - destruct (device_matches path d); [congruence | exact H].
  - destruct (device_matches path x); [exact H | now apply IH].
  - now apply IH.
Qed.

Lemma found_by_devnode_cleared_slot (before after : list (option device_t))
      (d : device_t) :
  NoDup (addresses (before ++ Some d :: after)) ->
  found_by_devnode (before ++ Some d :: after) ->
  found_by_devnode (before ++ None :: after).
Proof.
  unfold found_by_devnode, addresses. intros Hnodup Hfound d' Hin.
  rewrite live_records_app in Hin. cbn [live_records] in Hin.
  assert (Hin' : In d' (live_records (before ++ Some d :: after))).
  { rewrite live_records_app. cbn [live_records].
    apply in_app_or in Hin. apply in_or_app.
    destruct Hin; [now left | right; now right]. }
  apply search_scan_cleared_slot with (d := d); [now apply Hfound|].
  intros ->. rewrite live_records_app, map_app in Hnodup.
  cbn [live_records map] in Hnodup.
  apply NoDup_remove_2 in Hnodup. apply Hnodup.
  rewrite <- map_app. apply in_map. exact Hin.
Qed.

Lemma addresses_cleared_slot (before after : list (option device_t))
      (d : device_t) :
  NoDup (addresses (before ++ Some d :: after)) ->
  NoDup (addresses (before ++ None :: after)).
Proof.
  unfold addresses. rewrite !live_records_app, !map_app.
  cbn [live_records map]. apply NoDup_remove_1.
Qed.

Lemma slot_at_middle (st : daemon) (before after : list (option device_t))
      (slot : option device_t) :
  g_devices st = before ++ slot :: after ->
  slot_at (List.length before) st = slot.
Proof. intros H. unfold slot_at. rewrite H. apply nth_middle. Qed.

(* The loop of check_registered_devices over the slots from the one after
   [before] to the end of the array *)
Lemma check_loop_exact (w : world) (mtab : libmnt_table) :
  forall (rest before : list (option device_t)) (st : daemon),
    g_devices st = before ++ rest ->
    g_mtab st = mtab ->
    NoDup (addresses (g_devices st)) ->
    found_by_devnode (g_devices st) ->
    (forall d, In d (live_records rest) ->
               fstab_search mtab (dv_udev d) <> Fault) ->
    exists st',
      check_loop w (List.length rest) (List.length before) st = Ok (tt, st') /\
      g_devices st' = before ++ map (reconcile_slot mtab) rest /\
      extends st st' /\
      umount_calls (g_trace st') = umount_calls (g_trace st).
Proof.
  induction rest as [|slot rest IH];
    intros before st Hslots Hmtab Hnodup Hfound Hdefined.
  - exists st. rewrite Hslots. cbn [List.length check_loop map].
    repeat split; try reflexivity. now exists [].
  - cbn [List.length check_loop]. unfold bind at 1. unfold gets at 1.
    rewrite (slot_at_middle st before rest slot Hslots).
    assert (Hnext : forall st1,
               g_devices st1 = (before ++ [reconcile_slot mtab slot]) ++ rest ->
               g_mtab st1 = mtab ->
               NoDup (addresses (g_devices st1)) ->
               found_by_devnode (g_devices st1) ->
               extends st st1 ->
               umount_calls (g_trace st1) = umount_calls (g_trace st) ->
               exists st',
                 check_loop w (List.length rest) (S (List.length before)) st1
                   = Ok (tt, st') /\
                 g_devices st' = before ++ map (reconcile_slot mtab) (slot :: rest) /\
                 extends st st' /\
                 umount_calls (g_trace st') = umount_calls (g_trace st)).
    { intros st1 Hs1 Hm1 Hn1 Hf1 He1 Hu1.
      destruct (IH (before ++ [reconcile_slot mtab slot]) st1 Hs1 Hm1 Hn1 Hf1)
        as (st' & Hloop & Hdev & Hext & Hum).
      { intros d Hd. apply Hdefined. destruct slot; [now right | exact Hd]. }
      exists st'. rewrite length_app, Nat.add_1_r in Hloop.
      split; [exact Hloop|]. split; [now rewrite Hdev, <- app_assoc|].
      split; [|congruence].
      destruct He1 as (E1 & E2 & E3 & E4 & n1 & E5).
      destruct Hext as (F1 & F2 & F3 & F4 & n2 & F5).
      repeat split; try congruence. exists (n2 ++ n1).
      now rewrite F5, E5, app_assoc. }
    assert (Hsame : extends st st /\ umount_calls (g_trace st) = umount_calls (g_trace st))
      by (repeat split; now exists []).
    destruct slot as [d|].
    + unfold bind at 1. unfold bind at 1. unfold device_is_mounted at 1.
      rewrite Hmtab.
      destruct (fstab_search mtab (dv_udev d)) as [[e|]|] eqn:Hshown.
      * cbn [obind is_some ret].
        apply Hnext; try assumption; try tauto.
        cbn [reconcile_slot]. unfold shown_mounted. rewrite Hshown.
        now rewrite <- app_assoc.
      * cbn [obind is_some].
        assert (Hd : device_search (Some (ud_devnode (dv_udev d))) st = Some d).
        { apply Hfound. rewrite Hslots, live_records_app.
          apply in_or_app. right. now left. }
        unfold bind at 1.
        rewrite (device_unmount_found w (dv_udev d) st d None Hd)
          by now rewrite Hmtab.
        cbn [is_some ret]. rewrite Hslots in Hnodup, Hfound.
        apply Hnext.
        -- cbn [released_state g_devices set_devices add_event].
           rewrite Hslots, destroy_scan_middle by exact Hnodup.
           cbn [reconcile_slot]. unfold shown_mounted. rewrite Hshown.
           now rewrite <- app_assoc.
        -- exact Hmtab.
        -- cbn [released_state g_devices set_devices add_event].
           rewrite Hslots, destroy_scan_middle by exact Hnodup.
           eapply addresses_cleared_slot. exact Hnodup.
        -- cbn [released_state g_devices set_devices add_event].
           rewrite Hslots, destroy_scan_middle by exact Hnodup.
           eapply found_by_devnode_cleared_slot; eassumption.
        -- repeat split.
           exists [EvSpawn CALLBACK_PATH "unmount" (dv_mountpoint d);
                   EvRmdir (dv_mountpoint d)]. reflexivity.
        -- reflexivity.
      * exfalso. apply (Hdefined d); [now left | exact Hshown].
    + unfold bind at 1. cbn [ret].
      apply Hnext; try assumption; try tauto.
      cbn [reconcile_slot]. now rewrite <- app_assoc.
Qed.

(** X18: in an array where no two records share an address and every
    record is the one found for its own device node, and with property
    values that fit the lookup buffer, check_registered_devices clears
    exactly the slots of the records the live table does not show and
    leaves the other slots as they are; it never calls the executor. *)
Theorem check_registered_devices_exact (w : world) (st : daemon) :
  registry_sized st ->
  NoDup (addresses (g_devices st)) ->
  found_by_devnode (g_devices st) ->
  (forall d, In d (live_records (g_devices st)) ->
             fstab_search (g_mtab st) (dv_udev d) <> Fault) ->
  exists st',
    check_registered_devices w st = Ok (tt, st') /\
    g_devices st' = map (reconcile_slot (g_mtab st)) (g_devices st) /\
    extends st st' /\
    umount_calls (g_trace st') = umount_calls (g_trace st).
Proof.
  unfold registry_sized, check_registered_devices.
  intros Hsz Hnodup Hfound Hdefined. rewrite <- Hsz.
  exact (check_loop_exact w (g_mtab st) (g_devices st) [] st eq_refl eq_refl
                          Hnodup Hfound Hdefined).
Qed.

Lemma check_registered_devices_exact_witness :
  exists st',
    check_registered_devices Sample.kind Sample.two = Ok (tt, st') /\
    g_devices st' = map (reconcile_slot (g_mtab Sample.two)) (g_devices Sample.two) /\
    extends Sample.two st' /\
    umount_calls (g_trace st') = umount_calls (g_trace Sample.two).
Proof.
  assert (Hnodup : NoDup (addresses (g_devices Sample.two))).
  { change (addresses (g_devices Sample.two)) with [1; 2].
    repeat constructor; cbn; intuition discriminate. }
  assert (Hfound : found_by_devnode (g_devices Sample.two)).
  { intros d [<- | [<- | []]]; reflexivity. }
  assert (Hdefined : forall d, In d (live_records (g_devices Sample.two)) ->
                               fstab_search (g_mtab Sample.two) (dv_udev d) <> Fault).
  { intros d [<- | [<- | []]]; discriminate. }
  exact (check_registered_devices_exact Sample.kind Sample.two eq_refl
                                        Hnodup Hfound Hdefined).
Defined.

(* Of two registered partitions the live table shows one: reconciliation
   keeps that one and releases the other. *)
Example check_registered_devices_two :
  map (reconcile_slot (g_mtab Sample.two)) (g_devices Sample.two)
  = Some (Sample.sdb1_record 1) :: repeat None 19.
Proof. reflexivity. Qed.

(** ** The globals the operations leave alone *)

Section Globals.

(* R holds between a state and any state that differs from it in the array
   and in calls added to the trace. *)
Variable R : daemon -> daemon -> Prop.
Variable w : world.

Hypothesis R_refl : forall st, R st st.
Hypothesis R_trans : forall s1 s2 s3, R s1 s2 -> R s2 s3 -> R s1 s3.
Hypothesis R_event : forall e st, R st (add_event e st).
Hypothesis R_devices : forall slots st, R st (set_devices slots st).

Lemma left_ret {A} (a : A) : keeps R (ret a).
Proof. intros st a' st' H. injection H as _ <-. apply R_refl. Qed.

Lemma left_gets {A} (f : daemon -> A) : keeps R (gets f).
Proof. intros st a' st' H. injection H as _ <-. apply R_refl. Qed.

Lemma left_lift {A} (o : outcome A) : keeps R (lift o).
Proof.
  intros st a st' H. unfold lift in H. destruct o; [|discriminate].
  injection H as _ <-. apply R_refl.
Qed.

Lemma left_emit (e : event) : keeps R (emit e).
Proof. intros st a st' H. injection H as _ <-. apply R_event. Qed.

Lemma left_set_devices (f : daemon -> list (option device_t)) :
  keeps R (modify (fun st => set_devices (f st) st)).
Proof. intros st a st' H. injection H as _ <-. apply R_devices. Qed.

Lemma left_device_destroy (addr : nat) : keeps R (device_destroy addr).
Proof. apply left_set_devices. Qed.

Lemma left_device_register (r : device_t) : keeps R (device_register r).
Proof.
  intros st a st' H. unfold device_register in H.
  destruct (register_scan (g_devices st) r); injection H as _ <-;
    [apply R_devices | apply R_refl].
Qed.

Lemma left_device_is_mounted (dev : udev_device) : keeps R (device_is_mounted dev).
Proof.
  intros st a st' H. unfold device_is_mounted in H.
  destruct (fstab_search (g_mtab st) dev); [|discriminate].
  injection H as _ <-. apply R_refl.
Qed.

Lemma left_seq {A B} (m : M A) (k : A -> M B) :
  keeps R m -> (forall a, keeps R (k a)) -> keeps R (bind m k).
Proof. apply keeps_bind. exact R_trans. Qed.

Ltac left_alone :=
  repeat first
    [ apply left_ret | apply left_gets | apply left_lift | apply left_emit
    | apply left_device_destroy | apply left_device_register
    | apply left_device_is_mounted | apply left_set_devices
    | match goal with
      | |- keeps _ (bind _ _) => apply left_seq; [|intros ?]
      | |- keeps _ (match ?x with _ => _ end) => destruct x
      | |- keeps _ (let _ := _ in _) => cbv zeta
      end ].

Lemma left_spawn_helper (helper : option string) (action mountpoint : string) :
  keeps R (spawn_helper w helper action mountpoint).
Proof. unfold spawn_helper. left_alone. Qed.

Lemma left_device_new (dev : udev_device) : keeps R (device_new w dev).
Proof. unfold device_new. left_alone. Qed.

Lemma left_device_unmount (dev : udev_device) : keeps R (device_unmount w dev).
Proof. unfold device_unmount. left_alone; apply left_spawn_helper. Qed.

Lemma left_device_mount (dev : udev_device) : keeps R (device_mount w dev).
Proof.
  unfold device_mount. apply left_seq; [apply left_device_new|].
  intros [d|]; left_alone;
    first [apply left_device_unmount | apply left_spawn_helper].
Qed.

Lemma left_device_change (dev : udev_device) : keeps R (device_change w dev).
Proof.
  unfold device_change. left_alone;
    first [apply left_device_unmount | apply left_device_mount].
Qed.

Lemma left_handle_ipc_event (msg : string) : keeps R (handle_ipc_event w msg).
Proof.
  unfold handle_ipc_event.
  destruct msg as [|c msg]; [apply left_ret|].
  destruct (Ascii.eqb_spec c "R") as [->|Hc].
  - cbn beta iota. left_alone; apply left_device_unmount.
  - destruct c as [[] [] [] [] [] [] [] []]; try apply left_ret. congruence.
Qed.

Lemma left_check_loop (n j : nat) : keeps R (check_loop w n j).
Proof.
  revert j. induction n as [|n IH]; intros j; cbn [check_loop].
  - apply left_ret.
  - left_alone; try apply left_device_unmount; apply IH.
Qed.

Lemma left_clear_loop (n j : nat) : keeps R (clear_loop w n j).
Proof.
  revert j. induction n as [|n IH]; intros j; cbn [clear_loop].
  - apply left_ret.
  - left_alone; try apply left_device_unmount; apply IH.
Qed.

Lemma left_mount_plugged_devices (devices : list udev_device) :
  keeps R (mount_plugged_devices w devices).
Proof.
  induction devices as [|dev rest IH]; cbn [mount_plugged_devices].
  - apply left_ret.
  - left_alone; try apply left_device_mount; apply IH.
Qed.

Lemma left_run (op : operation) : keeps R (run w op).
Proof.
  destruct op; cbn [run]; left_alone;
    first [ apply left_device_new | apply left_device_mount
          | apply left_device_unmount | apply left_device_change
          | apply left_check_loop | apply left_handle_ipc_event ].
Qed.

End Globals.

Lemma extends_refl (st : daemon) : extends st st.
Proof. repeat split. now exists []. Qed.

Lemma extends_trans (s1 s2 s3 : daemon) :
  extends s1 s2 -> extends s2 s3 -> extends s1 s3.
Proof.
  intros (E1 & E2 & E3 & E4 & n1 & E5) (F1 & F2 & F3 & F4 & n2 & F5).
  repeat split; try congruence. exists (n2 ++ n1). now rewrite F5, E5, app_assoc.
Qed.

Lemma extends_event (e : event) (st : daemon) : extends st (add_event e st).
Proof. repeat split. now exists [e]. Qed.

Lemma extends_devices (slots : list (option device_t)) (st : daemon) :
  extends st (set_devices slots st).
Proof. repeat split. now exists []. Qed.

(** X19: no operation on devices (create, mount, unmount, change,
    reconcile, the remove command), nor the startup scan or the final
    clearing of the array, writes the fstab or live-table snapshot or the
    uid and gid; calls are only added to the trace, none is taken back. *)
Theorem operations_extend (w : world) (st st' : daemon) :
  (forall op, run w op st = Ok (tt, st') -> extends st st') /\
  (forall devices,
      mount_plugged_devices w devices st = Ok (tt, st') -> extends st st') /\
  (device_list_clear w st = Ok (tt, st') -> extends st st').
Proof.
  split; [|split].
  - intros op. exact (left_run extends w extends_refl extends_trans
                               extends_event extends_devices op st tt st').
  - intros devices.
    exact (left_mount_plugged_devices extends w extends_refl extends_trans
             extends_event extends_devices devices st tt st').
  - exact (left_clear_loop extends w extends_refl extends_trans
             extends_event extends_devices MAX_DEVICES 0 st tt st').
Qed.

(** ** What holds in every state the daemon reaches *)

Ltac cleared_side :=
  first [exact cleared_refl | exact cleared_trans | exact cleared_destroy].

Lemma clears_ret {A} (a : A) : keeps (on_devices cleared) (ret a).
Proof. apply (keeps_ret cleared); cleared_side. Qed.

Lemma clears_gets {A} (f : daemon -> A) : keeps (on_devices cleared) (gets f).
Proof. apply (keeps_gets cleared); cleared_side. Qed.

Lemma clears_emit (e : event) : keeps (on_devices cleared) (emit e).
Proof. apply (keeps_emit cleared); cleared_side. Qed.

Lemma clears_seq {A B} (m : M A) (k : A -> M B) :
  keeps (on_devices cleared) m ->
  (forall a, keeps (on_devices cleared) (k a)) ->
  keeps (on_devices cleared) (bind m k).
Proof. apply (keeps_seq cleared); cleared_side. Qed.

Lemma clears_device_is_mounted (dev : udev_device) :
  keeps (on_devices cleared) (device_is_mounted dev).
Proof. apply (keeps_device_is_mounted cleared); cleared_side. Qed.

Lemma clears_spawn_helper (w : world) (helper : option string)
      (action mountpoint : string) :
  keeps (on_devices cleared) (spawn_helper w helper action mountpoint).
Proof. apply (keeps_spawn_helper cleared); cleared_side. Qed.

Lemma clears_device_unmount (w : world) (dev : udev_device) :
  keeps (on_devices cleared) (device_unmount w dev).
Proof. apply (keeps_device_unmount cleared); cleared_side. Qed.

Lemma clears_check_loop (w : world) (n j : nat) :
  keeps (on_devices cleared) (check_loop w n j).
Proof. apply (keeps_check_loop cleared); cleared_side. Qed.

Lemma clears_check_registered_devices (w : world) :
  keeps (on_devices cleared) (check_registered_devices w).
Proof. exact (clears_check_loop w MAX_DEVICES 0). Qed.

Lemma clears_handle_ipc_event (w : world) (msg : string) :
  keeps (on_devices cleared) (handle_ipc_event w msg).
Proof. apply (keeps_handle_ipc_event cleared); cleared_side. Qed.

Ltac clears :=
  repeat match goal with
         | |- keeps _ (ret _) => apply clears_ret
         | |- keeps _ (gets _) => apply clears_gets
         | |- keeps _ (emit _) => apply clears_emit
         | |- keeps _ (device_is_mounted _) => apply clears_device_is_mounted
         | |- keeps _ (spawn_helper _ _ _ _) => apply clears_spawn_helper
         | |- keeps _ (device_unmount _ _) => apply clears_device_unmount
         | |- keeps _ (check_registered_devices _) =>
             apply clears_check_registered_devices
         | |- keeps _ (handle_ipc_event _ _) => apply clears_handle_ipc_event
         | |- keeps _ (bind _ _) => apply clears_seq; [|intros ?]
         | |- keeps _ (match ?x with _ => _ end) => destruct x
         | |- keeps _ (let _ := _ in _) => cbv zeta
         end.

(* Being built survives the clearing of slots and a change of the tables
   or of the trace. *)
Lemma registry_built_cleared (st st' : daemon) :
  on_devices cleared st st' -> registry_built st -> registry_built st'.
Proof.
  unfold on_devices, registry_built, registry_sized.
  intros Hc (Hsz & Hnodup & Hall). split; [|split].
  - now rewrite (cleared_length _ _ Hc).
  - eapply cleared_addresses; eassumption.
  - apply Forall_forall. intros d Hd. rewrite Forall_forall in Hall.
    apply Hall. eapply cleared_live; eassumption.
Qed.

Lemma register_scan_addresses (s s' : list (option device_t)) (d : device_t) :
  register_scan s d = Some s' ->
  ~ In (dv_addr d) (addresses s) ->
  NoDup (addresses s) ->
  NoDup (addresses s') /\
  (forall x, In x (live_records s') -> x = d \/ In x (live_records s)).
Proof.
  unfold addresses. revert s'.
  induction s as [|[x|] rest IH]; cbn [register_scan]; intros s' Hreg Hfresh Hnodup.
  - discriminate.
  - destruct (register_scan rest d) as [rest'|]; [|discriminate].
    injection Hreg as <-. cbn [live_records map] in *.
    inversion Hnodup as [|a l Hnotin Hrest]. subst.
    destruct (IH rest' eq_refl) as [Hn Hin];
      [intros Hc; apply Hfresh; now right | exact Hrest |].
    split.
    + constructor; [|exact Hn]. intros Hx. apply in_map_iff in Hx.
      destruct Hx as (y & Hy & Hyin). destruct (Hin y Hyin) as [-> | Hold].
      * apply Hfresh. left. exact (eq_sym Hy).
      * apply Hnotin. rewrite <- Hy. now apply in_map.
    + intros y [<- | Hy]; [right; now left|].
      destruct (Hin y Hy); [now left | right; now right].
  - injection Hreg as <-. cbn [live_records map] in *. split.
    + now constructor.
    + intros y [<- | Hy]; [now left | now right].
Qed.

Lemma calloc_device_unused (st : daemon) :
  ~ In (calloc_device st) (addresses (g_devices st)).
Proof.
  unfold addresses. intros H. apply in_map_iff in H.
  destruct H as (d & Hd & Hin). apply calloc_device_fresh in Hin. lia.
Qed.

Lemma device_new_built (w : world) (dev : udev_device) :
  keeps keeps_built (device_new w dev).
Proof.
  intros st r st' Hnew Hbuilt.
  pose proof (device_new_cases w dev st) as Hc. rewrite Hnew in Hc.
  destruct r as [d|].
  - destruct Hc as (Hreg & _ & Haddr & Hnode & Hudev & Hfs & Hwanted & Htype & Hmedia).
    destruct Hbuilt as (Hsz & Hnodup & Hall).
    destruct (register_scan_addresses _ _ _ Hreg) as [Hn Hin];
      [rewrite Haddr; apply calloc_device_unused | exact Hnodup |].
    split; [|split].
    + unfold registry_sized in *.
      now destruct (register_scan_some _ _ _ Hreg) as (-> & _).
    + exact Hn.
    + apply Forall_forall. intros x Hx. rewrite Forall_forall in Hall.
      destruct (Hin x Hx) as [-> | Hold]; [|now apply Hall].
      unfold record_built. rewrite Hudev. auto.
  - destruct Hc as [Hd _]. destruct Hbuilt as (Hsz & Hnodup & Hall).
    unfold registry_built, registry_sized. now rewrite Hd.
Qed.

Lemma keeps_built_seq {A B} (m : M A) (k : A -> M B) :
  keeps keeps_built m -> (forall a, keeps keeps_built (k a)) ->
  keeps keeps_built (bind m k).
Proof. apply keeps_bind. unfold keeps_built. auto. Qed.

Lemma keeps_built_clears {A} (m : M A) :
  keeps (on_devices cleared) m -> keeps keeps_built m.
Proof.
  apply keeps_weaken. intros s s' Hc Hb.
  exact (registry_built_cleared s s' Hc Hb).
Qed.

Lemma device_mount_built (w : world) (dev : udev_device) :
  keeps keeps_built (device_mount w dev).
Proof.
  unfold device_mount. apply keeps_built_seq; [apply device_new_built|].
  intros created. apply keeps_built_clears. clears.
Qed.

Lemma device_change_built (w : world) (dev : udev_device) :
  keeps keeps_built (device_change w dev).
Proof.
  unfold device_change. apply keeps_built_seq; [apply keeps_built_clears; clears|].
  intros found. apply keeps_built_seq; [apply keeps_built_clears; clears|].
  intros [|]; [apply keeps_built_clears; clears|].
  apply keeps_built_seq; [apply device_mount_built|].
  intros mounted. apply keeps_built_clears. clears.
Qed.

Lemma mount_plugged_devices_built (w : world) (devices : list udev_device) :
  keeps keeps_built (mount_plugged_devices w devices).
Proof.
  induction devices as [|dev rest IH]; cbn [mount_plugged_devices].
  - apply keeps_built_clears. clears.
  - apply keeps_built_seq; [apply keeps_built_clears; clears|].
    intros [|]; (apply keeps_built_seq; [|intros ?; exact IH]).
    + apply keeps_built_clears. clears.
    + apply keeps_built_seq; [apply device_mount_built|].
      intros ?. apply keeps_built_clears. clears.
Qed.

Lemma main_loop_body_built (w : world) (i : input) :
  keeps keeps_built (main_loop_body w i).
Proof.
  destruct i as [action dev|[tab|]|[tab|]|msg]; cbn [main_loop_body].
  - apply keeps_built_seq; [|intros ?; apply keeps_built_clears; clears].
    destruct (String.eqb action "add");
      [apply keeps_built_seq;
       [apply device_mount_built | intros ?; apply keeps_built_clears; clears]|].
    destruct (String.eqb action "remove"); [apply keeps_built_clears; clears|].
    destruct (String.eqb action "change");
      [apply keeps_built_seq;
       [apply device_change_built | intros ?; apply keeps_built_clears; clears]|].
    apply keeps_built_clears. clears.
  - apply keeps_built_seq; [|intros ?; apply keeps_built_clears; clears].
    intros st a st' H. injection H as _ <-. exact (fun Hb => Hb).
  - apply keeps_built_clears. clears.
  - apply keeps_built_seq;
      [|intros ?; apply keeps_built_clears; clears].
    intros st a st' H. injection H as _ <-. exact (fun Hb => Hb).
  - apply keeps_built_clears. clears.
  - apply keeps_built_clears. clears.
Qed.

(** X20: in every state the daemon reaches, the array has MAX_DEVICES
    slots, no two records share an address, and every record is as
    device_new built it: its device node is that of its udev device, its
    filesystem is the ID_FS_TYPE of that device and none of swap,
    LVM2_member and crypto_LUKS, it is a volume or an optical disc, and the
    device had media. *)
Theorem reachable_built (w : world) (st : daemon) :
  reachable w st -> registry_built st.
Proof.
  induction 1 as [uid gid fstab mtab | devs st st' _ IH H | fstab mtab st _ IH
                 | i st r st' _ IH H].
  - split; [apply repeat_length|].
    assert (E : live_records (g_devices (startup uid gid fstab mtab)) = []).
    { unfold startup. cbn [g_devices]. generalize MAX_DEVICES as n.
      induction n as [|n IHn]; [reflexivity | exact IHn]. }
    unfold addresses. rewrite E. split; constructor.
  - exact (mount_plugged_devices_built w devs st tt st' H IH).
  - exact IH.
  - exact (main_loop_body_built w i st r st' H IH).
Qed.

Lemma reachable_built_witness : registry_built Sample.changed.
Proof.
  apply (reachable_built Sample.kind).
  apply reach_round with (i := Hotplug "change" Sample.sdb1)
                         (st := Sample.added) (running := true).
  - apply reach_round with (i := Hotplug "add" Sample.sdb1)
                           (st := Sample.empty) (running := true).
    + apply reach_startup.
    + vm_compute. reflexivity.
  - vm_compute. reflexivity.
Defined.
